(** * docker-slim: the container execution inspector

    A shallow embedding of
    [internal/app/master/inspectors/container/container_inspector.go]:
    the overrides resolver of [NewInspector], the launch sequence of
    [RunContainer], the sensor handshake of [FinishMonitoring] and the
    teardown of [ShutdownContainer].

    The Go code talks to the Docker API, to the sensor IPC channels and to
    the logger.  Every such call is recorded, in program order, in a trace;
    what the outside answers is read from a [World].  Go maps are reference
    values: the port maps live in a store, and the fields that hold a map
    hold its address. *)

From stdpp Require Import gmap strings list fin_maps.

(** ** Go runtime *)

Module Go.

(** Error values.  An [error] interface value is an [option error], [None]
    being [nil].  The inspector tells errors apart in two ways only: by a
    type assertion to [dockerapi.ContainerNotRunning] and by comparing
    the text of [Error()]. *)
Inductive error : Type :=
| ContainerNotRunning (id : string)
| ErrorString (msg : string).

Definition Error (e : error) : string :=
  match e with
  | ContainerNotRunning id => "Container not running: " +:+ id
  | ErrorString msg => msg
  end.

(** The type assertion of [err] to a pointer to
    [dockerapi.ContainerNotRunning]. *)
Definition isContainerNotRunning (err : option error) : bool :=
  match err with
  | Some (ContainerNotRunning _) => true
  | _ => false
  end.

(** [len(s) > 0] on a slice; a nil slice and an empty one are both []. *)
Definition nonempty {A} (s : list A) : bool := 0 <? length s.

(** The order in which [range] visits a map is chosen by the runtime.
    [shuffle n seed l] picks the elements of [l] one by one, the position
    of each pick being read off [seed]; every order of [l] is the one of
    some seed ([shuffle_complete] below). *)
Fixpoint shuffle {A} (n seed : nat) (l : list A) : list A :=
  match n with
  | 0 => []
  | S n' =>
      let j := seed mod length l in
      match l !! j with
      | None => []
      | Some x => x :: shuffle n' (seed / length l) (delete j l)
      end
  end.

Definition rangeOrder {V} (seed : nat) (m : gmap string V) : list (string * V) :=
  shuffle (size m) seed (map_to_list m).

(** How a run ends: it returns, the process exits through the fatal
    logger, or it panics. *)
Inductive Result (A : Type) : Type :=
| Ok (a : A)
| Fatal (msg : string)
| Panic (msg : string).
#[global] Arguments Ok {A} a.
#[global] Arguments Fatal {A} msg.
#[global] Arguments Panic {A} msg.

Definition nilDeref : string := "invalid memory address or nil pointer dereference".
Definition indexOutOfRange : string := "index out of range".
Definition nilMapWrite : string := "assignment to entry in nil map".

End Go.
Export Go.

(** ** Types of the collaborators *)

(** github.com/cloudimmunity/go-dockerclientx, the fields the inspector
    reads or writes. *)
Module dockerapi.

Definition Port : Type := string.

(** A [map[Port]struct{}] value: nil, or the address of a map in the
    store. *)
Definition PortSet : Type := option nat.

Record PortBinding : Type := { HostIP : string; HostPort : string }.

Record NetworkSettings : Type :=
  { Ports : gmap Port (list PortBinding) }.

Record Container : Type :=
  { ID : string;
    NetworkSettings_ : option NetworkSettings }.

Record Config : Type :=
  { Image : string;
    ExposedPorts : PortSet;
    Entrypoint : list string;
    Cmd : list string;
    Env : list string;
    Labels : gmap string string;
    Hostname : string;
    DNS : list string }.

Record HostConfig : Type :=
  { Binds : list string;
    PublishAllPorts : bool;
    CapAdd : list string;
    Privileged : bool;
    NetworkMode : string;
    Links : list string;
    ExtraHosts : list string;
    HostDNS : list string;
    DNSSearch : list string }.

Record CreateContainerOptions : Type :=
  { Name : string;
    Config_ : Config;
    HostConfig_ : HostConfig }.

Record RemoveContainerOptions : Type :=
  { RemoveID : string;
    RemoveVolumes : bool;
    Force : bool }.

Record LogsOptions : Type :=
  { LogsContainer : string;
    Stdout : bool;
    Stderr : bool }.

End dockerapi.

Module config.

(** Modelled from the spec: the declaration of [config.ContainerOverrides]
    is not part of the sources at hand.  "ContainerOverrides: entrypoint
    list, cmd list, clear-entrypoint/clear-cmd flags, env, labels,
    hostname, exposed ports, network mode"; the field names are the ones
    the inspector uses. *)
Record ContainerOverrides : Type :=
  { Entrypoint : list string;
    ClearEntrypoint : bool;
    Cmd : list string;
    ClearCmd : bool;
    Env : list string;
    Labels : gmap string string;
    Hostname : string;
    Network : string;
    ExposedPorts : dockerapi.PortSet }.

(** Modelled from the spec: the declaration of [config.VolumeMount] is not
    part of the sources at hand.  "VolumeMount: source, destination, mount
    options". *)
Record VolumeMount : Type :=
  { Source : string; Destination : string; Options : string }.

End config.

Module image.

(** [imageInspector.ImageInfo.Config], the two fields read here. *)
Record ImageConfig : Type :=
  { Entrypoint : list string; Cmd : list string }.

Record Inspector : Type :=
  { ImageRef : string;
    ImageInfoConfig : ImageConfig;
    ArtifactLocation : string;
    AppArmorProfileName : string;
    SeccompProfileName : string }.

End image.

Module command.

(** Modelled from the spec: package [pkg/ipc/command] is not part of the
    sources at hand.  "Command (tagged variant consumed by the sensor):
    StartMonitor{AppName, AppArgs, Excludes, Includes}, StopMonitor{},
    ShutdownSensor{}". *)
Record StartMonitor : Type :=
  { AppName : string;
    AppArgs : list string;
    Excludes : list string;
    Includes : list string }.

Inductive Message : Type :=
| StartMonitorMsg (cmd : StartMonitor)
| StopMonitor
| ShutdownSensor.

End command.

(** ** Constants *)

Definition IpcErrRecvTimeoutStr : string := "receive time out".

Definition SensorBinPath : string := "/opt/dockerslim/bin/sensor".
Definition ArtifactsDir : string := "artifacts".
Definition SensorBinLocal : string := "docker-slim-sensor".
Definition CmdPortDefault : dockerapi.Port := "65501/tcp".
Definition EvtPortDefault : dockerapi.Port := "65502/tcp".
Definition LabelName : string := "dockerslim".

(** [fmt.Sprintf(ContainerNamePat, pid, stamp)], pattern "dockerslimk_%v_%v" *)
Definition ContainerNamePat (pid stamp : string) : string :=
  "dockerslimk_" +:+ pid +:+ "_" +:+ stamp.
(** [fmt.Sprintf(ArtifactsMountPat, p)], pattern "%s:/opt/dockerslim/artifacts" *)
Definition ArtifactsMountPat (p : string) : string :=
  p +:+ ":/opt/dockerslim/artifacts".
(** [fmt.Sprintf(SensorMountPat, p)], pattern "%s:/opt/dockerslim/bin/sensor:ro" *)
Definition SensorMountPat (p : string) : string :=
  p +:+ ":/opt/dockerslim/bin/sensor:ro".

(** ** The inspector *)

(** The [APIClient] handle is the [World] below. *)
Record Inspector : Type :=
  { ContainerInfo : option dockerapi.Container;
    ContainerID : string;
    ContainerName : string;
    FatContainerCmd : list string;
    LocalVolumePath : string;
    CmdPort : dockerapi.Port;
    EvtPort : dockerapi.Port;
    DockerHostIP : string;
    ImageInspector : image.Inspector;
    Overrides : option config.ContainerOverrides;
    Links : list string;
    EtcHostsMaps : list string;
    DnsServers : list string;
    DnsSearchDomains : list string;
    ShowContainerLogs : bool;
    VolumeMounts : gmap string config.VolumeMount;
    ExcludePaths : gmap string bool;
    IncludePaths : gmap string bool;
    DoDebug : bool }.

Definition set_ContainerName (v : string) (i : Inspector) : Inspector :=
  {| ContainerInfo := ContainerInfo i; ContainerID := ContainerID i;
     ContainerName := v; FatContainerCmd := FatContainerCmd i;
     LocalVolumePath := LocalVolumePath i; CmdPort := CmdPort i;
     EvtPort := EvtPort i; DockerHostIP := DockerHostIP i;
     ImageInspector := ImageInspector i; Overrides := Overrides i;
     Links := Links i; EtcHostsMaps := EtcHostsMaps i;
     DnsServers := DnsServers i; DnsSearchDomains := DnsSearchDomains i;
     ShowContainerLogs := ShowContainerLogs i; VolumeMounts := VolumeMounts i;
     ExcludePaths := ExcludePaths i; IncludePaths := IncludePaths i;
     DoDebug := DoDebug i |}.

Definition set_ContainerID (v : string) (i : Inspector) : Inspector :=
  {| ContainerInfo := ContainerInfo i; ContainerID := v;
     ContainerName := ContainerName i; FatContainerCmd := FatContainerCmd i;
     LocalVolumePath := LocalVolumePath i; CmdPort := CmdPort i;
     EvtPort := EvtPort i; DockerHostIP := DockerHostIP i;
     ImageInspector := ImageInspector i; Overrides := Overrides i;
     Links := Links i; EtcHostsMaps := EtcHostsMaps i;
     DnsServers := DnsServers i; DnsSearchDomains := DnsSearchDomains i;
     ShowContainerLogs := ShowContainerLogs i; VolumeMounts := VolumeMounts i;
     ExcludePaths := ExcludePaths i; IncludePaths := IncludePaths i;
     DoDebug := DoDebug i |}.

Definition set_ContainerInfo (v : option dockerapi.Container) (i : Inspector) : Inspector :=
  {| ContainerInfo := v; ContainerID := ContainerID i;
     ContainerName := ContainerName i; FatContainerCmd := FatContainerCmd i;
     LocalVolumePath := LocalVolumePath i; CmdPort := CmdPort i;
     EvtPort := EvtPort i; DockerHostIP := DockerHostIP i;
     ImageInspector := ImageInspector i; Overrides := Overrides i;
     Links := Links i; EtcHostsMaps := EtcHostsMaps i;
     DnsServers := DnsServers i; DnsSearchDomains := DnsSearchDomains i;
     ShowContainerLogs := ShowContainerLogs i; VolumeMounts := VolumeMounts i;
     ExcludePaths := ExcludePaths i; IncludePaths := IncludePaths i;
     DoDebug := DoDebug i |}.

Definition set_DockerHostIP (v : string) (i : Inspector) : Inspector :=
  {| ContainerInfo := ContainerInfo i; ContainerID := ContainerID i;
     ContainerName := ContainerName i; FatContainerCmd := FatContainerCmd i;
     LocalVolumePath := LocalVolumePath i; CmdPort := CmdPort i;
     EvtPort := EvtPort i; DockerHostIP := v;
     ImageInspector := ImageInspector i; Overrides := Overrides i;
     Links := Links i; EtcHostsMaps := EtcHostsMaps i;
     DnsServers := DnsServers i; DnsSearchDomains := DnsSearchDomains i;
     ShowContainerLogs := ShowContainerLogs i; VolumeMounts := VolumeMounts i;
     ExcludePaths := ExcludePaths i; IncludePaths := IncludePaths i;
     DoDebug := DoDebug i |}.

Definition set_FatContainerCmd (v : list string) (i : Inspector) : Inspector :=
  {| ContainerInfo := ContainerInfo i; ContainerID := ContainerID i;
     ContainerName := ContainerName i; FatContainerCmd := v;
     LocalVolumePath := LocalVolumePath i; CmdPort := CmdPort i;
     EvtPort := EvtPort i; DockerHostIP := DockerHostIP i;
     ImageInspector := ImageInspector i; Overrides := Overrides i;
     Links := Links i; EtcHostsMaps := EtcHostsMaps i;
     DnsServers := DnsServers i; DnsSearchDomains := DnsSearchDomains i;
     ShowContainerLogs := ShowContainerLogs i; VolumeMounts := VolumeMounts i;
     ExcludePaths := ExcludePaths i; IncludePaths := IncludePaths i;
     DoDebug := DoDebug i |}.

(** ** Effects *)

Inductive Level : Type := Debug | Info | Warn | FatalLevel.

(** What the inspector does to the outside, in program order.  A log entry
    keeps the level and the message; of the arguments of a formatted
    message only plain strings are rendered. *)
Inductive Event : Type :=
| ELog (lvl : Level) (msg : string)
| EPrint (line : string)
| ECreateContainer (opts : dockerapi.CreateContainerOptions)
| EStartContainer (id : string)
| EInspectContainer (id : string)
| EStopContainer (id : string) (timeout : nat)
| ERemoveContainer (opts : dockerapi.RemoveContainerOptions)
| ELogs (opts : dockerapi.LogsOptions)
| EGetIP
| EInitContainerChannels (ip cmdPort evtPort : string)
| ESendContainerCmd (cmd : command.Message)
| EGetContainerEvt
| EShutdownContainerChannels.

(** The answers of the outside.  The Docker client returns a container or
    an error; the IPC calls return a rendered response and an error. *)
Record World : Type :=
  { ExeDir : string;
    Getpid : string;
    Now : string;
    filepath_Join : string → string → string;
    mapSeed : nat → nat;
    CreateContainer : dockerapi.CreateContainerOptions → dockerapi.Container + error;
    StartContainer : string → option error;
    InspectContainer : string → dockerapi.Container + error;
    StopContainer : string → nat → option error;
    RemoveContainer : dockerapi.RemoveContainerOptions → option error;
    Logs : dockerapi.LogsOptions → string * string * option error;
    GetIP : string;
    InitContainerChannels : string → string → string → option error;
    SendContainerCmd : command.Message → string * option error;
    GetContainerEvt : string * option error }.

(** The store of port maps, the trace, and the number of map iterations
    started so far. *)
Record State : Type :=
  { heap : list (gmap dockerapi.Port unit);
    trace : list Event;
    iters : nat }.

Definition M (A : Type) : Type := State → Result A * State.

#[global] Instance M_ret : MRet M := λ A a st, (Ok a, st).

#[global] Instance M_bind : MBind M := λ A B k m st,
  match m st with
  | (Ok a, st') => k a st'
  | (Fatal msg, st') => (Fatal msg, st')
  | (Panic msg, st') => (Panic msg, st')
  end.

Definition emit (e : Event) : M unit := λ st,
  (Ok (), {| heap := heap st; trace := trace st ++ [e]; iters := iters st |}).

Definition panic {A} (msg : string) : M A := λ st, (Panic msg, st).

Definition log (lvl : Level) (msg : string) : M unit := emit (ELog lvl msg).

(** [log.Fatal]: the entry is written and the process exits. *)
Definition fatal {A} (msg : string) : M A := λ st,
  (Fatal msg,
   {| heap := heap st; trace := trace st ++ [ELog FatalLevel msg]; iters := iters st |}).

(** [p.f] through a pointer [p]. *)
Definition deref {A} (p : option A) : M A :=
  match p with
  | Some a => mret a
  | None => panic nilDeref
  end.

(** [s[0]] *)
Definition index0 {A} (s : list A) : M A :=
  match s with
  | a :: _ => mret a
  | [] => panic indexOutOfRange
  end.

(** *** Port maps in the store *)

Definition portSet (h : list (gmap dockerapi.Port unit)) (r : dockerapi.PortSet)
  : gmap dockerapi.Port unit :=
  match r with
  | Some a => default ∅ (h !! a)
  | None => ∅
  end.

(** [map[Port]struct{}{...}] *)
Definition newPortSet (m : gmap dockerapi.Port unit) : M dockerapi.PortSet := λ st,
  (Ok (Some (length (heap st))),
   {| heap := heap st ++ [m]; trace := trace st; iters := iters st |}).

(** [len(r)] and [_, ok := r[k]] *)
Definition readPortSet (r : dockerapi.PortSet) : M (gmap dockerapi.Port unit) := λ st,
  (Ok (portSet (heap st) r), st).

(** [r[k] = v].  Writing to a nil map panics; an address is that of a map
    of the store. *)
Definition writePortSet (r : dockerapi.PortSet) (k : dockerapi.Port) (v : unit) : M unit :=
  match r with
  | None => panic nilMapWrite
  | Some a => λ st,
      (Ok (),
       {| heap := alter (insert k v) a (heap st); trace := trace st; iters := iters st |})
  end.

(** [for k, v := range m] yields the entries in the order the runtime picks
    for this iteration. *)
Definition range (W : World) {V} (m : gmap string V) : M (list (string * V)) := λ st,
  (Ok (rangeOrder (mapSeed W (iters st)) m),
   {| heap := heap st; trace := trace st; iters := S (iters st) |}).

(** Sequencing of a loop body over the entries. *)
Fixpoint forEach {A} (body : A → M unit) (l : list A) : M unit :=
  match l with
  | [] => mret ()
  | a :: l' => body a ;; forEach body l'
  end.

(** *** errutils *)

(** Modelled from the spec: [errutils.WarnOn] (package [pkg/utils/errutils]
    is not part of the sources at hand).  "a failure or timeout at any point
    is logged as a warning and does not abort the sequence". *)
Definition WarnOn (err : option error) : M unit :=
  match err with
  | Some e => log Warn (Error e)
  | None => mret ()
  end.

(** Modelled from the spec: [errutils.FailWhen] (package
    [pkg/utils/errutils] is not part of the sources at hand).  "either
    violation is a fatal, non-retryable failure", "abort the run
    immediately". *)
Definition FailWhen (cond : bool) (msg : string) : M unit :=
  if cond then fatal msg else mret ().

(** [p == nil] *)
Definition isNil {A} (p : option A) : bool :=
  match p with
  | None => true
  | Some _ => false
  end.

(** [err != nil && err.Error() == IpcErrRecvTimeoutStr], line 348 *)
Definition recvTimedOut (err : option error) : bool :=
  match err with
  | Some e => bool_decide (Error e = IpcErrRecvTimeoutStr)
  | None => false
  end.

(** ** The operations of the inspector *)

Section Operations.

Context (W : World).

(** [pathMapKeys], lines 65-76 *)
Definition pathMapKeys (m : gmap string bool) : M (list string) :=
  if size m =? 0 then mret []
  else
    entries ← range W m;
    mret (foldl (λ keys kv, keys ++ [kv.1]) [] entries).

(** [NewInspector], lines 79-134.  The image inspector is the one of an
    inspected image: [imageInspector.ImageInfo.Config] is there. *)
Definition NewInspector
    (imageInspector : image.Inspector)
    (localVolumePath : string)
    (overrides : option config.ContainerOverrides)
    (links etcHostsMaps dnsServers dnsSearchDomains : list string)
    (showContainerLogs : bool)
    (volumeMounts : gmap string config.VolumeMount)
    (excludePaths includePaths : gmap string bool)
    (doDebug : bool) : M (Inspector * option error) :=
  let inspector :=
    {| ContainerInfo := None; ContainerID := ""; ContainerName := "";
       FatContainerCmd := [];
       LocalVolumePath := localVolumePath;
       CmdPort := CmdPortDefault;
       EvtPort := EvtPortDefault;
       DockerHostIP := "";
       ImageInspector := imageInspector;
       Overrides := overrides;
       Links := links;
       EtcHostsMaps := etcHostsMaps;
       DnsServers := dnsServers;
       DnsSearchDomains := dnsSearchDomains;
       ShowContainerLogs := showContainerLogs;
       VolumeMounts := volumeMounts;
       ExcludePaths := excludePaths;
       IncludePaths := includePaths;
       DoDebug := doDebug |} in
  let imageConfig := image.ImageInfoConfig imageInspector in
  inspector ←
    (if match overrides with
        | Some ov => nonempty (config.Entrypoint ov) || config.ClearEntrypoint ov
        | None => false
        end
     then
       ov ← deref overrides;
       log Debug "overriding Entrypoint %+v => %+v (%v)";;
       if nonempty (config.Entrypoint ov)
       then mret (set_FatContainerCmd
                    (FatContainerCmd inspector ++ config.Entrypoint ov) inspector)
       else mret inspector
     else if nonempty (image.Entrypoint imageConfig)
     then mret (set_FatContainerCmd
                  (FatContainerCmd inspector ++ image.Entrypoint imageConfig) inspector)
     else mret inspector);
  inspector ←
    (if match overrides with
        | Some ov => nonempty (config.Cmd ov) || config.ClearCmd ov
        | None => false
        end
     then
       ov ← deref overrides;
       log Debug "overriding Cmd %+v => %+v (%v)";;
       if nonempty (config.Cmd ov)
       then mret (set_FatContainerCmd
                    (FatContainerCmd inspector ++ config.Cmd ov) inspector)
       else mret inspector
     else if nonempty (image.Cmd imageConfig)
     then mret (set_FatContainerCmd
                  (FatContainerCmd inspector ++ image.Cmd imageConfig) inspector)
     else mret inspector);
  mret (inspector, None).

(** [initContainerChannels], lines 362-383 *)
Definition initContainerChannels (i : Inspector) : M (Inspector * option error) :=
  info ← deref (ContainerInfo i);
  ns ← deref (dockerapi.NetworkSettings_ info);
  let cmdPortBindings := default [] (dockerapi.Ports ns !! CmdPort i) in
  let evtPortBindings := default [] (dockerapi.Ports ns !! EvtPort i) in
  emit EGetIP;;
  let i := set_DockerHostIP (GetIP W) i in
  cmdBinding ← index0 cmdPortBindings;
  evtBinding ← index0 evtPortBindings;
  emit (EInitContainerChannels (DockerHostIP i)
          (dockerapi.HostPort cmdBinding) (dockerapi.HostPort evtBinding));;
  match InitContainerChannels W (DockerHostIP i)
          (dockerapi.HostPort cmdBinding) (dockerapi.HostPort evtBinding) with
  | Some err => mret (i, Some err)
  | None => mret (i, None)
  end.

(** [shutdownContainerChannels], lines 385-387 *)
Definition shutdownContainerChannels (i : Inspector) : M unit :=
  emit EShutdownContainerChannels.

(** The exposed ports of the launch specification, lines 182-200: the
    reserved ports in a map of their own, then either the map of the
    overrides itself with the reserved ports written into it, or the map
    of the reserved ports.  Returns [Config.ExposedPorts] and
    [commsExposedPorts]. *)
Definition RunContainer_exposedPorts (i : Inspector) (ov : config.ContainerOverrides)
  : M (dockerapi.PortSet * dockerapi.PortSet) :=
  commsExposedPorts ← newPortSet (<[EvtPort i := ()]> (<[CmdPort i := ()]> ∅));
  userPorts ← readPortSet (config.ExposedPorts ov);
  if 0 <? size userPorts
  then
    let exposedPorts := config.ExposedPorts ov in
    comms ← readPortSet commsExposedPorts;
    entries ← range W comms;
    forEach (λ kv,
               current ← readPortSet exposedPorts;
               match current !! kv.1 with
               | Some _ => log Warn ("RunContainer: comms port conflict => " +:+ kv.1)
               | None => mret ()
               end;;
               writePortSet exposedPorts kv.1 kv.2) entries;;
    log Debug "RunContainer: Config.ExposedPorts => %#v";;
    mret (exposedPorts, commsExposedPorts)
  else
    log Debug "RunContainer: default exposed ports => %#v";;
    mret (commsExposedPorts, commsExposedPorts).

(** The command of lines 253-267. *)
Definition RunContainer_startMonitor (i : Inspector) : M command.StartMonitor :=
  appName ← index0 (FatContainerCmd i);
  let appArgs :=
    if 1 <? length (FatContainerCmd i) then drop 1 (FatContainerCmd i) else [] in
  excludes ←
    (if 0 <? size (ExcludePaths i) then pathMapKeys (ExcludePaths i) else mret []);
  includes ←
    (if 0 <? size (IncludePaths i) then pathMapKeys (IncludePaths i) else mret []);
  mret {| command.AppName := appName;
          command.AppArgs := appArgs;
          command.Excludes := excludes;
          command.Includes := includes |}.

(** Lines 245-271 of [RunContainer]: the checks on the inspected
    container, the channels, and the StartMonitor command. *)
Definition RunContainer_monitor (i : Inspector) (commsExposedPorts : dockerapi.PortSet)
  : M (Inspector * option error) :=
  info ← deref (ContainerInfo i);
  FailWhen (isNil (dockerapi.NetworkSettings_ info))
    "docker-slim: error => no network info";;
  ns ← deref (dockerapi.NetworkSettings_ info);
  comms ← readPortSet commsExposedPorts;
  FailWhen (size (dockerapi.Ports ns) <? size comms)
    "docker-slim: error => missing comms ports";;
  log Debug "RunContainer: container NetworkSettings.Ports => %#v";;
  '(i, err) ← initContainerChannels i;
  match err with
  | Some err => mret (i, Some err)
  | None =>
      cmd ← RunContainer_startMonitor i;
      emit (ESendContainerCmd (command.StartMonitorMsg cmd));;
      mret (i, (SendContainerCmd W (command.StartMonitorMsg cmd)).2)
  end.

(** Lines 229-243 of [RunContainer]: create, start, inspect; then the
    lines above. *)
Definition RunContainer_launch (i : Inspector)
    (containerOptions : dockerapi.CreateContainerOptions)
    (commsExposedPorts : dockerapi.PortSet) : M (Inspector * option error) :=
  emit (ECreateContainer containerOptions);;
  match CreateContainer W containerOptions with
  | inr err => mret (i, Some err)
  | inl containerInfo =>
      let i := set_ContainerID (dockerapi.ID containerInfo) i in
      log Info ("RunContainer: created container => " +:+ ContainerID i);;
      emit (EStartContainer (ContainerID i));;
      match StartContainer W (ContainerID i) with
      | Some err => mret (i, Some err)
      | None =>
          emit (EInspectContainer (ContainerID i));;
          match InspectContainer W (ContainerID i) with
          | inr err => mret (set_ContainerInfo None i, Some err)
          | inl inspected =>
              RunContainer_monitor (set_ContainerInfo (Some inspected) i)
                commsExposedPorts
          end
      end
  end.

(** An optional setting of the launch specification, as in lines 202-227:
    [if cond { options.field = v; log.Debugf(msg, v) }]. *)
Definition RunContainer_optional {A} (cond : bool) (v unset : A) (msg : string) : M A :=
  if cond then log Debug msg;; mret v else mret unset.

(** [RunContainer], lines 137-271: the launch specification of lines
    138-227, then the lines above. *)
Definition RunContainer (i : Inspector) : M (Inspector * option error) :=
  let artifactsPath := filepath_Join W (LocalVolumePath i) ArtifactsDir in
  let sensorPath := filepath_Join W (ExeDir W) SensorBinLocal in
  let artifactsMountInfo := ArtifactsMountPat artifactsPath in
  let sensorMountInfo := SensorMountPat sensorPath in
  mounts ← range W (VolumeMounts i);
  let volumeBinds :=
    foldl (λ binds kv,
             binds ++ [config.Source kv.2 +:+ ":" +:+ config.Destination kv.2
                         +:+ ":" +:+ config.Options kv.2]) [] mounts in
  let volumeBinds := volumeBinds ++ [artifactsMountInfo] in
  let volumeBinds := volumeBinds ++ [sensorMountInfo] in
  let containerCmd := if DoDebug i then ["-d"] else [] in
  let i := set_ContainerName (ContainerNamePat (Getpid W) (Now W)) i in
  ov ← deref (Overrides i);
  '(exposedPorts, commsExposedPorts) ← RunContainer_exposedPorts i ov;
  networkMode ←
    RunContainer_optional (bool_decide (config.Network ov ≠ "")) (config.Network ov) ""
      "RunContainer: HostConfig.NetworkMode => %v";
  links ←
    RunContainer_optional (nonempty (Links i)) (Links i) []
      "RunContainer: HostConfig.Links => %v";
  extraHosts ←
    RunContainer_optional (nonempty (EtcHostsMaps i)) (EtcHostsMaps i) []
      "RunContainer: HostConfig.ExtraHosts => %v";
  dns ←
    RunContainer_optional (nonempty (DnsServers i)) (DnsServers i) []
      "RunContainer: HostConfig.DNS/Config.DNS => %v";
  dnsSearch ←
    RunContainer_optional (nonempty (DnsSearchDomains i)) (DnsSearchDomains i) []
      "RunContainer: HostConfig.DNSSearch => %v";
  let containerOptions :=
    {| dockerapi.Name := ContainerName i;
       dockerapi.Config_ :=
         {| dockerapi.Image := image.ImageRef (ImageInspector i);
            dockerapi.ExposedPorts := exposedPorts;
            dockerapi.Entrypoint := [SensorBinPath];
            dockerapi.Cmd := containerCmd;
            dockerapi.Env := config.Env ov;
            dockerapi.Labels := {[ "type" := LabelName ]};
            dockerapi.Hostname := config.Hostname ov;
            dockerapi.DNS := dns |};
       dockerapi.HostConfig_ :=
         {| dockerapi.Binds := volumeBinds;
            dockerapi.PublishAllPorts := true;
            dockerapi.CapAdd := ["SYS_ADMIN"];
            dockerapi.Privileged := true;
            dockerapi.NetworkMode := networkMode;
            dockerapi.Links := links;
            dockerapi.ExtraHosts := extraHosts;
            dockerapi.HostDNS := dns;
            dockerapi.DNSSearch := dnsSearch |} |} in
  RunContainer_launch i containerOptions commsExposedPorts.

(** [showContainerLogs], lines 273-300 *)
Definition showContainerLogs (i : Inspector) : M unit :=
  log Debug ("getting container logs => " +:+ ContainerID i);;
  let logsOptions :=
    {| dockerapi.LogsContainer := ContainerID i;
       dockerapi.Stdout := true;
       dockerapi.Stderr := true |} in
  emit (ELogs logsOptions);;
  let answer := Logs W logsOptions in
  match answer.2 with
  | Some err =>
      log Info ("error getting container logs => " +:+ ContainerID i +:+ " - "
                  +:+ Error err)
  | None =>
      emit (EPrint "docker-slim: container stdout:");;
      emit (EPrint answer.1.1);;
      emit (EPrint "docker-slim: container stderr:");;
      emit (EPrint answer.1.2);;
      emit (EPrint "docker-slim: end of container logs =============")
  end.

(** [ShutdownContainer], lines 303-331 *)
Definition ShutdownContainer (i : Inspector) : M (option error) :=
  shutdownContainerChannels i;;
  (if ShowContainerLogs i then showContainerLogs i else mret ());;
  emit (EStopContainer (ContainerID i) 9);;
  let err := StopContainer W (ContainerID i) 9 in
  (if isContainerNotRunning err
   then
     log Info "can't stop the docker-slim container (container is not running)...";;
     if negb (ShowContainerLogs i) then showContainerLogs i else mret ()
   else WarnOn err);;
  let removeOption :=
    {| dockerapi.RemoveID := ContainerID i;
       dockerapi.RemoveVolumes := true;
       dockerapi.Force := true |} in
  emit (ERemoveContainer removeOption);;
  let _ := RemoveContainer W removeOption in
  mret None.

(** [FinishMonitoring], lines 334-360 *)
Definition FinishMonitoring (i : Inspector) : M unit :=
  emit (ESendContainerCmd command.StopMonitor);;
  let stopped := SendContainerCmd W command.StopMonitor in
  WarnOn stopped.2;;
  log Debug ("'stop' monitor response => '" +:+ stopped.1 +:+ "'");;
  log Info "waiting for the container to finish its work...";;
  emit EGetContainerEvt;;
  let received := GetContainerEvt W in
  log Debug ("sensor event => '" +:+ received.1 +:+ "'");;
  if recvTimedOut received.2
  then
    log Info "timeout waiting for the docker-slim container to finish its work..."
  else
    WarnOn received.2;;
    log Debug ("sensor event => '" +:+ received.1 +:+ "'");;
    emit (ESendContainerCmd command.ShutdownSensor);;
    let shut := SendContainerCmd W command.ShutdownSensor in
    WarnOn shut.2;;
    log Debug ("'shutdown' sensor response => '" +:+ shut.1 +:+ "'").

End Operations.

(** ** Observations on a run *)

(** The calls to the outside: everything but the log and the console. *)
Definition isCall (e : Event) : bool :=
  match e with
  | ELog _ _ | EPrint _ => false
  | _ => true
  end.

Definition calls (tr : list Event) : list Event := List.filter isCall tr.

(** The commands sent to the sensor. *)
Definition sentCommands (tr : list Event) : list command.Message :=
  omap (λ e, match e with ESendContainerCmd cmd => Some cmd | _ => None end) tr.

(** The messages logged at warning level. *)
Definition warnings (tr : list Event) : list string :=
  omap (λ e, match e with ELog Warn msg => Some msg | _ => None end) tr.

Definition isShutdownSensor (cmd : command.Message) : bool :=
  match cmd with
  | command.ShutdownSensor => true
  | _ => false
  end.

(** How often ShutdownSensor was sent. *)
Definition shutdownSensorCount (tr : list Event) : nat :=
  length (List.filter isShutdownSensor (sentCommands tr)).


(** The reserved ports of an inspector, as [commsExposedPorts] holds them. *)
Definition reservedPorts (i : Inspector) : gmap dockerapi.Port unit :=
  <[EvtPort i := ()]> (<[CmdPort i := ()]> ∅).

(** A port map value is nil or the address of a map of the store. *)
Definition validPortSet (h : list (gmap dockerapi.Port unit)) (r : dockerapi.PortSet) : Prop :=
  match r with
  | Some a => a < length h
  | None => True
  end.

(** The keys of a path set, in the order of the map's representation. *)
Definition pathKeys (m : gmap string bool) : list string := (map_to_list m).*1.

(** The outside lets the launch through: create, start and inspect
    succeed. *)
Definition launches (W : World) (created inspected : dockerapi.Container) : Prop :=
  (∀ opts, CreateContainer W opts = inl created) ∧
  StartContainer W (dockerapi.ID created) = None ∧
  InspectContainer W (dockerapi.ID created) = inl inspected.

(** ** Notions used by the properties of [RunContainer] *)

(** The state after more events. *)
Definition record (evs : list Event) (st : State) : State :=
  {| heap := heap st; trace := trace st ++ evs; iters := iters st |}.

(** The warning of line 191. *)
Definition conflictMsg (k : dockerapi.Port) : string :=
  "RunContainer: comms port conflict => " +:+ k.

(** What the loop of lines 189-195 logs and writes when it visits the
    entries [l] and the map it writes to is [m]. *)
Fixpoint conflictWarnings (m : gmap dockerapi.Port unit) (l : list (dockerapi.Port * unit))
  : list Event :=
  match l with
  | [] => []
  | kv :: l' =>
      match m !! kv.1 with
      | Some _ => [ELog Warn (conflictMsg kv.1)]
      | None => []
      end ++ conflictWarnings (<[kv.1 := kv.2]> m) l'
  end.

Definition writeAll (m : gmap dockerapi.Port unit) (l : list (dockerapi.Port * unit))
  : gmap dockerapi.Port unit :=
  foldl (λ m kv, <[kv.1 := kv.2]> m) m l.

(** A computation that leaves the store alone and only adds to the trace. *)
Definition steady {A} (m : M A) : Prop :=
  ∀ st, heap (m st).2 = heap st ∧ ∃ new, trace (m st).2 = trace st ++ new.

(** The inspected container lets the channels open: it has network
    settings with at least two published ports, each reserved port has a
    first host binding, and the IPC layer connects. *)
Definition channelsOpen (W : World) (inspected : dockerapi.Container) : Prop :=
  ∃ ns cmdBinding cmdMore evtBinding evtMore,
    dockerapi.NetworkSettings_ inspected = Some ns
    ∧ 2 ≤ size (dockerapi.Ports ns)
    ∧ dockerapi.Ports ns !! CmdPortDefault = Some (cmdBinding :: cmdMore)
    ∧ dockerapi.Ports ns !! EvtPortDefault = Some (evtBinding :: evtMore)
    ∧ ∀ ip cmdPort evtPort, InitContainerChannels W ip cmdPort evtPort = None.

(** The check of lines 245-246 lets the inspected container through. *)
Definition enoughPorts (inspected : dockerapi.Container) : bool :=
  match dockerapi.NetworkSettings_ inspected with
  | Some ns => bool_decide (2 ≤ size (dockerapi.Ports ns))
  | None => false
  end.

(** ** The rules as the specification words them *)

(** "if the override supplies a non-empty list, or explicitly requests
    clearing, the override wins ...; otherwise the image default is used" *)
Definition spec_resolve (imageDefault override : list string) (clear : bool) : list string :=
  if nonempty override || clear then override else imageDefault.

(** "Final command = resolved entrypoint concatenated with resolved cmd"; no
    overrides at all leave the image defaults. *)
Definition spec_FatContainerCmd (img : image.ImageConfig)
    (overrides : option config.ContainerOverrides) : list string :=
  match overrides with
  | Some ov =>
      spec_resolve (image.Entrypoint img) (config.Entrypoint ov) (config.ClearEntrypoint ov)
      ++ spec_resolve (image.Cmd img) (config.Cmd ov) (config.ClearCmd ov)
  | None => image.Entrypoint img ++ image.Cmd img
  end.

(** Overrides that request nothing for entrypoint and cmd. *)
Definition noCommandOverride (env : list string) (labels : gmap string string)
    (hostname network : string) (ports : dockerapi.PortSet) : config.ContainerOverrides :=
  {| config.Entrypoint := []; config.ClearEntrypoint := false;
     config.Cmd := []; config.ClearCmd := false;
     config.Env := env; config.Labels := labels; config.Hostname := hostname;
     config.Network := network; config.ExposedPorts := ports |}.

(** "sorted keys of the exclude-path set": the keys in ascending order. *)
Fixpoint spec_insertSorted (k : string) (l : list string) : list string :=
  match l with
  | [] => [k]
  | k' :: l' => if String.leb k k' then k :: l else k' :: spec_insertSorted k l'
  end.

Definition spec_sortedKeys (m : gmap string bool) : list string :=
  foldr spec_insertSorted [] (pathKeys m).

(** ** A sample run *)

Module Sample.

Definition binding (port : string) : list dockerapi.PortBinding :=
  [{| dockerapi.HostIP := "0.0.0.0"; dockerapi.HostPort := port |}].

(** Published ports of a container that runs the sensor... *)
Definition sensorPorts : gmap dockerapi.Port (list dockerapi.PortBinding) :=
  <[EvtPortDefault := binding "32769"]> (<[CmdPortDefault := binding "32768"]> ∅).

(** ... and of one that publishes two ports, neither of them reserved. *)
Definition otherPorts : gmap dockerapi.Port (list dockerapi.PortBinding) :=
  <["443/tcp" := binding "32771"]> (<["80/tcp" := binding "32770"]> ∅).

Definition created : dockerapi.Container :=
  {| dockerapi.ID := "c0ffee"; dockerapi.NetworkSettings_ := None |}.

Definition inspectedWith (ns : option dockerapi.NetworkSettings) : dockerapi.Container :=
  {| dockerapi.ID := "c0ffee"; dockerapi.NetworkSettings_ := ns |}.

Definition running : dockerapi.Container :=
  inspectedWith (Some {| dockerapi.Ports := sensorPorts |}).

Definition world (inspected : dockerapi.Container) (seed : nat)
    (stop : option error) (stopMonitor event : string * option error) : World :=
  {| ExeDir := "/usr/local/bin";
     Getpid := "4242";
     Now := "20180101120000";
     filepath_Join := λ dir name, dir +:+ "/" +:+ name;
     mapSeed := λ _, seed;
     CreateContainer := λ _, inl created;
     StartContainer := λ _, None;
     InspectContainer := λ _, inl inspected;
     StopContainer := λ _ _, stop;
     RemoveContainer := λ _, None;
     Logs := λ _, ("out", "err", None);
     GetIP := "127.0.0.1";
     InitContainerChannels := λ _ _ _, None;
     SendContainerCmd := λ cmd,
       match cmd with
       | command.StopMonitor => stopMonitor
       | _ => ("ok", None)
       end;
     GetContainerEvt := event |}.

Definition quiet : World := world running 0 None ("ok", None) ("done", None).

Definition img : image.Inspector :=
  {| image.ImageRef := "app:latest";
     image.ImageInfoConfig :=
       {| image.Entrypoint := []; image.Cmd := ["/bin/app"; "--flag"] |};
     image.ArtifactLocation := "/tmp/state/artifacts";
     image.AppArmorProfileName := "app-apparmor-profile";
     image.SeccompProfileName := "app-seccomp.json" |}.

(** Entrypoint=["/bin/custom"], Cmd=[], ClearCmd=true *)
Definition overrides (ports : dockerapi.PortSet) : config.ContainerOverrides :=
  {| config.Entrypoint := ["/bin/custom"]; config.ClearEntrypoint := false;
     config.Cmd := []; config.ClearCmd := true;
     config.Env := []; config.Labels := ∅; config.Hostname := "";
     config.Network := ""; config.ExposedPorts := ports |}.

Definition excludes : gmap string bool :=
  <["/var/log" := true]> (<["/tmp" := true]> ∅).

Definition inspector (ov : option config.ContainerOverrides) : Inspector :=
  {| ContainerInfo := None; ContainerID := ""; ContainerName := "";
     FatContainerCmd := ["/bin/custom"];
     LocalVolumePath := "/tmp/state";
     CmdPort := CmdPortDefault; EvtPort := EvtPortDefault;
     DockerHostIP := "";
     ImageInspector := img;
     Overrides := ov;
     Links := []; EtcHostsMaps := []; DnsServers := []; DnsSearchDomains := [];
     ShowContainerLogs := false;
     VolumeMounts := ∅;
     ExcludePaths := excludes;
     IncludePaths := ∅;
     DoDebug := false |}.

(** A store with one port map of the user's: 8080/tcp and the reserved
    command port. *)
Definition userPorts : gmap dockerapi.Port unit :=
  <[CmdPortDefault := ()]> (<["8080/tcp" := ()]> ∅).

Definition start : State := {| heap := [userPorts]; trace := []; iters := 0 |}.

(** A run: the inspector is made, then the container is run. *)
Definition session (W : World) (ov : option config.ContainerOverrides)
  : M (Inspector * option error) :=
  new ← NewInspector img "/tmp/state" ov [] [] [] [] false ∅ excludes ∅ false;
  RunContainer W new.1.

End Sample.

(** ** Further observations on a run *)

(** The lines written to the console. *)
Definition printed (tr : list Event) : list string :=
  omap (λ e, match e with EPrint line => Some line | _ => None end) tr.

(** The messages logged at info level. *)
Definition infos (tr : list Event) : list string :=
  omap (λ e, match e with ELog Info msg => Some msg | _ => None end) tr.

Definition isRemoveContainer (e : Event) : bool :=
  match e with
  | ERemoveContainer _ => true
  | _ => false
  end.

(** The bind of a user volume, line 146: "%s:%s:%s" of source, destination
    and options. *)
Definition mountInfo (vm : config.VolumeMount) : string :=
  config.Source vm +:+ ":" +:+ config.Destination vm +:+ ":" +:+ config.Options vm.

(** The inspector as [RunContainer] has filled it in by the time the
    channels are set up. *)
Definition launched (W : World) (created inspected : dockerapi.Container)
    (i : Inspector) : Inspector :=
  set_DockerHostIP (GetIP W)
    (set_ContainerInfo (Some inspected)
       (set_ContainerID (dockerapi.ID created)
          (set_ContainerName (ContainerNamePat (Getpid W) (Now W)) i))).

(** The inspected container publishes both reserved ports, each with a first
    host binding, and passes the count check. *)
Definition publishes (inspected : dockerapi.Container)
    (cmdBinding evtBinding : dockerapi.PortBinding) : Prop :=
  ∃ ns cmdMore evtMore,
    dockerapi.NetworkSettings_ inspected = Some ns
    ∧ 2 ≤ size (dockerapi.Ports ns)
    ∧ dockerapi.Ports ns !! CmdPortDefault = Some (cmdBinding :: cmdMore)
    ∧ dockerapi.Ports ns !! EvtPortDefault = Some (evtBinding :: evtMore).

(** The calls of [FinishMonitoring] and of [ShutdownContainer]. *)
Definition finishCalls (W : World) : list Event :=
  ESendContainerCmd command.StopMonitor :: EGetContainerEvt
    :: (if recvTimedOut (GetContainerEvt W).2
        then []
        else [ESendContainerCmd command.ShutdownSensor]).

Definition teardownCalls (W : World) (id : string) (showLogs : bool) : list Event :=
  let logsCall :=
    ELogs {| dockerapi.LogsContainer := id;
             dockerapi.Stdout := true; dockerapi.Stderr := true |} in
  [EShutdownContainerChannels]
  ++ (if showLogs then [logsCall] else [])
  ++ [EStopContainer id 9]
  ++ (if isContainerNotRunning (StopContainer W id 9) && negb showLogs
      then [logsCall] else [])
  ++ [ERemoveContainer {| dockerapi.RemoveID := id;
                          dockerapi.RemoveVolumes := true;
                          dockerapi.Force := true |}].



Definition isDebugLog (e : Event) : bool :=
  match e with
  | ELog Debug _ => true
  | _ => false
  end.

(** The text of an error, if there is one. *)
Definition errorText (err : option error) : list string :=
  match err with
  | Some e => [Error e]
  | None => []
  end.


(** ** More sample runs *)

Module Cases.

(** A world whose runtime and IPC layer answer as given. *)
Definition world (create : dockerapi.Container + error) (start : option error)
    (inspect : dockerapi.Container + error) (init : option error)
    (startMonitor : option error) (stop : option error)
    (logs : string * string * option error) (event : string * option error) : World :=
  {| ExeDir := "/usr/local/bin";
     Getpid := "4242";
     Now := "20180101120000";
     filepath_Join := λ dir name, dir +:+ "/" +:+ name;
     mapSeed := λ _, 0;
     CreateContainer := λ _, create;
     StartContainer := λ _, start;
     InspectContainer := λ _, inspect;
     StopContainer := λ _ _, stop;
     RemoveContainer := λ _, Some (ErrorString "no such container");
     Logs := λ _, logs;
     GetIP := "127.0.0.1";
     InitContainerChannels := λ _ _ _, init;
     SendContainerCmd := λ cmd,
       match cmd with
       | command.StartMonitorMsg _ => ("", startMonitor)
       | _ => ("ok", None)
       end;
     GetContainerEvt := event |}.

Definition refused : error := ErrorString "connection refused".

Definition cmdBinding : dockerapi.PortBinding :=
  {| dockerapi.HostIP := "0.0.0.0"; dockerapi.HostPort := "32768" |}.

Definition evtBinding : dockerapi.PortBinding :=
  {| dockerapi.HostIP := "0.0.0.0"; dockerapi.HostPort := "32769" |}.

(** Two user volumes. *)
Definition mounts : gmap string config.VolumeMount :=
  <["/data" := {| config.Source := "/srv/data"; config.Destination := "/data";
                  config.Options := "ro" |}]>
    (<["/cache" := {| config.Source := "/srv/cache"; config.Destination := "/cache";
                      config.Options := "rw" |}]> ∅).

(** Overrides with an environment, a hostname, a network and two labels,
    and an inspector with volumes, links, hosts and DNS settings. *)
Definition overrides : config.ContainerOverrides :=
  {| config.Entrypoint := []; config.ClearEntrypoint := false;
     config.Cmd := []; config.ClearCmd := false;
     config.Env := ["MODE=test"];
     config.Labels := <["team" := "web"]> (<["tier" := "front"]> ∅);
     config.Hostname := "app0";
     config.Network := "bridge";
     config.ExposedPorts := Some 0 |}.

Definition inspector (fat : list string) : Inspector :=
  {| ContainerInfo := None; ContainerID := ""; ContainerName := "";
     FatContainerCmd := fat;
     LocalVolumePath := "/tmp/state";
     CmdPort := CmdPortDefault; EvtPort := EvtPortDefault;
     DockerHostIP := "";
     ImageInspector := Sample.img;
     Overrides := Some overrides;
     Links := ["db:db"]; EtcHostsMaps := ["db.local:10.0.0.2"];
     DnsServers := ["10.0.0.1"]; DnsSearchDomains := ["local"];
     ShowContainerLogs := true;
     VolumeMounts := mounts;
     ExcludePaths := Sample.excludes;
     IncludePaths := ∅;
     DoDebug := true |}.

End Cases.


(** ** Post-processing and the info command *)

(** [HasCollectedData] and [ProcessCollectedData] of the container inspector
    and [OnInfo] of [internal/app/master/commands/info.go] call packages of
    their own: the file system, the profile generators, the image inspector
    and the command report.  Their calls are recorded as steps, in program
    order, and the answers are read from a [Collaborators] value. *)

(** An operand of [fmt.Printf]: a string or an integer. *)
Inductive Value : Type :=
| VString (s : string)
| VInt (n : Z).

(** The command report as [OnInfo] uses it: the two fields it assigns. *)
Record InfoCommand : Type :=
  { ReportState : string;
    OriginalImage : string }.

Inductive Step : Type :=
| SLog (lvl : Level) (msg : string)
| SPrintln (operands : list string)
| SPrintf (format : string) (operands : list Value)
| SExists (path : string)
| SAppArmorGenProfile (artifactLocation profileName : string)
| SSeccompGenProfile (artifactLocation profileName : string)
| SNewInfoCommand (reportLocation : string)
| SDockerClientNew
| SVersionPrint
| SImageNewInspector (imageRef : string)
| SNoImage
| SImageInspect
| SPrepareStateDirs (statePath imageID : string)
| SImageProcessCollectedData (artifactLocation : string)
| SSave (cmdReport : InfoCommand).

Definition Steps (A : Type) : Type := list Step → Result A * list Step.

(** The answers of these packages; the three command states and the report
    file name are constants of package [report].  [errutils_FailOn] is what
    [errutils.FailOn] does with an error that is not nil: package
    [pkg/utils/errutils] is not part of the sources at hand, so this is left
    to the collaborators. *)
Record Collaborators : Type :=
  { CmdStateStarted : string;
    CmdStateCompleted : string;
    CmdStateDone : string;
    DefaultContainerReportFileName : string;
    NewInfoCommand : string → InfoCommand;
    fsutils_Exists : string → bool;
    apparmor_GenProfile : string → string → option error;
    seccomp_GenProfile : string → string → option error;
    image_NewInspector : string → option error;
    NoImage : bool;
    image_Inspect : option error;
    ImageID : string;
    VirtualSize : Z;
    PrepareStateDirs : string → string → string * string;
    image_ProcessCollectedData : string → option error;
    humanize_Bytes : Z → string;
    errutils_FailOn : error → Steps unit }.

#[global] Instance Steps_ret : MRet Steps := λ A a tr, (Ok a, tr).

#[global] Instance Steps_bind : MBind Steps := λ A B k m tr,
  match m tr with
  | (Ok a, tr') => k a tr'
  | (Fatal msg, tr') => (Fatal msg, tr')
  | (Panic msg, tr') => (Panic msg, tr')
  end.

Definition step (s : Step) : Steps unit := λ tr, (Ok (), tr ++ [s]).

(** [uint64(n)] of an [int64] *)
Definition uint64 (n : Z) : Z := n mod 2 ^ 64.

Section PostProcessing.

Context (W : World) (C : Collaborators).

(** [errutils.FailOn(err)]: a nil error lets the run go on; any other is
    handed to [errutils_FailOn]. *)
Definition FailOn (err : option error) : Steps unit :=
  match err with
  | Some e => errutils_FailOn C e
  | None => mret ()
  end.

(** [HasCollectedData], lines 390-392 *)
Definition HasCollectedData (i : Inspector) : Steps bool :=
  let path :=
    filepath_Join W (image.ArtifactLocation (ImageInspector i))
      (DefaultContainerReportFileName C) in
  step (SExists path);;
  mret (fsutils_Exists C path).

(** [ProcessCollectedData], lines 395-403 *)
Definition ProcessCollectedData (i : Inspector) : Steps (option error) :=
  step (SLog Info "generating AppArmor profile...");;
  step (SAppArmorGenProfile (image.ArtifactLocation (ImageInspector i))
          (image.AppArmorProfileName (ImageInspector i)));;
  let err :=
    apparmor_GenProfile C (image.ArtifactLocation (ImageInspector i))
      (image.AppArmorProfileName (ImageInspector i)) in
  match err with
  | Some err => mret (Some err)
  | None =>
      step (SSeccompGenProfile (image.ArtifactLocation (ImageInspector i))
              (image.SeccompProfileName (ImageInspector i)));;
      mret (seccomp_GenProfile C (image.ArtifactLocation (ImageInspector i))
              (image.SeccompProfileName (ImageInspector i)))
  end.

(** [OnInfo], info.go lines 19-71.  The client configuration is of a type
    declared elsewhere; it is handed to [dockerclient.New] and not looked
    at. *)
Definition OnInfo {DockerClient : Type} (cmdReportLocation : string) (doDebug : bool)
    (statePath : string) (clientConfig : DockerClient) (imageRef : string)
  : Steps unit :=
  step (SNewInfoCommand cmdReportLocation);;
  let cmdReport := NewInfoCommand C cmdReportLocation in
  let cmdReport :=
    {| ReportState := CmdStateStarted C; OriginalImage := OriginalImage cmdReport |} in
  let cmdReport :=
    {| ReportState := ReportState cmdReport; OriginalImage := imageRef |} in
  step (SPrintln ["docker-slim[info]: state=started"]);;
  step (SPrintf "docker-slim[info]: info=params target=%v\n" [VString imageRef]);;
  step SDockerClientNew;;
  (if doDebug then step SVersionPrint else mret ());;
  step (SImageNewInspector imageRef);;
  FailOn (image_NewInspector C imageRef);;
  step SNoImage;;
  if NoImage C
  then
    step (SPrintln ["docker-slim[info]: target image not found -"; imageRef]);;
    step (SPrintln ["docker-slim[info]: state=exited"])
  else
    step (SLog Info "inspecting 'fat' image metadata...");;
    step SImageInspect;;
    FailOn (image_Inspect C);;
    step (SPrepareStateDirs statePath (ImageID C));;
    let artifactLocation := (PrepareStateDirs C statePath (ImageID C)).2 in
    step (SPrintf
            "docker-slim[info]: info=image id=%v size.bytes=%v size.human=%v\n"
            [VString (ImageID C); VInt (VirtualSize C);
             VString (humanize_Bytes C (uint64 (VirtualSize C)))]);;
    step (SLog Info "processing 'fat' image info...");;
    step (SImageProcessCollectedData artifactLocation);;
    FailOn (image_ProcessCollectedData C artifactLocation);;
    step (SPrintln ["docker-slim[info]: state=completed"]);;
    let cmdReport :=
      {| ReportState := CmdStateCompleted C; OriginalImage := OriginalImage cmdReport |} in
    step (SPrintln ["docker-slim[info]: state=done"]);;
    let cmdReport :=
      {| ReportState := CmdStateDone C; OriginalImage := OriginalImage cmdReport |} in
    step (SSave cmdReport).

End PostProcessing.

(** The reports saved, the lines printed with [fmt.Println], and the steps
    that are calls to other packages. *)
Definition saved (tr : list Step) : list InfoCommand :=
  omap (λ s, match s with SSave cmdReport => Some cmdReport | _ => None end) tr.

Definition lines (tr : list Step) : list (list string) :=
  omap (λ s, match s with SPrintln operands => Some operands | _ => None end) tr.

Definition isOutput (s : Step) : bool :=
  match s with
  | SLog _ _ | SPrintln _ | SPrintf _ _ => true
  | _ => false
  end.

Definition packageCalls (tr : list Step) : list Step :=
  List.filter (λ s, negb (isOutput s)) tr.

(** Collaborators for a sample run of the info command. *)
Definition sampleCollaborators (newInspector : option error) (noImage : bool)
    (inspect process : option error) : Collaborators :=
  {| CmdStateStarted := "started";
     CmdStateCompleted := "completed";
     CmdStateDone := "done";
     DefaultContainerReportFileName := "creport.json";
     NewInfoCommand := λ _, {| ReportState := "unknown"; OriginalImage := "" |};
     fsutils_Exists := λ _, true;
     apparmor_GenProfile := λ _ _, None;
     seccomp_GenProfile := λ _ _, None;
     image_NewInspector := λ _, newInspector;
     NoImage := noImage;
     image_Inspect := inspect;
     ImageID := "sha256:0123";
     VirtualSize := 5242880;
     PrepareStateDirs := λ statePath id, (statePath +:+ "/" +:+ id,
                                          statePath +:+ "/" +:+ id +:+ "/artifacts");
     image_ProcessCollectedData := λ _, process;
     humanize_Bytes := λ n, if bool_decide (n = 5242880)%Z then "5.2 MB" else "?";
     errutils_FailOn := λ e tr, (Fatal (Error e), tr ++ [SLog FatalLevel (Error e)]) |}.

(** * Properties *)

#[local] Set Warnings "-clear-no-such-hyp".

(** ** The order of a map iteration *)

Lemma shuffle_Permutation {A} (n seed : nat) (l : list A) :
  length l = n → shuffle n seed l ≡ₚ l.
Proof.
  revert seed l. induction n as [|n IH]; intros seed l Hlen.
  - destruct l; [done | discriminate].
  - cbn [shuffle].
    assert (Hj : seed mod length l < length l)
      by (apply Nat.mod_upper_bound; lia).
    destruct (lookup_lt_is_Some_2 l _ Hj) as [x Hx].
    rewrite Hx. rewrite IH.
    + symmetry. by apply delete_Permutation.
    + pose proof (length_delete l _ (ex_intro _ x Hx)) as Hd. lia.
Qed.

(** Every order of the entries is the one of some seed. *)
Lemma shuffle_complete {A} (l l' : list A) :
  l' ≡ₚ l → ∃ seed, shuffle (length l) seed l = l'.
Proof.
  revert l. induction l' as [|x l' IH]; intros l Hperm.
  - apply Permutation_nil_l in Hperm. subst l. by exists 0.
  - assert (Hin : x ∈ l) by (rewrite <- Hperm; set_solver).
    apply list_elem_of_lookup in Hin as [j Hj].
    pose proof (lookup_lt_Some _ _ _ Hj) as Hlt.
    assert (Hrest : l' ≡ₚ delete j l).
    { apply (inj (x ::.)). rewrite Hperm. by apply delete_Permutation. }
    destruct (IH _ Hrest) as [seed Hseed].
    pose proof (length_delete l j (ex_intro _ x Hj)) as Hlen.
    destruct (length l) as [|n] eqn:Hn; [lia|].
    exists (j + S n * seed). cbn [shuffle]. rewrite Hn.
    assert (Hmod : (j + S n * seed) mod S n = j).
    { replace (j + S n * seed) with (j + seed * S n) by lia.
      rewrite Nat.Div0.mod_add. by apply Nat.mod_small. }
    assert (Hdiv : (j + S n * seed) / S n = seed).
    { replace (j + S n * seed) with (j + seed * S n) by lia.
      rewrite Nat.div_add by lia. rewrite Nat.div_small by done. lia. }
    rewrite Hmod, Hdiv, Hj. f_equal.
    replace n with (length (delete j l)) by lia. done.
Qed.

Lemma rangeOrder_Permutation {V} (seed : nat) (m : gmap string V) :
  rangeOrder seed m ≡ₚ map_to_list m.
Proof.
  unfold rangeOrder. apply shuffle_Permutation, length_map_to_list.
Qed.

Lemma rangeOrder_NoDup_keys {V} (seed : nat) (m : gmap string V) :
  NoDup (rangeOrder seed m).*1.
Proof.
  rewrite rangeOrder_Permutation. apply NoDup_fst_map_to_list.
Qed.

Lemma rangeOrder_keys {V} (seed : nat) (m : gmap string V) (k : string) :
  k ∈ (rangeOrder seed m).*1 ↔ is_Some (m !! k).
Proof.
  rewrite rangeOrder_Permutation. rewrite list_elem_of_fmap. split.
  - intros [[k' v] [-> Hin]]. apply elem_of_map_to_list in Hin. eauto.
  - intros [v Hv]. exists (k, v). split; [done|]. by apply elem_of_map_to_list.
Qed.

Lemma foldl_keys {V} (l : list (string * V)) (acc : list string) :
  foldl (λ keys kv, keys ++ [kv.1]) acc l = acc ++ l.*1.
Proof.
  revert acc. induction l as [|kv l IH]; intros acc; cbn.
  - by rewrite app_nil_r.
  - rewrite IH. by rewrite <- app_assoc.
Qed.

(** ** Traces *)

Lemma calls_app (a b : list Event) : calls (a ++ b) = calls a ++ calls b.
Proof. apply List.filter_app. Qed.

Lemma sentCommands_app (a b : list Event) :
  sentCommands (a ++ b) = sentCommands a ++ sentCommands b.
Proof. apply omap_app. Qed.

Lemma warnings_app (a b : list Event) : warnings (a ++ b) = warnings a ++ warnings b.
Proof. apply omap_app. Qed.

(** Unfolds the plumbing of the monad. *)
Ltac run :=
  repeat (unfold mbind, mret, M_bind, M_ret, emit, log, WarnOn, FailWhen, fatal,
            panic, deref, index0, readPortSet, range in *; cbn in * ).

(** ** The overrides resolver *)

(** C2: for every image default and every overrides value, nil included,
    [NewInspector] returns an inspector whose [FatContainerCmd] is the
    resolved entrypoint followed by the resolved cmd, each being the
    override when it is non-empty or its clear flag is set and the image
    default otherwise; overrides that request nothing resolve like nil; and
    Entrypoint=["/bin/custom"], Cmd=[], ClearCmd=true resolve to
    ["/bin/custom"] over every image default, Cmd=["/bin/app","--flag"]
    among them. *)
Theorem NewInspector_FatContainerCmd
    (img : image.Inspector) (localVolumePath : string)
    (overrides : option config.ContainerOverrides)
    (links etcHostsMaps dnsServers dnsSearchDomains : list string)
    (showContainerLogs : bool) (volumeMounts : gmap string config.VolumeMount)
    (excludePaths includePaths : gmap string bool) (doDebug : bool)
    (env : list string) (labels : gmap string string) (hostname network : string)
    (ports : dockerapi.PortSet) (st : State) :
  let new ovr :=
    NewInspector img localVolumePath ovr links etcHostsMaps dnsServers
      dnsSearchDomains showContainerLogs volumeMounts excludePaths includePaths
      doDebug st in
  let resolved r :=
    match r with
    | Ok (i, None) => Some (FatContainerCmd i)
    | _ => None
    end in
  resolved (new overrides).1
    = Some (spec_FatContainerCmd (image.ImageInfoConfig img) overrides)
  ∧ resolved (new (Some (noCommandOverride env labels hostname network ports))).1
    = resolved (new None).1
  ∧ resolved (new (Some (Sample.overrides ports))).1
    = Some ["/bin/custom"].
Proof.
  cbn zeta. unfold NewInspector, spec_FatContainerCmd, spec_resolve.
  destruct img as [ref [imgE imgC] loc aa sc]. cbn [image.ImageInfoConfig image.Entrypoint image.Cmd].
  split; [|split].
  - destruct overrides as [[ovE clearE ovC clearC ? ? ? ? ?]|]; cbn.
    + destruct ovE, clearE, ovC, clearC, imgE, imgC; run; by rewrite ?app_nil_r.
    + destruct imgE, imgC; run; by rewrite ?app_nil_r.
  - destruct imgE, imgC; run; done.
  - run. done.
Qed.

(** ** The finish-monitoring handshake *)

(** C1, as amended: [FinishMonitoring] always returns; it always sends
    StopMonitor and then waits for the event, whether or not the send
    failed; when the wait does not end in the receive timeout (the event
    arrived, or the wait failed otherwise) it sends ShutdownSensor exactly
    once, and when the wait times out it logs the timeout at info level and
    returns without sending it. *)
Theorem FinishMonitoring_ShutdownSensor (W : World) (i : Inspector) (st : State) :
  let r := FinishMonitoring W i st in
  let timedOut := recvTimedOut (GetContainerEvt W).2 in
  r.1 = Ok ()
  ∧ ∃ new,
      trace r.2 = trace st ++ new
      ∧ calls new
        = ESendContainerCmd command.StopMonitor :: EGetContainerEvt
            :: (if timedOut then [] else [ESendContainerCmd command.ShutdownSensor])
      ∧ shutdownSensorCount new = (if timedOut then 0 else 1)
      ∧ infos new
        = "waiting for the container to finish its work..."
            :: (if timedOut
                then ["timeout waiting for the docker-slim container to finish its work..."]
                else []).
Proof.
  cbn zeta. unfold FinishMonitoring, shutdownSensorCount.
  destruct (SendContainerCmd W command.StopMonitor) as [r1 [e1|]];
    destruct (GetContainerEvt W) as [r2 [e2|]];
    destruct (SendContainerCmd W command.ShutdownSensor) as [r3 [e3|]];
    cbn [recvTimedOut snd fst]; try case_bool_decide; run;
    (split; [done|]); rewrite <- ?app_assoc; eexists; (split; [done|]); done.
Qed.

(** C1, as stated, fails when StopMonitor succeeds and the event wait times
    out: no ShutdownSensor is sent. *)
Lemma FinishMonitoring_timeout_skips_ShutdownSensor :
  let W := Sample.world Sample.running 0 None ("ok", None)
             ("", Some (ErrorString IpcErrRecvTimeoutStr)) in
  let r := FinishMonitoring W (Sample.inspector None) Sample.start in
  (SendContainerCmd W command.StopMonitor).2 = None
  ∧ recvTimedOut (GetContainerEvt W).2 = true
  ∧ shutdownSensorCount (trace r.2) = 0
  ∧ shutdownSensorCount (trace r.2) ≠ 1.
Proof. vm_compute. repeat split; discriminate. Qed.

(** ** Teardown *)



(** ** Running the monad *)

#[global] Arguments pathMapKeys : simpl never.
#[global] Arguments initContainerChannels : simpl never.
#[global] Arguments RunContainer_exposedPorts : simpl never.
#[global] Arguments RunContainer_startMonitor : simpl never.
#[global] Arguments RunContainer_monitor : simpl never.
#[global] Arguments RunContainer_launch : simpl never.
#[global] Arguments RunContainer_optional : simpl never.
#[global] Arguments RunContainer : simpl never.

Lemma bind_run {A B} (m : M A) (k : A → M B) (st st' : State) (a : A) :
  m st = (Ok a, st') → (m ≫= k) st = k a st'.
Proof. intros H. unfold mbind, M_bind. by rewrite H. Qed.


Lemma bind_panic {A B} (m : M A) (k : A → M B) (st st' : State) (msg : string) :
  m st = (Panic msg, st') → (m ≫= k) st = (Panic msg, st').
Proof. intros H. unfold mbind, M_bind. by rewrite H. Qed.

Lemma record_record (a b : list Event) (st : State) :
  record b (record a st) = record (a ++ b) st.
Proof. unfold record. cbn. by rewrite <- app_assoc. Qed.

Lemma record_nil (st : State) : record [] st = st.
Proof. destruct st. unfold record. cbn. by rewrite app_nil_r. Qed.




Lemma RunContainer_optional_run {A} (cond : bool) (v unset : A) (msg : string) (st : State) :
  RunContainer_optional cond v unset msg st
  = (Ok (if cond then v else unset),
     record (if cond then [ELog Debug msg] else []) st).
Proof.
  unfold RunContainer_optional. destruct cond; [done|]. by rewrite record_nil.
Qed.

(** *** Steady computations *)

Section Steady.

Context {A B : Type}.

Lemma steady_ret (a : A) : steady (mret a : M A).
Proof. intros st. split; [done|]. exists []. cbn. by rewrite app_nil_r. Qed.

Lemma steady_panic (msg : string) : steady (panic msg : M A).
Proof. intros st. split; [done|]. exists []. cbn. by rewrite app_nil_r. Qed.

Lemma steady_fatal (msg : string) : steady (fatal msg : M A).
Proof. intros st. split; [done|]. by eexists. Qed.

Lemma steady_bind (m : M A) (k : A → M B) :
  steady m → (∀ a, steady (k a)) → steady (m ≫= k).
Proof.
  intros Hm Hk st. unfold mbind, M_bind.
  destruct (Hm st) as [Hh [new Ht]].
  destruct (m st) as [[a|msg|msg] st1]; cbn in *.
  - destruct (Hk a st1) as [Hh' [new' Ht']]. split; [congruence|].
    exists (new ++ new'). rewrite Ht', Ht. by rewrite app_assoc.
  - eauto.
  - eauto.
Qed.

Lemma steady_deref (p : option A) : steady (deref p).
Proof. destruct p; [apply steady_ret | apply steady_panic]. Qed.

Lemma steady_index0 (s : list A) : steady (index0 s).
Proof. destruct s; [apply steady_panic | apply steady_ret]. Qed.

End Steady.

Lemma steady_emit (e : Event) : steady (emit e).
Proof. intros st. split; [done|]. by eexists. Qed.

Lemma steady_log (lvl : Level) (msg : string) : steady (log lvl msg).
Proof. apply steady_emit. Qed.

Lemma steady_WarnOn (err : option error) : steady (WarnOn err).
Proof. destruct err; [apply steady_log | apply steady_ret]. Qed.

Lemma steady_FailWhen (cond : bool) (msg : string) : steady (FailWhen cond msg).
Proof. destruct cond; [apply steady_fatal | apply steady_ret]. Qed.

Lemma steady_readPortSet (r : dockerapi.PortSet) : steady (readPortSet r).
Proof. intros st. split; [done|]. exists []. cbn. by rewrite app_nil_r. Qed.

Lemma steady_range {V} (W : World) (m : gmap string V) : steady (range W m).
Proof. intros st. split; [done|]. exists []. cbn. by rewrite app_nil_r. Qed.

(** Decomposes a steadiness goal along the structure of the computation. *)
Ltac steady :=
  repeat first
    [ match goal with H : _ |- _ => apply H end
    | apply steady_bind; [|intros]
    | apply steady_ret | apply steady_panic | apply steady_fatal
    | apply steady_deref | apply steady_index0 | apply steady_emit
    | apply steady_log | apply steady_WarnOn | apply steady_FailWhen
    | apply steady_readPortSet | apply steady_range
    | match goal with
      | |- steady (if ?c then _ else _) => destruct c
      | |- steady (match ?x with _ => _ end) => destruct x
      end ].

Lemma steady_pathMapKeys (W : World) (m : gmap string bool) : steady (pathMapKeys W m).
Proof. unfold pathMapKeys. steady. Qed.

Lemma steady_initContainerChannels (W : World) (i : Inspector) :
  steady (initContainerChannels W i).
Proof. unfold initContainerChannels. steady. Qed.

Lemma steady_RunContainer_startMonitor (W : World) (i : Inspector) :
  steady (RunContainer_startMonitor W i).
Proof.
  unfold RunContainer_startMonitor.
  pose proof (steady_pathMapKeys W). steady.
Qed.

Lemma steady_RunContainer_monitor (W : World) (i : Inspector) (c : dockerapi.PortSet) :
  steady (RunContainer_monitor W i c).
Proof.
  unfold RunContainer_monitor.
  pose proof (steady_initContainerChannels W).
  pose proof (steady_RunContainer_startMonitor W). steady.
Qed.

Lemma steady_RunContainer_launch (W : World) (i : Inspector)
    (opts : dockerapi.CreateContainerOptions) (c : dockerapi.PortSet) :
  steady (RunContainer_launch W i opts c).
Proof.
  unfold RunContainer_launch.
  pose proof (steady_RunContainer_monitor W). steady.
Qed.

(** ** The exposed ports *)

Lemma unit_map_eq (m1 m2 : gmap dockerapi.Port unit) :
  (∀ k, is_Some (m1 !! k) ↔ is_Some (m2 !! k)) → m1 = m2.
Proof.
  intros H. apply map_eq. intros k. specialize (H k).
  destruct (m1 !! k) as [[]|] eqn:E1, (m2 !! k) as [[]|] eqn:E2; try done.
  - destruct H as [H _]. destruct H as [? H]; [eauto | discriminate].
  - destruct H as [_ H]. destruct H as [? H]; [eauto | discriminate].
Qed.

Lemma writeAll_lookup (l : list (dockerapi.Port * unit)) (m : gmap dockerapi.Port unit)
    (k : dockerapi.Port) :
  is_Some (writeAll m l !! k) ↔ k ∈ l.*1 ∨ is_Some (m !! k).
Proof.
  unfold writeAll. revert m. induction l as [|[k' v] l IH]; intros m; cbn.
  - set_solver.
  - rewrite IH. rewrite lookup_insert_is_Some. rewrite elem_of_cons.
    destruct (decide (k' = k)); naive_solver.
Qed.

Lemma writeAll_rangeOrder (seed : nat) (comms user : gmap dockerapi.Port unit) :
  writeAll user (rangeOrder seed comms) = comms ∪ user.
Proof.
  apply unit_map_eq. intros k.
  rewrite writeAll_lookup, rangeOrder_keys, lookup_union_is_Some. done.
Qed.

Lemma conflictWarnings_calls (l : list (dockerapi.Port * unit)) (m : gmap dockerapi.Port unit) :
  calls (conflictWarnings m l) = [].
Proof.
  revert m. induction l as [|kv l IH]; intros m; cbn; [done|].
  rewrite calls_app, IH. by destruct (m !! kv.1).
Qed.

Lemma conflictWarnings_warned (l : list (dockerapi.Port * unit))
    (m : gmap dockerapi.Port unit) (k : dockerapi.Port) :
  k ∈ l.*1 → is_Some (m !! k) → conflictMsg k ∈ warnings (conflictWarnings m l).
Proof.
  revert m. induction l as [|[k' v] l IH]; intros m Hin Hm; cbn in *.
  - by apply elem_of_nil in Hin.
  - rewrite warnings_app. apply elem_of_app.
    destruct (decide (k' = k)) as [->|Hne].
    + left. destruct Hm as [u ->]. cbn. set_solver.
    + right. apply IH.
      * apply elem_of_cons in Hin as [?|?]; [congruence | done].
      * rewrite lookup_insert_is_Some. eauto.
Qed.

Lemma conflictWarnings_only (l : list (dockerapi.Port * unit))
    (m : gmap dockerapi.Port unit) (msg : string) :
  NoDup l.*1 → msg ∈ warnings (conflictWarnings m l) →
  ∃ k, msg = conflictMsg k ∧ k ∈ l.*1 ∧ is_Some (m !! k).
Proof.
  revert m. induction l as [|[k' v] l IH]; intros m Hnd Hin; cbn in *.
  - by apply elem_of_nil in Hin.
  - apply NoDup_cons in Hnd as [Hk' Hnd].
    rewrite warnings_app in Hin. apply elem_of_app in Hin as [Hin|Hin].
    + destruct (m !! k') as [u|] eqn:E; cbn in Hin.
      * apply list_elem_of_singleton in Hin. exists k'. set_solver.
      * by apply elem_of_nil in Hin.
    + destruct (IH _ Hnd Hin) as (k & -> & Hkl & Hs). exists k.
      split; [done|]. split; [set_solver|].
      rewrite lookup_insert_is_Some in Hs. destruct Hs as [->|[_ Hs]]; done.
Qed.

Lemma exposedPorts_loop (a : nat) (l : list (dockerapi.Port * unit)) (st : State)
    (m : gmap dockerapi.Port unit) :
  heap st !! a = Some m →
  forEach (λ kv,
             current ← readPortSet (Some a);
             match current !! kv.1 with
             | Some _ => log Warn ("RunContainer: comms port conflict => " +:+ kv.1)
             | None => mret ()
             end;;
             writePortSet (Some a) kv.1 kv.2) l st
  = (Ok (),
     {| heap := alter (λ m, writeAll m l) a (heap st);
        trace := trace st ++ conflictWarnings m l;
        iters := iters st |}).
Proof.
  revert st m. induction l as [|[k v] l IH]; intros st m Hm.
  - cbn. rewrite app_nil_r. rewrite list_alter_id by done.
    by destruct st.
  - cbn [forEach].
    set (body := λ kv : dockerapi.Port * unit, _) in *.
    assert (Hbody : body (k, v) st
                    = (Ok (),
                       {| heap := alter (insert k v) a (heap st);
                          trace := trace st
                                   ++ match m !! k with
                                      | Some _ => [ELog Warn (conflictMsg k)]
                                      | None => []
                                      end;
                          iters := iters st |})).
    { subst body. unfold mbind, M_bind, readPortSet, portSet. rewrite Hm.
      cbn. destruct (m !! k); cbn; by rewrite ?app_nil_r. }
    rewrite (bind_run _ _ _ _ _ Hbody).
    rewrite (IH _ (<[k:=v]> m)).
    + cbn [heap trace iters conflictWarnings fst snd].
      rewrite list_alter_alter_eq, <- app_assoc. done.
    + cbn. by rewrite list_lookup_alter_eq, Hm.
Qed.

Lemma portSet_app (h h' : list (gmap dockerapi.Port unit)) (r : dockerapi.PortSet) :
  validPortSet h r → portSet (h ++ h') r = portSet h r.
Proof.
  destruct r as [a|]; [|done]. cbn. intros Ha. by rewrite lookup_app_l.
Qed.

Lemma portSet_new (h : list (gmap dockerapi.Port unit)) (m : gmap dockerapi.Port unit) :
  portSet (h ++ [m]) (Some (length h)) = m.
Proof. cbn. by rewrite list_lookup_middle. Qed.

(** Lines 182-200 on a store in which the map of the overrides is nil or
    allocated: the exposed ports are the reserved ports together with the
    user's, written into the user's map when that is not empty; the log has
    a conflict warning for exactly the reserved ports the user had asked
    for. *)
Lemma RunContainer_exposedPorts_run (W : World) (i : Inspector)
    (ov : config.ContainerOverrides) (st : State) :
  validPortSet (heap st) (config.ExposedPorts ov) →
  let user := portSet (heap st) (config.ExposedPorts ov) in
  let comms := Some (length (heap st)) in
  ∃ r st' logs,
    RunContainer_exposedPorts W i ov st = (Ok (r, comms), st')
    ∧ trace st' = trace st ++ logs
    ∧ calls logs = []
    ∧ portSet (heap st') r = reservedPorts i ∪ user
    ∧ portSet (heap st') comms = reservedPorts i
    ∧ portSet (heap st') (config.ExposedPorts ov)
      = (if 0 <? size user then reservedPorts i ∪ user else user)
    ∧ (∀ k, is_Some (reservedPorts i !! k) → is_Some (user !! k) →
            conflictMsg k ∈ warnings logs)
    ∧ (∀ msg, msg ∈ warnings logs →
              ∃ k, msg = conflictMsg k ∧ is_Some (reservedPorts i !! k)
                   ∧ is_Some (user !! k)).
Proof.
  intros Hvalid user comms. unfold RunContainer_exposedPorts.
  unfold mbind at 1, M_bind at 1, newPortSet at 1.
  unfold mbind at 1, M_bind at 1, readPortSet at 1. cbn [heap trace iters].
  rewrite (portSet_app _ _ _ Hvalid). fold user. fold (reservedPorts i).
  destruct (0 <? size user) eqn:Hsize.
  - (* the user asked for ports: they are in a map of the store *)
    assert (∃ a, config.ExposedPorts ov = Some a ∧ heap st !! a = Some user)
      as (a & Hr & Ha).
    { subst user. unfold portSet in *. destruct (config.ExposedPorts ov) as [a|].
      - exists a. split; [done|]. destruct (heap st !! a); [done|].
        cbn in Hsize. by rewrite map_size_empty in Hsize.
      - by rewrite map_size_empty in Hsize. }
    assert (Hne : a ≠ length (heap st))
      by (apply lookup_lt_Some in Ha; lia).
    unfold mbind at 1, M_bind at 1, readPortSet at 1. cbn [heap trace iters].
    rewrite portSet_new.
    unfold mbind at 1, M_bind at 1, range at 1. cbn [heap trace iters].
    set (entries := rangeOrder _ (reservedPorts i)).
    rewrite Hr.
    erewrite bind_run; last first.
    { apply (exposedPorts_loop a entries _ user). cbn.
      rewrite lookup_app_l; [done|]. by apply lookup_lt_Some in Ha. }
    cbn [heap trace iters].
    eexists (Some a), _, (conflictWarnings user entries
                            ++ [ELog Debug "RunContainer: Config.ExposedPorts => %#v"]).
    split; [unfold mbind, M_bind, log, emit; cbn; reflexivity|].
    cbn [heap trace iters].
    assert (Hfinal : portSet (alter (λ m, writeAll m entries) a
                                (heap st ++ [reservedPorts i])) (Some a)
                     = reservedPorts i ∪ user).
    { cbn. rewrite list_lookup_alter_eq, lookup_app_l by (by apply lookup_lt_Some in Ha).
      rewrite Ha. cbn. apply writeAll_rangeOrder. }
    repeat split.
    + by rewrite <- app_assoc.
    + rewrite calls_app, conflictWarnings_calls. done.
    + done.
    + subst comms. cbn. rewrite list_lookup_alter_ne by done.
      by rewrite list_lookup_middle.
    + done.
    + intros k Hk Hu. rewrite warnings_app. apply elem_of_app. left.
      apply conflictWarnings_warned; [|done]. by apply rangeOrder_keys.
    + intros msg Hmsg. rewrite warnings_app in Hmsg. cbn in Hmsg.
      rewrite app_nil_r in Hmsg.
      apply conflictWarnings_only in Hmsg as (k & -> & Hk & Hu);
        [|apply rangeOrder_NoDup_keys].
      exists k. split; [done|]. split; [|done].
      by apply (proj1 (rangeOrder_keys _ _ _)) in Hk.
  - (* no ports asked for: the reserved ports alone *)
    assert (Hempty : user = ∅).
    { apply map_size_empty_iff. apply Nat.ltb_ge in Hsize. lia. }
    eexists comms, _, [ELog Debug "RunContainer: default exposed ports => %#v"].
    split; [unfold mbind, M_bind, log, emit; cbn; reflexivity|].
    cbn [heap trace iters]. subst comms.
    rewrite portSet_new, (portSet_app _ _ _ Hvalid). fold user.
    rewrite Hempty. rewrite (right_id_L ∅ (∪)).
    repeat split; try done.
    + intros k _ Hk. rewrite lookup_empty in Hk. by destruct Hk.
    + intros msg Hmsg. cbn in Hmsg. by apply elem_of_nil in Hmsg.
Qed.

(** ** The launch specification *)

Lemma calls_optional (cond : bool) (msg : string) :
  calls (if cond then [ELog Debug msg] else []) = [].
Proof. by destruct cond. Qed.

Lemma warnings_optional (cond : bool) (msg : string) :
  warnings (if cond then [ELog Debug msg] else []) = [].
Proof. by destruct cond. Qed.

(** Lines 137-227 with overrides at hand: no call is made before the launch,
    the launch gets the exposed ports of [RunContainer_exposedPorts_run],
    and the inspector has only got its container name. *)
Lemma RunContainer_run (W : World) (i : Inspector) (ov : config.ContainerOverrides)
    (st : State) :
  Overrides i = Some ov →
  validPortSet (heap st) (config.ExposedPorts ov) →
  let user := portSet (heap st) (config.ExposedPorts ov) in
  let comms := Some (length (heap st)) in
  ∃ opts st' logs,
    RunContainer W i st
    = RunContainer_launch W
        (set_ContainerName (ContainerNamePat (Getpid W) (Now W)) i) opts comms st'
    ∧ trace st' = trace st ++ logs
    ∧ calls logs = []
    ∧ portSet (heap st') (dockerapi.ExposedPorts (dockerapi.Config_ opts))
      = reservedPorts i ∪ user
    ∧ portSet (heap st') comms = reservedPorts i
    ∧ portSet (heap st') (config.ExposedPorts ov)
      = (if 0 <? size user then reservedPorts i ∪ user else user)
    ∧ (∀ k, is_Some (reservedPorts i !! k) → is_Some (user !! k) →
            conflictMsg k ∈ warnings logs)
    ∧ (∀ msg, msg ∈ warnings logs →
              ∃ k, msg = conflictMsg k ∧ is_Some (reservedPorts i !! k)
                   ∧ is_Some (user !! k)).
Proof.
  intros Hov Hvalid user comms. unfold RunContainer. cbn zeta.
  unfold mbind at 1, M_bind at 1, range at 1.
  set (st0 := {| heap := heap st; trace := trace st; iters := S (iters st) |}).
  change (Overrides (set_ContainerName _ i)) with (Overrides i). rewrite Hov.
  unfold mbind at 1, M_bind at 1, deref at 1, mret at 1, M_ret at 1.
  destruct (RunContainer_exposedPorts_run W
              (set_ContainerName (ContainerNamePat (Getpid W) (Now W)) i) ov st0 Hvalid)
    as (r & st1 & logs & Hrun & Htrace & Hcalls & Hr & Hcomms & Huser & Hwarn & Honly).
  rewrite (bind_run _ _ _ _ _ Hrun). cbn beta iota.
  do 5 (erewrite bind_run; [|apply RunContainer_optional_run]).
  rewrite !record_record.
  eexists _, _, _. split; [reflexivity|].
  cbn [record heap trace iters dockerapi.ExposedPorts dockerapi.Config_].
  rewrite Htrace. cbn [st0 trace]. rewrite <- app_assoc.
  split; [reflexivity|].
  rewrite !calls_app, !warnings_app, !calls_optional, !warnings_optional, Hcalls,
    !app_nil_r.
  repeat split; done.
Qed.

(** ** Launch, checks and channels *)

Lemma emit_then {A} (e : Event) (k : M A) (st : State) :
  steady k → ∃ after, trace ((emit e;; k) st).2 = trace st ++ e :: after.
Proof.
  intros Hk. unfold mbind, M_bind, emit.
  destruct (Hk (record [e] st)) as [_ [after Hafter]].
  exists after. fold (record [e] st). rewrite Hafter. cbn.
  by rewrite <- app_assoc.
Qed.

(** The create call is the first thing the launch does. *)
Lemma RunContainer_launch_creates (W : World) (i : Inspector)
    (opts : dockerapi.CreateContainerOptions) (c : dockerapi.PortSet) (st : State) :
  ∃ after,
    trace (RunContainer_launch W i opts c st).2
    = trace st ++ ECreateContainer opts :: after.
Proof.
  unfold RunContainer_launch. apply emit_then.
  pose proof (steady_RunContainer_monitor W). steady.
Qed.

(** Lines 229-243 when create, start and inspect succeed. *)
Lemma RunContainer_launch_run (W : World) (i : Inspector)
    (opts : dockerapi.CreateContainerOptions) (c : dockerapi.PortSet) (st : State)
    (created inspected : dockerapi.Container) :
  launches W created inspected →
  RunContainer_launch W i opts c st
  = RunContainer_monitor W
      (set_ContainerInfo (Some inspected) (set_ContainerID (dockerapi.ID created) i)) c
      (record [ECreateContainer opts;
               ELog Info ("RunContainer: created container => " +:+ dockerapi.ID created);
               EStartContainer (dockerapi.ID created);
               EInspectContainer (dockerapi.ID created)] st).
Proof.
  intros (Hcreate & Hstart & Hinspect). unfold RunContainer_launch.
  rewrite Hcreate. cbn [ContainerID set_ContainerID]. rewrite Hstart, Hinspect.
  unfold mbind, M_bind, log, emit, record. cbn. by rewrite <- !app_assoc.
Qed.

Lemma pathMapKeys_run (W : World) (m : gmap string bool) (st : State) :
  ∃ keys st',
    pathMapKeys W m st = (Ok keys, st')
    ∧ keys ≡ₚ pathKeys m ∧ trace st' = trace st ∧ heap st' = heap st.
Proof.
  unfold pathMapKeys, pathKeys. destruct (size m =? 0) eqn:Hsize.
  - exists [], st. repeat split; try done.
    apply Nat.eqb_eq, map_size_empty_iff in Hsize. subst m.
    by rewrite map_to_list_empty.
  - eexists _, _. split; [reflexivity|]. cbn. repeat split.
    rewrite foldl_keys. cbn. by rewrite rangeOrder_Permutation.
Qed.

(** Lines 253-267 when [FatContainerCmd] has a first token. *)
Lemma RunContainer_startMonitor_run (W : World) (i : Inspector) (st : State)
    (appName : string) (appArgs : list string) :
  FatContainerCmd i = appName :: appArgs →
  ∃ excludes includes st',
    RunContainer_startMonitor W i st
    = (Ok {| command.AppName := appName; command.AppArgs := appArgs;
             command.Excludes := excludes; command.Includes := includes |}, st')
    ∧ excludes ≡ₚ pathKeys (ExcludePaths i)
    ∧ includes ≡ₚ pathKeys (IncludePaths i)
    ∧ trace st' = trace st ∧ heap st' = heap st.
Proof.
  intros Hfat. unfold RunContainer_startMonitor. rewrite Hfat.
  unfold mbind at 1, M_bind at 1, index0 at 1, mret at 1, M_ret at 1. cbn zeta.
  assert (Hargs : (if 1 <? length (appName :: appArgs)
                   then drop 1 (appName :: appArgs) else []) = appArgs)
    by (by destruct appArgs).
  rewrite Hargs. clear Hargs.
  assert (Hkeys : ∀ (m : gmap string bool) s,
            ∃ keys s',
              (if 0 <? size m then pathMapKeys W m else mret []) s = (Ok keys, s')
              ∧ keys ≡ₚ pathKeys m ∧ trace s' = trace s ∧ heap s' = heap s).
  { intros m s. destruct (0 <? size m) eqn:Hsize; [apply pathMapKeys_run|].
    exists [], s. repeat split; try done.
    apply Nat.ltb_ge in Hsize. assert (m = ∅) as -> by (apply map_size_empty_iff; lia).
    unfold pathKeys. by rewrite map_to_list_empty. }
  destruct (Hkeys (ExcludePaths i) st) as (ex & st1 & Hex & Hpex & Htr1 & Hh1).
  rewrite (bind_run _ _ _ _ _ Hex).
  destruct (Hkeys (IncludePaths i) st1) as (inc & st2 & Hinc & Hpinc & Htr2 & Hh2).
  rewrite (bind_run _ _ _ _ _ Hinc).
  exists ex, inc, st2. repeat split; try done; congruence.
Qed.

(** [initContainerChannels] when each reserved port has a first binding. *)
Lemma initContainerChannels_run (W : World) (i : Inspector) (st : State)
    (info : dockerapi.Container) (ns : dockerapi.NetworkSettings)
    (cmdBinding evtBinding : dockerapi.PortBinding)
    (cmdMore evtMore : list dockerapi.PortBinding) :
  ContainerInfo i = Some info →
  dockerapi.NetworkSettings_ info = Some ns →
  dockerapi.Ports ns !! CmdPort i = Some (cmdBinding :: cmdMore) →
  dockerapi.Ports ns !! EvtPort i = Some (evtBinding :: evtMore) →
  initContainerChannels W i st
  = (Ok (set_DockerHostIP (GetIP W) i,
         InitContainerChannels W (GetIP W) (dockerapi.HostPort cmdBinding)
           (dockerapi.HostPort evtBinding)),
     record [EGetIP;
             EInitContainerChannels (GetIP W) (dockerapi.HostPort cmdBinding)
               (dockerapi.HostPort evtBinding)] st).
Proof.
  intros Hinfo Hns Hcmd Hevt. unfold initContainerChannels.
  rewrite Hinfo. cbn [deref]. unfold mbind at 1, M_bind at 1, mret at 1, M_ret at 1.
  rewrite Hns. cbn [deref]. unfold mbind at 1, M_bind at 1, mret at 1, M_ret at 1.
  rewrite Hcmd, Hevt. cbn. unfold mbind, M_bind, mret, M_ret, emit, record. cbn.
  destruct (InitContainerChannels W _ _ _); cbn; by rewrite <- ?app_assoc.
Qed.

(** [initContainerChannels] when a reserved port has no binding: the index
    expression panics after the host address was looked up and before any
    channel is opened. *)
Lemma initContainerChannels_panics (W : World) (i : Inspector) (st : State)
    (info : dockerapi.Container) (ns : dockerapi.NetworkSettings) :
  ContainerInfo i = Some info →
  dockerapi.NetworkSettings_ info = Some ns →
  default [] (dockerapi.Ports ns !! CmdPort i) = []
  ∨ default [] (dockerapi.Ports ns !! EvtPort i) = [] →
  initContainerChannels W i st = (Panic indexOutOfRange, record [EGetIP] st).
Proof.
  intros Hinfo Hns Hnone. unfold initContainerChannels.
  rewrite Hinfo. cbn [deref]. unfold mbind at 1, M_bind at 1, mret at 1, M_ret at 1.
  rewrite Hns. cbn [deref]. unfold mbind at 1, M_bind at 1, mret at 1, M_ret at 1.
  cbn zeta.
  destruct (default [] (dockerapi.Ports ns !! CmdPort i)) as [|b1 l1];
    [done|].
  destruct Hnone as [?|Hevt]; [done|]. rewrite Hevt. done.
Qed.

Lemma reservedPorts_default (i : Inspector) :
  CmdPort i = CmdPortDefault → EvtPort i = EvtPortDefault →
  reservedPorts i = <[EvtPortDefault := ()]> (<[CmdPortDefault := ()]> ∅).
Proof. intros Hc He. unfold reservedPorts. by rewrite Hc, He. Qed.

Lemma size_reservedPorts (i : Inspector) :
  CmdPort i = CmdPortDefault → EvtPort i = EvtPortDefault →
  size (reservedPorts i) = 2.
Proof. intros Hc He. by rewrite reservedPorts_default. Qed.

(** Lines 245-246: either check failing ends the run in the fatal logger. *)
Lemma RunContainer_monitor_fails (W : World) (i : Inspector) (c : dockerapi.PortSet)
    (st : State) (info : dockerapi.Container) :
  ContainerInfo i = Some info →
  match dockerapi.NetworkSettings_ info with
  | Some ns => size (dockerapi.Ports ns) < size (portSet (heap st) c)
  | None => True
  end →
  ∃ msg, RunContainer_monitor W i c st = (Fatal msg, record [ELog FatalLevel msg] st).
Proof.
  intros Hinfo Hbad. unfold RunContainer_monitor. rewrite Hinfo.
  unfold mbind at 1, M_bind at 1, deref at 1, mret at 1, M_ret at 1.
  destruct (dockerapi.NetworkSettings_ info) as [ns|]; cbn [isNil FailWhen].
  - unfold mbind at 1, M_bind at 1, mret at 1, M_ret at 1.
    unfold mbind at 1, M_bind at 1, deref at 1, mret at 1, M_ret at 1.
    unfold mbind at 1, M_bind at 1, readPortSet at 1.
    apply Nat.ltb_lt in Hbad. rewrite Hbad. cbn [FailWhen]. by eexists.
  - by eexists.
Qed.

(** Lines 245-251 when both checks pass: the channels are set up next. *)
Lemma RunContainer_monitor_checked (W : World) (i : Inspector) (c : dockerapi.PortSet)
    (st : State) (info : dockerapi.Container) (ns : dockerapi.NetworkSettings) :
  ContainerInfo i = Some info →
  dockerapi.NetworkSettings_ info = Some ns →
  size (portSet (heap st) c) ≤ size (dockerapi.Ports ns) →
  RunContainer_monitor W i c st
  = ('(i, err) ← initContainerChannels W i;
     match err with
     | Some err => mret (i, Some err)
     | None =>
         cmd ← RunContainer_startMonitor W i;
         emit (ESendContainerCmd (command.StartMonitorMsg cmd));;
         mret (i, (SendContainerCmd W (command.StartMonitorMsg cmd)).2)
     end)
      (record [ELog Debug "RunContainer: container NetworkSettings.Ports => %#v"] st).
Proof.
  intros Hinfo Hns Hsize. unfold RunContainer_monitor. rewrite Hinfo.
  unfold mbind at 1, M_bind at 1, deref at 1, mret at 1, M_ret at 1.
  rewrite Hns. cbn [isNil FailWhen].
  unfold mbind at 1, M_bind at 1, mret at 1, M_ret at 1.
  unfold mbind at 1, M_bind at 1, deref at 1, mret at 1, M_ret at 1.
  unfold mbind at 1, M_bind at 1, readPortSet at 1.
  apply Nat.ltb_ge in Hsize. rewrite Hsize. cbn [FailWhen].
  unfold mbind at 1, M_bind at 1, mret at 1, M_ret at 1.
  unfold mbind at 1, M_bind at 1, log at 1, emit at 1. done.
Qed.

(** Once the checks have passed, the host address is looked up: the channel
    set-up is under way. *)
Lemma RunContainer_monitor_reaches (W : World) (i : Inspector) (c : dockerapi.PortSet)
    (st : State) (info : dockerapi.Container) (ns : dockerapi.NetworkSettings) :
  ContainerInfo i = Some info →
  dockerapi.NetworkSettings_ info = Some ns →
  size (portSet (heap st) c) ≤ size (dockerapi.Ports ns) →
  ∃ after,
    trace (RunContainer_monitor W i c st).2
    = trace st ++ ELog Debug "RunContainer: container NetworkSettings.Ports => %#v"
        :: EGetIP :: after.
Proof.
  intros Hinfo Hns Hsize.
  rewrite (RunContainer_monitor_checked W i c st info ns) by done.
  set (st1 := record _ st).
  assert (Hinit : ∃ r st2 after,
            initContainerChannels W i st1 = (r, st2)
            ∧ trace st2 = trace st1 ++ EGetIP :: after).
  { destruct (default [] (dockerapi.Ports ns !! CmdPort i)) as [|b1 l1] eqn:Hcmd.
    - eexists _, _, [].
      split; [apply (initContainerChannels_panics W i st1 info ns); auto|done].
    - destruct (default [] (dockerapi.Ports ns !! EvtPort i)) as [|b2 l2] eqn:Hevt.
      + eexists _, _, [].
        split; [apply (initContainerChannels_panics W i st1 info ns); auto|done].
      + destruct (dockerapi.Ports ns !! CmdPort i) as [l|] eqn:Hc; [|done].
        destruct (dockerapi.Ports ns !! EvtPort i) as [l'|] eqn:He; [|done].
        cbn in Hcmd, Hevt. subst l l'.
        eexists _, _, [_].
        split; [by apply (initContainerChannels_run W i st1 info ns b1 b2 l1 l2)|done]. }
  destruct Hinit as (r & st2 & after & Hinit & Htrace).
  unfold mbind at 1, M_bind at 1. rewrite Hinit.
  destruct r as [[i' err]|msg|msg]; cbn [snd].
  - assert (Hrest : steady
              (match err with
               | Some err => mret (i', Some err)
               | None =>
                   cmd ← RunContainer_startMonitor W i';
                   emit (ESendContainerCmd (command.StartMonitorMsg cmd));;
                   mret (i', (SendContainerCmd W (command.StartMonitorMsg cmd)).2)
               end)).
    { pose proof (steady_RunContainer_startMonitor W). steady. }
    destruct (Hrest st2) as [_ [new Hnew]]. exists (after ++ new).
    rewrite Hnew, Htrace. subst st1. cbn. by rewrite <- !app_assoc.
  - exists after. rewrite Htrace. subst st1. cbn. by rewrite <- !app_assoc.
  - exists after. rewrite Htrace. subst st1. cbn. by rewrite <- !app_assoc.
Qed.

Lemma sentCommands_calls (tr : list Event) : sentCommands (calls tr) = sentCommands tr.
Proof.
  unfold sentCommands, calls. induction tr as [|e tr IH]; [done|].
  destruct e; cbn; by rewrite ?IH.
Qed.

(** The whole of [RunContainer] when the launch goes through and the
    channels open: exactly one command is sent, the StartMonitor built from
    the inspector. *)
Lemma RunContainer_sends (W : World) (i : Inspector) (ov : config.ContainerOverrides)
    (st : State) (created inspected : dockerapi.Container)
    (appName : string) (appArgs : list string) :
  Overrides i = Some ov →
  CmdPort i = CmdPortDefault →
  EvtPort i = EvtPortDefault →
  validPortSet (heap st) (config.ExposedPorts ov) →
  launches W created inspected →
  channelsOpen W inspected →
  FatContainerCmd i = appName :: appArgs →
  ∃ excludes includes i' new,
    let cmd :=
      command.StartMonitorMsg
        {| command.AppName := appName; command.AppArgs := appArgs;
           command.Excludes := excludes; command.Includes := includes |} in
    (RunContainer W i st).1 = Ok (i', (SendContainerCmd W cmd).2)
    ∧ trace (RunContainer W i st).2 = trace st ++ new
    ∧ sentCommands new = [cmd]
    ∧ excludes ≡ₚ pathKeys (ExcludePaths i)
    ∧ includes ≡ₚ pathKeys (IncludePaths i).
Proof.
  intros Hov Hcmd Hevt Hvalid Hlaunch
    (ns & b1 & l1 & b2 & l2 & Hns & Hsize & Hb1 & Hb2 & Hinit) Hfat.
  destruct (RunContainer_run W i ov st Hov Hvalid)
    as (opts & st1 & logs & Hrun & Htrace & Hcalls & _ & Hcomms & _).
  rewrite Hrun. rewrite (RunContainer_launch_run _ _ _ _ _ _ _ Hlaunch).
  set (st2 := record _ st1).
  set (i2 := set_ContainerInfo _ _).
  rewrite (RunContainer_monitor_checked W i2 _ st2 inspected ns); [|done|done|].
  2:{ subst st2. cbn [record heap]. rewrite Hcomms, size_reservedPorts; done. }
  set (st3 := record _ st2).
  erewrite bind_run; last first.
  { apply (initContainerChannels_run W i2 st3 inspected ns b1 b2 l1 l2); try done.
    - subst i2. cbn. by rewrite Hcmd.
    - subst i2. cbn. by rewrite Hevt. }
  cbn beta iota. rewrite Hinit.
  set (i3 := set_DockerHostIP _ i2). set (st4 := record _ st3).
  destruct (RunContainer_startMonitor_run W i3 st4 appName appArgs Hfat)
    as (ex & inc & st5 & Hstart & Hex & Hinc & Htr5 & _).
  rewrite (bind_run _ _ _ _ _ Hstart).
  exists ex, inc, i3. eexists. cbn zeta.
  unfold mbind, M_bind, emit, mret, M_ret. cbn [fst snd trace].
  split; [done|]. rewrite Htr5. subst st4 st3 st2. cbn [record trace].
  rewrite Htrace, <- !app_assoc. split; [reflexivity|].
  rewrite sentCommands_app, <- (sentCommands_calls logs), Hcalls. cbn.
  done.
Qed.

(** ** The exposed ports of the launch *)

(** C3: for every overrides value the inspector holds, [RunContainer]
    reaches the create call without any earlier call or failure, and the
    exposed-port set of that call contains 65501/tcp and 65502/tcp, each
    with the reserved binding; the set is the user's with the two reserved
    entries written over it, so it has one entry per distinct key; and a
    warning is logged for a key exactly when the user had asked for a
    reserved key. *)
Theorem RunContainer_exposed_ports (W : World) (i : Inspector)
    (ov : config.ContainerOverrides) (st : State) :
  Overrides i = Some ov →
  CmdPort i = CmdPortDefault →
  EvtPort i = EvtPortDefault →
  validPortSet (heap st) (config.ExposedPorts ov) →
  let user := portSet (heap st) (config.ExposedPorts ov) in
  let r := RunContainer W i st in
  ∃ opts before after,
    trace r.2 = trace st ++ before ++ ECreateContainer opts :: after
    ∧ calls before = []
    ∧ let exposed :=
        portSet (heap r.2) (dockerapi.ExposedPorts (dockerapi.Config_ opts)) in
      exposed !! CmdPortDefault = reservedPorts i !! CmdPortDefault
      ∧ exposed !! EvtPortDefault = reservedPorts i !! EvtPortDefault
      ∧ exposed !! CmdPortDefault = Some ()
      ∧ exposed !! EvtPortDefault = Some ()
      ∧ exposed = <[EvtPortDefault := ()]> (<[CmdPortDefault := ()]> user)
      ∧ NoDup (map_to_list exposed).*1
      ∧ (∀ k, is_Some (exposed !! k)
              ↔ k = CmdPortDefault ∨ k = EvtPortDefault ∨ is_Some (user !! k))
      ∧ (∀ k, conflictMsg k ∈ warnings before
              ↔ (k = CmdPortDefault ∨ k = EvtPortDefault) ∧ is_Some (user !! k)).
Proof.
  intros Hov Hcmd Hevt Hvalid user r.
  destruct (RunContainer_run W i ov st Hov Hvalid)
    as (opts & st1 & logs & Hrun & Htrace & Hcalls & Hexposed & _ & _ & Hwarn & Honly).
  fold user in Hexposed, Hwarn, Honly.
  destruct (RunContainer_launch_creates W
              (set_ContainerName (ContainerNamePat (Getpid W) (Now W)) i) opts
              (Some (length (heap st))) st1) as [after Hafter].
  destruct (steady_RunContainer_launch W
              (set_ContainerName (ContainerNamePat (Getpid W) (Now W)) i) opts
              (Some (length (heap st))) st1) as [Hheap _].
  rewrite <- Hrun in Hafter, Hheap. fold r in Hafter, Hheap.
  assert (Hreserved : ∀ k, is_Some (reservedPorts i !! k)
                           ↔ k = CmdPortDefault ∨ k = EvtPortDefault).
  { intros k. rewrite (reservedPorts_default i Hcmd Hevt).
    rewrite !lookup_insert_is_Some, lookup_empty, <- not_eq_None_Some.
    naive_solver. }
  exists opts, logs, after. split; [by rewrite Hafter, Htrace, <- app_assoc|].
  split; [done|]. cbn zeta. rewrite Hheap, Hexposed.
  rewrite (reservedPorts_default i Hcmd Hevt).
  assert (Hwritten :
            <[EvtPortDefault := ()]> (<[CmdPortDefault := ()]> (∅ : gmap dockerapi.Port unit))
              ∪ user
            = <[EvtPortDefault := ()]> (<[CmdPortDefault := ()]> user)).
  { by rewrite <- !insert_union_l, (left_id_L ∅ (∪)). }
  rewrite Hwritten. split_and!.
  - by rewrite lookup_insert_ne, lookup_insert_eq.
  - by rewrite lookup_insert_eq.
  - by rewrite lookup_insert_ne, lookup_insert_eq.
  - by rewrite lookup_insert_eq.
  - done.
  - apply NoDup_fst_map_to_list.
  - intros k. rewrite !lookup_insert_is_Some.
    destruct (decide (EvtPortDefault = k)), (decide (CmdPortDefault = k)); naive_solver.
  - intros k. split.
    + intros Hin. destruct (Honly _ Hin) as (k' & Hmsg & Hk' & Hu).
      assert (k = k') as -> by (by apply (inj (String.append _)) in Hmsg).
      split; [by apply Hreserved|done].
    + intros [Hk Hu]. apply Hwarn; [by apply Hreserved|done].
Qed.

Lemma RunContainer_exposed_ports_witness :
  let W := Sample.quiet in
  let ov := Sample.overrides (Some 0) in
  let i := Sample.inspector (Some ov) in
  let st := Sample.start in
  let user := portSet (heap st) (config.ExposedPorts ov) in
  let r := RunContainer W i st in
  (Overrides i = Some ov
   ∧ CmdPort i = CmdPortDefault
   ∧ EvtPort i = EvtPortDefault
   ∧ validPortSet (heap st) (config.ExposedPorts ov))
  ∧ ∃ opts before after,
      trace r.2 = trace st ++ before ++ ECreateContainer opts :: after
      ∧ calls before = []
      ∧ let exposed :=
          portSet (heap r.2) (dockerapi.ExposedPorts (dockerapi.Config_ opts)) in
        exposed !! CmdPortDefault = reservedPorts i !! CmdPortDefault
        ∧ exposed !! EvtPortDefault = reservedPorts i !! EvtPortDefault
        ∧ exposed !! CmdPortDefault = Some ()
        ∧ exposed !! EvtPortDefault = Some ()
        ∧ exposed = <[EvtPortDefault := ()]> (<[CmdPortDefault := ()]> user)
        ∧ NoDup (map_to_list exposed).*1
        ∧ (∀ k, is_Some (exposed !! k)
                ↔ k = CmdPortDefault ∨ k = EvtPortDefault ∨ is_Some (user !! k))
        ∧ (∀ k, conflictMsg k ∈ warnings before
                ↔ (k = CmdPortDefault ∨ k = EvtPortDefault) ∧ is_Some (user !! k)).
Proof.
  cbn zeta. split.
  - split_and!; [reflexivity | reflexivity | reflexivity | cbn; lia].
  - apply RunContainer_exposed_ports; [reflexivity | reflexivity | reflexivity | cbn; lia].
Defined.

(** ** The checks on the inspected container *)

(** C5: when create, start and inspect have succeeded, a missing network
    settings value or fewer than two published ports end the run in the
    fatal logger with no call after the inspect call: no host address
    look-up, no channel, no command; the channel set-up is reached, its
    first call being that look-up, only when the settings are there and at
    least two ports are published. *)
Theorem RunContainer_checks_inspected (W : World) (i : Inspector)
    (ov : config.ContainerOverrides) (st : State)
    (created inspected : dockerapi.Container) :
  Overrides i = Some ov →
  CmdPort i = CmdPortDefault →
  EvtPort i = EvtPortDefault →
  validPortSet (heap st) (config.ExposedPorts ov) →
  launches W created inspected →
  let r := RunContainer W i st in
  let id := dockerapi.ID created in
  ∃ opts new,
    trace r.2 = trace st ++ new
    ∧ if enoughPorts inspected
      then
        ∃ after,
          calls new
          = [ECreateContainer opts; EStartContainer id; EInspectContainer id; EGetIP]
            ++ after
      else
        (∃ msg, r.1 = Fatal msg)
        ∧ calls new = [ECreateContainer opts; EStartContainer id; EInspectContainer id].
Proof.
  intros Hov Hcmd Hevt Hvalid Hlaunch r id.
  destruct (RunContainer_run W i ov st Hov Hvalid)
    as (opts & st1 & logs & Hrun & Htrace & Hcalls & _ & Hcomms & _).
  subst r. rewrite Hrun. rewrite (RunContainer_launch_run _ _ _ _ _ _ _ Hlaunch).
  fold id. set (st2 := record _ st1). set (i2 := set_ContainerInfo _ _).
  assert (Hsize : size (portSet (heap st2) (Some (length (heap st)))) = 2).
  { subst st2. cbn [record heap]. rewrite Hcomms. by apply size_reservedPorts. }
  assert (Hst2 : trace st2
                 = trace st ++ logs
                     ++ [ECreateContainer opts;
                         ELog Info ("RunContainer: created container => " +:+ id);
                         EStartContainer id; EInspectContainer id]).
  { subst st2. cbn [record trace]. by rewrite Htrace, <- app_assoc. }
  exists opts. unfold enoughPorts.
  destruct (dockerapi.NetworkSettings_ inspected) as [ns|] eqn:Hns;
    [case_bool_decide as Hports|].
  - destruct (RunContainer_monitor_reaches W i2 (Some (length (heap st))) st2
                inspected ns) as [after Hafter]; [done|done|lia|].
    eexists. rewrite Hafter, Hst2, <- !app_assoc. split; [reflexivity|].
    exists (calls after). rewrite !calls_app, Hcalls. done.
  - destruct (RunContainer_monitor_fails W i2 (Some (length (heap st))) st2 inspected)
      as [msg Hfatal]; [done|rewrite Hns; lia|].
    rewrite Hfatal. eexists. cbn [fst snd record trace].
    rewrite Hst2, <- !app_assoc. split; [reflexivity|].
    split; [by eexists|]. rewrite !calls_app, Hcalls. done.
  - destruct (RunContainer_monitor_fails W i2 (Some (length (heap st))) st2 inspected)
      as [msg Hfatal]; [done|by rewrite Hns|].
    rewrite Hfatal. eexists. cbn [fst snd record trace].
    rewrite Hst2, <- !app_assoc. split; [reflexivity|].
    split; [by eexists|]. rewrite !calls_app, Hcalls. done.
Qed.

Lemma RunContainer_checks_inspected_witness :
  let W := Sample.world (Sample.inspectedWith None) 0 None ("ok", None) ("done", None) in
  let ov := Sample.overrides None in
  let i := Sample.inspector (Some ov) in
  let st := Sample.start in
  let r := RunContainer W i st in
  let id := dockerapi.ID Sample.created in
  (Overrides i = Some ov
   ∧ CmdPort i = CmdPortDefault
   ∧ EvtPort i = EvtPortDefault
   ∧ validPortSet (heap st) (config.ExposedPorts ov)
   ∧ launches W Sample.created (Sample.inspectedWith None))
  ∧ ∃ opts new,
      trace r.2 = trace st ++ new
      ∧ if enoughPorts (Sample.inspectedWith None)
        then
          ∃ after,
            calls new
            = [ECreateContainer opts; EStartContainer id; EInspectContainer id; EGetIP]
              ++ after
        else
          (∃ msg, r.1 = Fatal msg)
          ∧ calls new = [ECreateContainer opts; EStartContainer id; EInspectContainer id].
Proof.
  cbn zeta.
  assert (Hlaunch : launches
            (Sample.world (Sample.inspectedWith None) 0 None ("ok", None) ("done", None))
            Sample.created (Sample.inspectedWith None))
    by (split; [intros opts; reflexivity | split; reflexivity]).
  split.
  - split_and!; [reflexivity | reflexivity | reflexivity | exact I | exact Hlaunch].
  - apply (RunContainer_checks_inspected _ _ (Sample.overrides None) _ Sample.created);
      [reflexivity | reflexivity | reflexivity | exact I | exact Hlaunch].
Defined.

(** ** The StartMonitor command *)

(** C7: when the launch goes through and the channels open, and
    [FatContainerCmd] is a first token followed by the remaining tokens,
    [RunContainer] sends exactly one command, a StartMonitor whose AppName
    is the first token and whose AppArgs are the remaining tokens (none
    when there is exactly one token). *)
Theorem RunContainer_StartMonitor_app (W : World) (i : Inspector)
    (ov : config.ContainerOverrides) (st : State)
    (created inspected : dockerapi.Container)
    (appName : string) (appArgs : list string) :
  Overrides i = Some ov →
  CmdPort i = CmdPortDefault →
  EvtPort i = EvtPortDefault →
  validPortSet (heap st) (config.ExposedPorts ov) →
  launches W created inspected →
  channelsOpen W inspected →
  FatContainerCmd i = appName :: appArgs →
  ∃ cmd new,
    trace (RunContainer W i st).2 = trace st ++ new
    ∧ sentCommands new = [command.StartMonitorMsg cmd]
    ∧ command.AppName cmd = appName
    ∧ command.AppArgs cmd = appArgs
    ∧ command.AppName cmd :: command.AppArgs cmd = FatContainerCmd i.
Proof.
  intros Hov Hcmd Hevt Hvalid Hlaunch Hopen Hfat.
  destruct (RunContainer_sends W i ov st created inspected appName appArgs)
    as (ex & inc & i' & new & _ & Htrace & Hsent & _); try done.
  eexists _, new. split_and!; [done | exact Hsent | done | done | by rewrite Hfat].
Qed.

Lemma RunContainer_StartMonitor_app_witness :
  let ov := Sample.overrides None in
  let i := Sample.inspector (Some ov) in
  (Overrides i = Some ov
   ∧ CmdPort i = CmdPortDefault
   ∧ EvtPort i = EvtPortDefault
   ∧ validPortSet (heap Sample.start) (config.ExposedPorts ov)
   ∧ launches Sample.quiet Sample.created Sample.running
   ∧ channelsOpen Sample.quiet Sample.running
   ∧ FatContainerCmd i = "/bin/custom" :: [])
  ∧ ∃ cmd new,
      trace (RunContainer Sample.quiet i Sample.start).2 = trace Sample.start ++ new
      ∧ sentCommands new = [command.StartMonitorMsg cmd]
      ∧ command.AppName cmd = "/bin/custom"
      ∧ command.AppArgs cmd = []
      ∧ command.AppName cmd :: command.AppArgs cmd = FatContainerCmd i.
Proof.
  cbn zeta.
  assert (Hlaunch : launches Sample.quiet Sample.created Sample.running)
    by (split; [intros opts; reflexivity | split; reflexivity]).
  assert (Hopen : channelsOpen Sample.quiet Sample.running).
  { eexists _, _, _, _, _.
    split; [reflexivity|]. split; [vm_compute; lia|].
    split; [vm_compute; reflexivity|]. split; [vm_compute; reflexivity|].
    intros ip cmdPort evtPort. reflexivity. }
  split.
  - split_and!;
      [reflexivity | reflexivity | reflexivity | exact I | exact Hlaunch | exact Hopen
      | reflexivity].
  - apply (RunContainer_StartMonitor_app _ _ (Sample.overrides None) _
             Sample.created Sample.running);
      [reflexivity | reflexivity | reflexivity | exact I | exact Hlaunch | exact Hopen
      | reflexivity].
Defined.

(** C4, as amended: when the launch goes through and the channels open, for
    every non-empty exclude-path set, whatever the include-path set, the
    Excludes of the StartMonitor sent are the keys of the set, each exactly
    once, in some order (that in which the runtime iterates the map); and
    the Includes are empty when the include-path set is empty. *)
Theorem RunContainer_StartMonitor_paths (W : World) (i : Inspector)
    (ov : config.ContainerOverrides) (st : State)
    (created inspected : dockerapi.Container)
    (appName : string) (appArgs : list string) :
  Overrides i = Some ov →
  CmdPort i = CmdPortDefault →
  EvtPort i = EvtPortDefault →
  validPortSet (heap st) (config.ExposedPorts ov) →
  launches W created inspected →
  channelsOpen W inspected →
  FatContainerCmd i = appName :: appArgs →
  ExcludePaths i ≠ ∅ →
  ∃ cmd new,
    trace (RunContainer W i st).2 = trace st ++ new
    ∧ sentCommands new = [command.StartMonitorMsg cmd]
    ∧ command.Excludes cmd ≡ₚ pathKeys (ExcludePaths i)
    ∧ NoDup (command.Excludes cmd)
    ∧ (∀ k, k ∈ command.Excludes cmd ↔ is_Some (ExcludePaths i !! k))
    ∧ command.Excludes cmd ≠ []
    ∧ (IncludePaths i = ∅ → command.Includes cmd = []).
Proof.
  intros Hov Hcmd Hevt Hvalid Hlaunch Hopen Hfat Hex.
  destruct (RunContainer_sends W i ov st created inspected appName appArgs)
    as (ex & inc & i' & new & _ & Htrace & Hsent & Hpex & Hpinc); try done.
  assert (Hkeys : ∀ k, k ∈ ex ↔ is_Some (ExcludePaths i !! k)).
  { intros k. rewrite Hpex. unfold pathKeys. rewrite list_elem_of_fmap. split.
    - intros [[k' v] [-> Hin]]. apply elem_of_map_to_list in Hin. by eexists.
    - intros [v Hv]. exists (k, v). split; [done|]. by apply elem_of_map_to_list. }
  eexists _, new. split_and!; [done | exact Hsent | done | | done | |]; cbn.
  - rewrite Hpex. apply NoDup_fst_map_to_list.
  - intros ->. destruct (map_choose _ Hex) as (k & v & Hk).
    assert (Hin : k ∈ @nil string) by (apply Hkeys; by eexists).
    by apply elem_of_nil in Hin.
  - intros Hinc. rewrite Hinc in Hpinc. unfold pathKeys in Hpinc.
    rewrite map_to_list_empty in Hpinc. by apply Permutation_nil_r in Hpinc.
Qed.

Lemma RunContainer_StartMonitor_paths_witness :
  let ov := Sample.overrides None in
  let i := Sample.inspector (Some ov) in
  (Overrides i = Some ov
   ∧ CmdPort i = CmdPortDefault
   ∧ EvtPort i = EvtPortDefault
   ∧ validPortSet (heap Sample.start) (config.ExposedPorts ov)
   ∧ launches Sample.quiet Sample.created Sample.running
   ∧ channelsOpen Sample.quiet Sample.running
   ∧ FatContainerCmd i = "/bin/custom" :: []
   ∧ ExcludePaths i ≠ ∅)
  ∧ IncludePaths i = ∅
  ∧ ∃ cmd new,
      trace (RunContainer Sample.quiet i Sample.start).2 = trace Sample.start ++ new
      ∧ sentCommands new = [command.StartMonitorMsg cmd]
      ∧ command.Excludes cmd ≡ₚ pathKeys (ExcludePaths i)
      ∧ NoDup (command.Excludes cmd)
      ∧ (∀ k, k ∈ command.Excludes cmd ↔ is_Some (ExcludePaths i !! k))
      ∧ command.Excludes cmd ≠ []
      ∧ command.Includes cmd = [].
Proof.
  cbn zeta.
  assert (Hlaunch : launches Sample.quiet Sample.created Sample.running)
    by (split; [intros opts; reflexivity | split; reflexivity]).
  assert (Hopen : channelsOpen Sample.quiet Sample.running).
  { eexists _, _, _, _, _.
    split; [reflexivity|]. split; [vm_compute; lia|].
    split; [vm_compute; reflexivity|]. split; [vm_compute; reflexivity|].
    intros ip cmdPort evtPort. reflexivity. }
  assert (Hex : ExcludePaths (Sample.inspector (Some (Sample.overrides None))) ≠ ∅).
  { intros Hempty. apply (f_equal (λ m : gmap string bool, m !! "/tmp")) in Hempty.
    vm_compute in Hempty. discriminate Hempty. }
  split.
  - split_and!;
      [reflexivity | reflexivity | reflexivity | exact I | exact Hlaunch | exact Hopen
      | reflexivity | exact Hex].
  - split; [reflexivity|].
    destruct (RunContainer_StartMonitor_paths Sample.quiet
                (Sample.inspector (Some (Sample.overrides None)))
                (Sample.overrides None) Sample.start
                Sample.created Sample.running "/bin/custom" [])
      as (cmd & new & Htrace & Hsent & Hperm & Hnodup & Hkeys & Hsome & Hincludes);
      [reflexivity | reflexivity | reflexivity | exact I | exact Hlaunch | exact Hopen
      | reflexivity | exact Hex |].
    exists cmd, new.
    split_and!; [exact Htrace | exact Hsent | exact Hperm | exact Hnodup | exact Hkeys
                | exact Hsome | apply Hincludes; reflexivity].
Defined.

(** C4, as stated, fails: for the exclude-path set {"/tmp","/var/log"} a run
    sends Excludes = ["/var/log","/tmp"], which is not the sorted list of
    the keys, and the same inputs under another iteration order of the
    runtime give ["/tmp","/var/log"]: the order is not stable either. *)
Lemma RunContainer_Excludes_not_sorted :
  let excludesOf W :=
    omap (λ m, match m with
               | command.StartMonitorMsg cmd => Some (command.Excludes cmd)
               | _ => None
               end)
      (sentCommands
         (trace (Sample.session W (Some (Sample.overrides None)) Sample.start).2)) in
  pathKeys Sample.excludes ≡ₚ ["/tmp"; "/var/log"]
  ∧ spec_sortedKeys Sample.excludes = ["/tmp"; "/var/log"]
  ∧ excludesOf Sample.quiet = [["/var/log"; "/tmp"]]
  ∧ excludesOf Sample.quiet ≠ [spec_sortedKeys Sample.excludes]
  ∧ excludesOf (Sample.world Sample.running 1 None ("ok", None) ("done", None))
    = [["/tmp"; "/var/log"]].
Proof.
  cbn zeta. split_and!.
  - vm_compute. apply perm_swap.
  - vm_compute. reflexivity.
  - vm_compute. reflexivity.
  - vm_compute. discriminate.
  - vm_compute. reflexivity.
Qed.

(** ** The overrides during a run *)







(** ** Unchecked accesses *)

(** C9: [initContainerChannels] takes the first binding of each reserved
    port without looking whether there is one, and the check before it only
    counts the published ports: when the inspected container publishes two
    or more ports and a reserved port is missing or has no binding,
    [initContainerChannels] panics on the index, after the host address
    look-up and before any channel is opened, and so does [RunContainer];
    neither returns an error. *)
Theorem initContainerChannels_unchecked_index (W : World) (i : Inspector)
    (ov : config.ContainerOverrides) (st : State)
    (created inspected : dockerapi.Container) (ns : dockerapi.NetworkSettings) :
  Overrides i = Some ov →
  CmdPort i = CmdPortDefault →
  EvtPort i = EvtPortDefault →
  validPortSet (heap st) (config.ExposedPorts ov) →
  launches W created inspected →
  dockerapi.NetworkSettings_ inspected = Some ns →
  2 ≤ size (dockerapi.Ports ns) →
  default [] (dockerapi.Ports ns !! CmdPortDefault) = []
  ∨ default [] (dockerapi.Ports ns !! EvtPortDefault) = [] →
  enoughPorts inspected = true
  ∧ (∀ st', initContainerChannels W (set_ContainerInfo (Some inspected) i) st'
            = (Panic indexOutOfRange, record [EGetIP] st'))
  ∧ (RunContainer W i st).1 = Panic indexOutOfRange
  ∧ ∃ opts new,
      trace (RunContainer W i st).2 = trace st ++ new
      ∧ calls new
        = [ECreateContainer opts; EStartContainer (dockerapi.ID created);
           EInspectContainer (dockerapi.ID created); EGetIP].
Proof.
  intros Hov Hcmd Hevt Hvalid Hlaunch Hns Hsize Hnone. split_and!.
  - unfold enoughPorts. rewrite Hns. by apply bool_decide_eq_true.
  - intros st'. apply (initContainerChannels_panics _ _ _ inspected ns); try done.
    cbn. by rewrite Hcmd, Hevt.
  - destruct (RunContainer_run W i ov st Hov Hvalid)
      as (opts & st1 & logs & Hrun & _ & _ & _ & Hcomms & _).
    rewrite Hrun, (RunContainer_launch_run _ _ _ _ _ _ _ Hlaunch).
    rewrite (RunContainer_monitor_checked _ _ _ _ inspected ns); [|done|done|].
    2:{ cbn [record heap]. rewrite Hcomms, size_reservedPorts; done. }
    erewrite bind_panic; [done|].
    apply (initContainerChannels_panics _ _ _ inspected ns); try done.
    cbn. by rewrite Hcmd, Hevt.
  - destruct (RunContainer_run W i ov st Hov Hvalid)
      as (opts & st1 & logs & Hrun & Htrace & Hcalls & _ & Hcomms & _).
    rewrite Hrun, (RunContainer_launch_run _ _ _ _ _ _ _ Hlaunch).
    rewrite (RunContainer_monitor_checked _ _ _ _ inspected ns); [|done|done|].
    2:{ cbn [record heap]. rewrite Hcomms, size_reservedPorts; done. }
    erewrite bind_panic; last first.
    { apply (initContainerChannels_panics _ _ _ inspected ns); try done.
      cbn. by rewrite Hcmd, Hevt. }
    exists opts. eexists. cbn [snd record trace]. rewrite Htrace, <- !app_assoc.
    split; [reflexivity|]. rewrite !calls_app, Hcalls. done.
Qed.

Lemma initContainerChannels_unchecked_index_witness :
  let inspected :=
    Sample.inspectedWith (Some {| dockerapi.Ports := Sample.otherPorts |}) in
  let W := Sample.world inspected 0 None ("ok", None) ("done", None) in
  let ov := Sample.overrides None in
  let i := Sample.inspector (Some ov) in
  let st := Sample.start in
  (Overrides i = Some ov
   ∧ CmdPort i = CmdPortDefault
   ∧ EvtPort i = EvtPortDefault
   ∧ validPortSet (heap st) (config.ExposedPorts ov)
   ∧ launches W Sample.created inspected
   ∧ dockerapi.NetworkSettings_ inspected = Some {| dockerapi.Ports := Sample.otherPorts |}
   ∧ 2 ≤ size Sample.otherPorts
   ∧ (default [] (Sample.otherPorts !! CmdPortDefault) = []
      ∨ default [] (Sample.otherPorts !! EvtPortDefault) = []))
  ∧ enoughPorts inspected = true
  ∧ (∀ st', initContainerChannels W (set_ContainerInfo (Some inspected) i) st'
            = (Panic indexOutOfRange, record [EGetIP] st'))
  ∧ (RunContainer W i st).1 = Panic indexOutOfRange
  ∧ ∃ opts new,
      trace (RunContainer W i st).2 = trace st ++ new
      ∧ calls new
        = [ECreateContainer opts; EStartContainer (dockerapi.ID Sample.created);
           EInspectContainer (dockerapi.ID Sample.created); EGetIP].
Proof.
  cbn zeta.
  assert (Hlaunch : launches
            (Sample.world
               (Sample.inspectedWith (Some {| dockerapi.Ports := Sample.otherPorts |}))
               0 None ("ok", None) ("done", None))
            Sample.created
            (Sample.inspectedWith (Some {| dockerapi.Ports := Sample.otherPorts |})))
    by (split; [intros opts; reflexivity | split; reflexivity]).
  assert (Hsize : 2 ≤ size Sample.otherPorts) by (vm_compute; lia).
  assert (Hnone : default [] (Sample.otherPorts !! CmdPortDefault) = []
                  ∨ default [] (Sample.otherPorts !! EvtPortDefault) = [])
    by (left; vm_compute; reflexivity).
  split.
  - split_and!;
      [reflexivity | reflexivity | reflexivity | exact I | exact Hlaunch | reflexivity
      | exact Hsize | exact Hnone].
  - apply (initContainerChannels_unchecked_index _ _ (Sample.overrides None) _
             Sample.created _ {| dockerapi.Ports := Sample.otherPorts |});
      [reflexivity | reflexivity | reflexivity | exact I | exact Hlaunch | reflexivity
      | exact Hsize | exact Hnone].
Defined.

Lemma RunContainer_nil (W : World) (i : Inspector) (st : State) :
  Overrides i = None →
  RunContainer W i st
  = (Panic nilDeref, {| heap := heap st; trace := trace st; iters := S (iters st) |}).
Proof.
  intros Hov. unfold RunContainer. cbn zeta.
  unfold mbind at 1, M_bind at 1, range at 1.
  change (Overrides (set_ContainerName _ i)) with (Overrides i). by rewrite Hov.
Qed.

(** C10: [NewInspector] takes nil overrides and resolves the image defaults;
    [RunContainer] on the inspector it returns reads a field through the nil
    pointer while it builds the launch specification: it panics before any
    call is made, and nothing is launched. *)
Theorem RunContainer_nil_overrides_panics (W : World)
    (img : image.Inspector) (localVolumePath : string)
    (links etcHostsMaps dnsServers dnsSearchDomains : list string)
    (showContainerLogs : bool) (volumeMounts : gmap string config.VolumeMount)
    (excludePaths includePaths : gmap string bool) (doDebug : bool) (st st' : State) :
  ∃ i,
    (NewInspector img localVolumePath None links etcHostsMaps dnsServers
       dnsSearchDomains showContainerLogs volumeMounts excludePaths includePaths
       doDebug st).1 = Ok (i, None)
    ∧ Overrides i = None
    ∧ FatContainerCmd i
      = image.Entrypoint (image.ImageInfoConfig img)
        ++ image.Cmd (image.ImageInfoConfig img)
    ∧ (RunContainer W i st').1 = Panic nilDeref
    ∧ trace (RunContainer W i st').2 = trace st'
    ∧ heap (RunContainer W i st').2 = heap st'.
Proof.
  unfold NewInspector. destruct img as [ref [imgE imgC] loc aa sc].
  cbn [image.ImageInfoConfig image.Entrypoint image.Cmd].
  destruct imgE, imgC; run; eexists; (split; [reflexivity|]);
    (split; [reflexivity|]); (split; [by rewrite ?app_nil_r|]);
    by rewrite RunContainer_nil.
Qed.

(** * Further properties *)

(** ** The launch specification in full *)

Lemma foldl_binds (l : list (string * config.VolumeMount)) (acc : list string) :
  foldl (λ binds kv,
           binds ++ [config.Source kv.2 +:+ ":" +:+ config.Destination kv.2
                       +:+ ":" +:+ config.Options kv.2]) acc l
  = acc ++ (mountInfo <$> l.*2).
Proof.
  revert acc. induction l as [|kv l IH]; intros acc; cbn.
  - by rewrite app_nil_r.
  - rewrite IH. by rewrite <- app_assoc.
Qed.

(** Lines 137-227 with overrides at hand, field by field. *)
Lemma RunContainer_options (W : World) (i : Inspector) (ov : config.ContainerOverrides)
    (st : State) :
  Overrides i = Some ov →
  validPortSet (heap st) (config.ExposedPorts ov) →
  ∃ exposed userBinds st' logs,
    RunContainer W i st
    = RunContainer_launch W
        (set_ContainerName (ContainerNamePat (Getpid W) (Now W)) i)
        {| dockerapi.Name := ContainerNamePat (Getpid W) (Now W);
           dockerapi.Config_ :=
             {| dockerapi.Image := image.ImageRef (ImageInspector i);
                dockerapi.ExposedPorts := exposed;
                dockerapi.Entrypoint := [SensorBinPath];
                dockerapi.Cmd := if DoDebug i then ["-d"] else [];
                dockerapi.Env := config.Env ov;
                dockerapi.Labels := {[ "type" := LabelName ]};
                dockerapi.Hostname := config.Hostname ov;
                dockerapi.DNS := DnsServers i |};
           dockerapi.HostConfig_ :=
             {| dockerapi.Binds :=
                  userBinds
                  ++ [ArtifactsMountPat (filepath_Join W (LocalVolumePath i) ArtifactsDir);
                      SensorMountPat (filepath_Join W (ExeDir W) SensorBinLocal)];
                dockerapi.PublishAllPorts := true;
                dockerapi.CapAdd := ["SYS_ADMIN"];
                dockerapi.Privileged := true;
                dockerapi.NetworkMode := config.Network ov;
                dockerapi.Links := Links i;
                dockerapi.ExtraHosts := EtcHostsMaps i;
                dockerapi.HostDNS := DnsServers i;
                dockerapi.DNSSearch := DnsSearchDomains i |} |}
        (Some (length (heap st))) st'
    ∧ userBinds ≡ₚ mountInfo <$> (map_to_list (VolumeMounts i)).*2
    ∧ trace st' = trace st ++ logs
    ∧ calls logs = []
    ∧ portSet (heap st') (Some (length (heap st))) = reservedPorts i.
Proof.
  intros Hov Hvalid. unfold RunContainer. cbn zeta.
  unfold mbind at 1, M_bind at 1, range at 1.
  set (st0 := {| heap := heap st; trace := trace st; iters := S (iters st) |}).
  change (Overrides (set_ContainerName _ i)) with (Overrides i). rewrite Hov.
  unfold mbind at 1, M_bind at 1, deref at 1, mret at 1, M_ret at 1.
  destruct (RunContainer_exposedPorts_run W
              (set_ContainerName (ContainerNamePat (Getpid W) (Now W)) i) ov st0 Hvalid)
    as (r & st1 & logs & Hrun & Htrace & Hcalls & _ & Hcomms & _).
  rewrite (bind_run _ _ _ _ _ Hrun). cbn beta iota.
  do 5 (erewrite bind_run; [|apply RunContainer_optional_run]).
  rewrite !record_record. rewrite foldl_binds. cbn [app].
  rewrite <- app_assoc. cbn [app].
  assert (Hnet : (if bool_decide (config.Network ov ≠ "") then config.Network ov else "")
                 = config.Network ov).
  { case_bool_decide as Hn; [done|]. by destruct (decide (config.Network ov = "")). }
  assert (Hslice : ∀ l : list string, (if nonempty l then l else []) = l)
    by (by intros []).
  rewrite Hnet, !Hslice.
  eexists r, _, _, _. split; [reflexivity|].
  split; [by rewrite rangeOrder_Permutation|].
  cbn [record trace]. rewrite Htrace. cbn [st0 trace]. rewrite <- app_assoc.
  split; [reflexivity|].
  split; [by rewrite !calls_app, !calls_optional, Hcalls|].
  exact Hcomms.
Qed.

(** The store after [RunContainer_exposedPorts]: one more map, and every
    map but the one of the overrides as it was. *)
Lemma RunContainer_exposedPorts_store (W : World) (i : Inspector)
    (ov : config.ContainerOverrides) (st : State) :
  validPortSet (heap st) (config.ExposedPorts ov) →
  let st' := (RunContainer_exposedPorts W i ov st).2 in
  length (heap st') = S (length (heap st))
  ∧ heap st' !! length (heap st) = Some (reservedPorts i)
  ∧ ∀ a, a < length (heap st) → config.ExposedPorts ov ≠ Some a →
         heap st' !! a = heap st !! a.
Proof.
  intros Hvalid. cbn zeta.
  assert (Hheap : ∃ r st',
            RunContainer_exposedPorts W i ov st = (r, st')
            ∧ (heap st' = heap st ++ [reservedPorts i]
               ∨ ∃ a f, config.ExposedPorts ov = Some a ∧ a < length (heap st)
                        ∧ heap st' = alter f a (heap st ++ [reservedPorts i]))).
  { unfold RunContainer_exposedPorts.
    unfold mbind at 1, M_bind at 1, newPortSet at 1.
    unfold mbind at 1, M_bind at 1, readPortSet at 1. cbn [heap trace iters].
    rewrite (portSet_app _ _ _ Hvalid). fold (reservedPorts i).
    destruct (0 <? size (portSet (heap st) (config.ExposedPorts ov))) eqn:Hsize.
    - assert (∃ a m, config.ExposedPorts ov = Some a ∧ heap st !! a = Some m)
        as (a & m & Hr & Ha).
      { unfold portSet in *. destruct (config.ExposedPorts ov) as [a|].
        - exists a. destruct (heap st !! a) as [m|]; [by exists m|].
          cbn in Hsize. by rewrite map_size_empty in Hsize.
        - by rewrite map_size_empty in Hsize. }
      pose proof (lookup_lt_Some _ _ _ Ha) as Hlt.
      unfold mbind at 1, M_bind at 1, readPortSet at 1. cbn [heap trace iters].
      rewrite portSet_new.
      unfold mbind at 1, M_bind at 1, range at 1. cbn [heap trace iters].
      rewrite Hr.
      erewrite bind_run; last first.
      { apply (exposedPorts_loop a _ _ m). cbn. by rewrite lookup_app_l. }
      eexists _, _. split; [reflexivity|]. right.
      eexists a, _. split; [done|]. split; [done|]. reflexivity.
    - eexists _, _. split; [reflexivity|]. by left. }
  destruct Hheap as (r & st' & Heq & Hheap). rewrite Heq. cbn [snd].
  destruct Hheap as [->|(a & f & Hr & Hlt & ->)].
  - split_and!.
    + rewrite length_app. cbn. lia.
    + by rewrite list_lookup_middle.
    + intros a' Ha' _. by rewrite lookup_app_l.
  - split_and!.
    + rewrite length_alter, length_app. cbn. lia.
    + rewrite list_lookup_alter_ne by lia. by rewrite list_lookup_middle.
    + intros a' Ha' Hne. rewrite list_lookup_alter_ne by congruence.
      by rewrite lookup_app_l.
Qed.

(** ** From the launch to the channels *)

(** [RunContainer] up to the answer of the IPC layer, when the launch goes
    through and both reserved ports are published. *)
Lemma RunContainer_channels (W : World) (i : Inspector) (ov : config.ContainerOverrides)
    (st : State) (created inspected : dockerapi.Container)
    (cmdBinding evtBinding : dockerapi.PortBinding) :
  Overrides i = Some ov →
  CmdPort i = CmdPortDefault →
  EvtPort i = EvtPortDefault →
  validPortSet (heap st) (config.ExposedPorts ov) →
  launches W created inspected →
  publishes inspected cmdBinding evtBinding →
  let id := dockerapi.ID created in
  let i' := launched W created inspected i in
  ∃ opts st' new,
    RunContainer W i st
    = match InitContainerChannels W (GetIP W) (dockerapi.HostPort cmdBinding)
              (dockerapi.HostPort evtBinding) with
      | Some err => mret (i', Some err)
      | None =>
          cmd ← RunContainer_startMonitor W i';
          emit (ESendContainerCmd (command.StartMonitorMsg cmd));;
          mret (i', (SendContainerCmd W (command.StartMonitorMsg cmd)).2)
      end st'
    ∧ trace st' = trace st ++ new
    ∧ calls new
      = [ECreateContainer opts; EStartContainer id; EInspectContainer id; EGetIP;
         EInitContainerChannels (GetIP W) (dockerapi.HostPort cmdBinding)
           (dockerapi.HostPort evtBinding)]
    ∧ dockerapi.Name opts = ContainerNamePat (Getpid W) (Now W).
Proof.
  intros Hov Hcmd Hevt Hvalid Hlaunch (ns & l1 & l2 & Hns & Hsize & Hb1 & Hb2) id i'.
  destruct (RunContainer_options W i ov st Hov Hvalid)
    as (exposed & userBinds & st1 & logs & Hrun & _ & Htrace & Hcalls & Hcomms).
  rewrite Hrun. rewrite (RunContainer_launch_run _ _ _ _ _ _ _ Hlaunch).
  set (st2 := record _ st1).
  set (i2 := set_ContainerInfo _ _).
  rewrite (RunContainer_monitor_checked W i2 _ st2 inspected ns); [|done|done|].
  2:{ subst st2. cbn [record heap]. rewrite Hcomms, size_reservedPorts; done. }
  set (st3 := record _ st2).
  erewrite bind_run; last first.
  { apply (initContainerChannels_run W i2 st3 inspected ns cmdBinding evtBinding l1 l2);
      try done.
    - subst i2. cbn. by rewrite Hcmd.
    - subst i2. cbn. by rewrite Hevt. }
  cbn beta iota.
  eexists _, _, _. split; [reflexivity|].
  subst st3 st2. cbn [record trace]. rewrite Htrace, <- !app_assoc.
  split; [reflexivity|]. rewrite !calls_app, Hcalls. done.
Qed.

(** ** What the runtime is asked to create *)

(** X1: the binds of the create call are one "source:destination:options"
    bind per user volume mount, in the order the runtime iterates the map,
    followed by the artifacts bind and then the read-only sensor bind: two
    more binds than there are volume mounts, and the two forced binds are
    always the last ones. *)
Theorem RunContainer_binds (W : World) (i : Inspector) (ov : config.ContainerOverrides)
    (st : State) :
  Overrides i = Some ov →
  validPortSet (heap st) (config.ExposedPorts ov) →
  ∃ opts before after userBinds,
    trace (RunContainer W i st).2 = trace st ++ before ++ ECreateContainer opts :: after
    ∧ calls before = []
    ∧ dockerapi.Binds (dockerapi.HostConfig_ opts)
      = userBinds
        ++ [ArtifactsMountPat (filepath_Join W (LocalVolumePath i) ArtifactsDir);
            SensorMountPat (filepath_Join W (ExeDir W) SensorBinLocal)]
    ∧ userBinds ≡ₚ mountInfo <$> (map_to_list (VolumeMounts i)).*2
    ∧ length (dockerapi.Binds (dockerapi.HostConfig_ opts)) = size (VolumeMounts i) + 2.
Proof.
  intros Hov Hvalid.
  destruct (RunContainer_options W i ov st Hov Hvalid)
    as (exposed & userBinds & st1 & logs & Hrun & Hbinds & Htrace & Hcalls & _).
  rewrite Hrun.
  match goal with
  | |- context [RunContainer_launch W ?i' ?o ?c st1] =>
      destruct (RunContainer_launch_creates W i' o c st1) as [after Hafter];
      exists o
  end.
  exists logs, after, userBinds. rewrite Hafter, Htrace, <- app_assoc.
  split_and!; try done. cbn [dockerapi.Binds dockerapi.HostConfig_].
  rewrite length_app, Hbinds, !length_fmap, length_map_to_list. done.
Qed.

Lemma RunContainer_binds_witness :
  let i := Cases.inspector ["/bin/app"] in
  (Overrides i = Some Cases.overrides
   ∧ validPortSet (heap Sample.start) (config.ExposedPorts Cases.overrides))
  ∧ ∃ opts before after userBinds,
      trace (RunContainer Sample.quiet i Sample.start).2
      = trace Sample.start ++ before ++ ECreateContainer opts :: after
      ∧ calls before = []
      ∧ dockerapi.Binds (dockerapi.HostConfig_ opts)
        = userBinds
          ++ [ArtifactsMountPat
                (filepath_Join Sample.quiet (LocalVolumePath i) ArtifactsDir);
              SensorMountPat
                (filepath_Join Sample.quiet (ExeDir Sample.quiet) SensorBinLocal)]
      ∧ userBinds ≡ₚ mountInfo <$> (map_to_list (VolumeMounts i)).*2
      ∧ length (dockerapi.Binds (dockerapi.HostConfig_ opts))
        = size (VolumeMounts i) + 2.
Proof.
  cbn zeta. split.
  - split; [reflexivity | cbn; lia].
  - apply (RunContainer_binds Sample.quiet _ Cases.overrides);
      [reflexivity | cbn; lia].
Defined.

(** X2: whatever the overrides and the image, the container is created
    under the name "dockerslimk_<pid>_<time>", with the sensor binary as its only entrypoint, "-d" as its only argument
    when debugging and none otherwise, all ports published, privileged, with
    the SYS_ADMIN capability, and with the single label type=dockerslim: the
    labels of the overrides are not passed on. *)
Theorem RunContainer_sensor_settings (W : World) (i : Inspector)
    (ov : config.ContainerOverrides) (st : State) :
  Overrides i = Some ov →
  validPortSet (heap st) (config.ExposedPorts ov) →
  ∃ opts before after,
    trace (RunContainer W i st).2 = trace st ++ before ++ ECreateContainer opts :: after
    ∧ calls before = []
    ∧ dockerapi.Name opts = ContainerNamePat (Getpid W) (Now W)
    ∧ dockerapi.Image (dockerapi.Config_ opts) = image.ImageRef (ImageInspector i)
    ∧ dockerapi.Entrypoint (dockerapi.Config_ opts) = [SensorBinPath]
    ∧ dockerapi.Cmd (dockerapi.Config_ opts) = (if DoDebug i then ["-d"] else [])
    ∧ dockerapi.Labels (dockerapi.Config_ opts) = {[ "type" := "dockerslim" ]}
    ∧ dockerapi.PublishAllPorts (dockerapi.HostConfig_ opts) = true
    ∧ dockerapi.Privileged (dockerapi.HostConfig_ opts) = true
    ∧ dockerapi.CapAdd (dockerapi.HostConfig_ opts) = ["SYS_ADMIN"].
Proof.
  intros Hov Hvalid.
  destruct (RunContainer_options W i ov st Hov Hvalid)
    as (exposed & userBinds & st1 & logs & Hrun & Hbinds & Htrace & Hcalls & _).
  rewrite Hrun.
  match goal with
  | |- context [RunContainer_launch W ?i' ?o ?c st1] =>
      destruct (RunContainer_launch_creates W i' o c st1) as [after Hafter];
      exists o
  end.
  exists logs, after. rewrite Hafter, Htrace, <- app_assoc.
  split_and!; try done.
Qed.

Lemma RunContainer_sensor_settings_witness :
  let i := Cases.inspector ["/bin/app"] in
  (Overrides i = Some Cases.overrides
   ∧ validPortSet (heap Sample.start) (config.ExposedPorts Cases.overrides))
  ∧ ∃ opts before after,
      trace (RunContainer Sample.quiet i Sample.start).2
      = trace Sample.start ++ before ++ ECreateContainer opts :: after
      ∧ calls before = []
      ∧ dockerapi.Name opts = ContainerNamePat (Getpid Sample.quiet) (Now Sample.quiet)
      ∧ dockerapi.Image (dockerapi.Config_ opts) = image.ImageRef (ImageInspector i)
      ∧ dockerapi.Entrypoint (dockerapi.Config_ opts) = [SensorBinPath]
      ∧ dockerapi.Cmd (dockerapi.Config_ opts) = (if DoDebug i then ["-d"] else [])
      ∧ dockerapi.Labels (dockerapi.Config_ opts) = {[ "type" := "dockerslim" ]}
      ∧ dockerapi.PublishAllPorts (dockerapi.HostConfig_ opts) = true
      ∧ dockerapi.Privileged (dockerapi.HostConfig_ opts) = true
      ∧ dockerapi.CapAdd (dockerapi.HostConfig_ opts) = ["SYS_ADMIN"].
Proof.
  cbn zeta. split.
  - split; [reflexivity | cbn; lia].
  - apply (RunContainer_sensor_settings Sample.quiet _ Cases.overrides);
      [reflexivity | cbn; lia].
Defined.

(** X3: the environment and the hostname of the overrides, the network mode,
    the links, the extra hosts and the DNS search domains reach the create
    call as they were given, an empty one as the unset field; the DNS
    servers are set in the host configuration and in the container
    configuration alike. *)
Theorem RunContainer_passes_settings (W : World) (i : Inspector)
    (ov : config.ContainerOverrides) (st : State) :
  Overrides i = Some ov →
  validPortSet (heap st) (config.ExposedPorts ov) →
  ∃ opts before after,
    trace (RunContainer W i st).2 = trace st ++ before ++ ECreateContainer opts :: after
    ∧ calls before = []
    ∧ dockerapi.Env (dockerapi.Config_ opts) = config.Env ov
    ∧ dockerapi.Hostname (dockerapi.Config_ opts) = config.Hostname ov
    ∧ dockerapi.NetworkMode (dockerapi.HostConfig_ opts) = config.Network ov
    ∧ dockerapi.Links (dockerapi.HostConfig_ opts) = Links i
    ∧ dockerapi.ExtraHosts (dockerapi.HostConfig_ opts) = EtcHostsMaps i
    ∧ dockerapi.HostDNS (dockerapi.HostConfig_ opts) = DnsServers i
    ∧ dockerapi.DNS (dockerapi.Config_ opts) = DnsServers i
    ∧ dockerapi.DNSSearch (dockerapi.HostConfig_ opts) = DnsSearchDomains i.
Proof.
  intros Hov Hvalid.
  destruct (RunContainer_options W i ov st Hov Hvalid)
    as (exposed & userBinds & st1 & logs & Hrun & Hbinds & Htrace & Hcalls & _).
  rewrite Hrun.
  match goal with
  | |- context [RunContainer_launch W ?i' ?o ?c st1] =>
      destruct (RunContainer_launch_creates W i' o c st1) as [after Hafter];
      exists o
  end.
  exists logs, after. rewrite Hafter, Htrace, <- app_assoc.
  split_and!; done.
Qed.

Lemma RunContainer_passes_settings_witness :
  let i := Cases.inspector ["/bin/app"] in
  let ov := Cases.overrides in
  (Overrides i = Some ov ∧ validPortSet (heap Sample.start) (config.ExposedPorts ov))
  ∧ ∃ opts before after,
      trace (RunContainer Sample.quiet i Sample.start).2
      = trace Sample.start ++ before ++ ECreateContainer opts :: after
      ∧ calls before = []
      ∧ dockerapi.Env (dockerapi.Config_ opts) = config.Env ov
      ∧ dockerapi.Hostname (dockerapi.Config_ opts) = config.Hostname ov
      ∧ dockerapi.NetworkMode (dockerapi.HostConfig_ opts) = config.Network ov
      ∧ dockerapi.Links (dockerapi.HostConfig_ opts) = Links i
      ∧ dockerapi.ExtraHosts (dockerapi.HostConfig_ opts) = EtcHostsMaps i
      ∧ dockerapi.HostDNS (dockerapi.HostConfig_ opts) = DnsServers i
      ∧ dockerapi.DNS (dockerapi.Config_ opts) = DnsServers i
      ∧ dockerapi.DNSSearch (dockerapi.HostConfig_ opts) = DnsSearchDomains i.
Proof.
  cbn zeta. split.
  - split; [reflexivity | cbn; lia].
  - apply (RunContainer_passes_settings Sample.quiet _ Cases.overrides);
      [reflexivity | cbn; lia].
Defined.

(** ** When the launch or the channels fail *)

(** X4: an error of the create, start or inspect call ends [RunContainer]
    at that call: the error is returned as it came and no later call is
    made.  After a failed create the inspector has no container ID; after a
    failed start it has the ID and no inspected state; after a failed
    inspect the inspected state is nil. *)
Theorem RunContainer_launch_errors (W : World) (i : Inspector)
    (ov : config.ContainerOverrides) (st : State) :
  Overrides i = Some ov →
  validPortSet (heap st) (config.ExposedPorts ov) →
  let r := RunContainer W i st in
  ∃ opts new i',
    trace r.2 = trace st ++ new
    ∧ match CreateContainer W opts with
      | inr err =>
          r.1 = Ok (i', Some err)
          ∧ calls new = [ECreateContainer opts]
          ∧ ContainerID i' = ContainerID i
          ∧ ContainerInfo i' = ContainerInfo i
      | inl created =>
          let id := dockerapi.ID created in
          match StartContainer W id with
          | Some err =>
              r.1 = Ok (i', Some err)
              ∧ calls new = [ECreateContainer opts; EStartContainer id]
              ∧ ContainerID i' = id
              ∧ ContainerInfo i' = ContainerInfo i
          | None =>
              match InspectContainer W id with
              | inr err =>
                  r.1 = Ok (i', Some err)
                  ∧ calls new
                    = [ECreateContainer opts; EStartContainer id; EInspectContainer id]
                  ∧ ContainerID i' = id
                  ∧ ContainerInfo i' = None
              | inl _ => True
              end
          end
      end.
Proof.
  intros Hov Hvalid r. subst r.
  destruct (RunContainer_run W i ov st Hov Hvalid)
    as (opts & st1 & logs & Hrun & Htrace & Hcalls & _).
  rewrite Hrun. exists opts.
  match goal with
  | |- context [RunContainer_launch W ?i' opts ?c st1] =>
      destruct (steady_RunContainer_launch W i' opts c st1) as [_ [more Hmore]]
  end.
  unfold RunContainer_launch in *.
  destruct (CreateContainer W opts) as [created|err]; cbn zeta.
  - cbn [ContainerID set_ContainerID] in *.
    destruct (StartContainer W (dockerapi.ID created)) as [err|].
    + eexists _, _. unfold mbind, M_bind, log, emit, mret, M_ret.
      cbn [fst snd trace]. rewrite Htrace, <- !app_assoc.
      split; [reflexivity|]. rewrite !calls_app, Hcalls. by split_and!.
    + destruct (InspectContainer W (dockerapi.ID created)) as [inspected|err].
      * exists (logs ++ more), i. rewrite Hmore, Htrace, <- app_assoc. done.
      * eexists _, _. unfold mbind, M_bind, log, emit, mret, M_ret.
        cbn [fst snd trace]. rewrite Htrace, <- !app_assoc.
        split; [reflexivity|]. rewrite !calls_app, Hcalls. by split_and!.
  - eexists _, _. unfold mbind, M_bind, log, emit, mret, M_ret.
    cbn [fst snd trace]. rewrite Htrace, <- !app_assoc.
    split; [reflexivity|]. rewrite !calls_app, Hcalls. by split_and!.
Qed.

Lemma RunContainer_launch_errors_witness :
  let W :=
    Cases.world (inl Sample.created) (Some Cases.refused) (inl Sample.running) None
      None None ("out", "err", None) ("done", None) in
  let i := Cases.inspector ["/bin/app"] in
  let ov := Cases.overrides in
  let st := Sample.start in
  let r := RunContainer W i st in
  (Overrides i = Some ov ∧ validPortSet (heap st) (config.ExposedPorts ov))
  ∧ ∃ opts new i',
      trace r.2 = trace st ++ new
      ∧ match CreateContainer W opts with
        | inr err =>
            r.1 = Ok (i', Some err)
            ∧ calls new = [ECreateContainer opts]
            ∧ ContainerID i' = ContainerID i
            ∧ ContainerInfo i' = ContainerInfo i
        | inl created =>
            let id := dockerapi.ID created in
            match StartContainer W id with
            | Some err =>
                r.1 = Ok (i', Some err)
                ∧ calls new = [ECreateContainer opts; EStartContainer id]
                ∧ ContainerID i' = id
                ∧ ContainerInfo i' = ContainerInfo i
            | None =>
                match InspectContainer W id with
                | inr err =>
                    r.1 = Ok (i', Some err)
                    ∧ calls new
                      = [ECreateContainer opts; EStartContainer id; EInspectContainer id]
                    ∧ ContainerID i' = id
                    ∧ ContainerInfo i' = None
                | inl _ => True
                end
            end
        end.
Proof.
  cbn zeta. split.
  - split; [reflexivity | cbn; lia].
  - apply (RunContainer_launch_errors _ _ Cases.overrides); [reflexivity | cbn; lia].
Defined.

(** X5: the channels are opened towards the host address of
    [dockerhost.GetIP] and the host port of the first binding of each
    reserved port; when the IPC layer cannot open them its error is what
    [RunContainer] returns, and no command is sent to the sensor. *)
Theorem RunContainer_channels_error (W : World) (i : Inspector)
    (ov : config.ContainerOverrides) (st : State)
    (created inspected : dockerapi.Container)
    (cmdBinding evtBinding : dockerapi.PortBinding) (err : error) :
  Overrides i = Some ov →
  CmdPort i = CmdPortDefault →
  EvtPort i = EvtPortDefault →
  validPortSet (heap st) (config.ExposedPorts ov) →
  launches W created inspected →
  publishes inspected cmdBinding evtBinding →
  InitContainerChannels W (GetIP W) (dockerapi.HostPort cmdBinding)
    (dockerapi.HostPort evtBinding) = Some err →
  let r := RunContainer W i st in
  let id := dockerapi.ID created in
  ∃ opts new i',
    r.1 = Ok (i', Some err)
    ∧ trace r.2 = trace st ++ new
    ∧ calls new
      = [ECreateContainer opts; EStartContainer id; EInspectContainer id; EGetIP;
         EInitContainerChannels (GetIP W) (dockerapi.HostPort cmdBinding)
           (dockerapi.HostPort evtBinding)]
    ∧ sentCommands new = [].
Proof.
  intros Hov Hcmd Hevt Hvalid Hlaunch Hpub Hinit r id. subst r.
  destruct (RunContainer_channels W i ov st created inspected cmdBinding evtBinding)
    as (opts & st1 & new & Hrun & Htrace & Hcalls & Hname); try done.
  rewrite Hrun, Hinit. exists opts, new. eexists. cbn [mret M_ret fst snd].
  split_and!; [reflexivity | done | done |].
  by rewrite <- sentCommands_calls, Hcalls.
Qed.

(** X6: nothing checks that [FatContainerCmd] has a first token: with an
    empty [FatContainerCmd], as [NewInspector] leaves it when neither the
    image nor the overrides give an entrypoint or a cmd, [RunContainer]
    launches the container, opens the channels and then panics on the
    index; no StartMonitor is sent. *)
Theorem RunContainer_empty_cmd_panics (W : World) (i : Inspector)
    (ov : config.ContainerOverrides) (st : State)
    (created inspected : dockerapi.Container)
    (cmdBinding evtBinding : dockerapi.PortBinding) :
  Overrides i = Some ov →
  CmdPort i = CmdPortDefault →
  EvtPort i = EvtPortDefault →
  validPortSet (heap st) (config.ExposedPorts ov) →
  launches W created inspected →
  publishes inspected cmdBinding evtBinding →
  InitContainerChannels W (GetIP W) (dockerapi.HostPort cmdBinding)
    (dockerapi.HostPort evtBinding) = None →
  FatContainerCmd i = [] →
  let r := RunContainer W i st in
  let id := dockerapi.ID created in
  ∃ opts new,
    r.1 = Panic indexOutOfRange
    ∧ trace r.2 = trace st ++ new
    ∧ calls new
      = [ECreateContainer opts; EStartContainer id; EInspectContainer id; EGetIP;
         EInitContainerChannels (GetIP W) (dockerapi.HostPort cmdBinding)
           (dockerapi.HostPort evtBinding)]
    ∧ sentCommands new = [].
Proof.
  intros Hov Hcmd Hevt Hvalid Hlaunch Hpub Hinit Hfat r id. subst r.
  destruct (RunContainer_channels W i ov st created inspected cmdBinding evtBinding)
    as (opts & st1 & new & Hrun & Htrace & Hcalls & Hname); try done.
  rewrite Hrun, Hinit. exists opts, new.
  assert (Hpanic : RunContainer_startMonitor W (launched W created inspected i) st1
                   = (Panic indexOutOfRange, st1)).
  { unfold RunContainer_startMonitor.
    change (FatContainerCmd (launched W created inspected i)) with (FatContainerCmd i).
    by rewrite Hfat. }
  rewrite (bind_panic _ _ _ _ _ Hpanic). cbn [fst snd].
  split_and!; [reflexivity | done | done |].
  by rewrite <- sentCommands_calls, Hcalls.
Qed.

(** X7: when the launch goes through and the channels open, [RunContainer]
    makes exactly these calls, in this order: create, start, inspect, the
    host address look-up, the channel set-up, the StartMonitor send.  It
    returns the error of that send, nil when the send succeeded, and the
    inspector then holds the ID of the created container, the generated
    container name, the inspected state and the host address, its command
    and its overrides being the ones it had. *)
Theorem RunContainer_records_handle (W : World) (i : Inspector)
    (ov : config.ContainerOverrides) (st : State)
    (created inspected : dockerapi.Container)
    (cmdBinding evtBinding : dockerapi.PortBinding)
    (appName : string) (appArgs : list string) :
  Overrides i = Some ov →
  CmdPort i = CmdPortDefault →
  EvtPort i = EvtPortDefault →
  validPortSet (heap st) (config.ExposedPorts ov) →
  launches W created inspected →
  publishes inspected cmdBinding evtBinding →
  InitContainerChannels W (GetIP W) (dockerapi.HostPort cmdBinding)
    (dockerapi.HostPort evtBinding) = None →
  FatContainerCmd i = appName :: appArgs →
  let r := RunContainer W i st in
  let id := dockerapi.ID created in
  ∃ opts cmd new i',
    r.1 = Ok (i', (SendContainerCmd W (command.StartMonitorMsg cmd)).2)
    ∧ trace r.2 = trace st ++ new
    ∧ calls new
      = [ECreateContainer opts; EStartContainer id; EInspectContainer id; EGetIP;
         EInitContainerChannels (GetIP W) (dockerapi.HostPort cmdBinding)
           (dockerapi.HostPort evtBinding);
         ESendContainerCmd (command.StartMonitorMsg cmd)]
    ∧ ContainerID i' = id
    ∧ ContainerName i' = ContainerNamePat (Getpid W) (Now W)
    ∧ ContainerName i' = dockerapi.Name opts
    ∧ ContainerInfo i' = Some inspected
    ∧ DockerHostIP i' = GetIP W
    ∧ FatContainerCmd i' = FatContainerCmd i
    ∧ Overrides i' = Overrides i.
Proof.
  intros Hov Hcmd Hevt Hvalid Hlaunch Hpub Hinit Hfat r id. subst r.
  destruct (RunContainer_channels W i ov st created inspected cmdBinding evtBinding)
    as (opts & st1 & new & Hrun & Htrace & Hcalls & Hname); try done.
  rewrite Hrun, Hinit.
  destruct (RunContainer_startMonitor_run W (launched W created inspected i) st1
              appName appArgs Hfat)
    as (ex & inc & st2 & Hstart & _ & _ & Htr2 & _).
  rewrite (bind_run _ _ _ _ _ Hstart).
  exists opts. eexists _, _, _.
  unfold mbind, M_bind, emit, mret, M_ret. cbn [fst snd trace].
  split; [reflexivity|]. rewrite Htr2, Htrace, <- app_assoc.
  split; [reflexivity|]. rewrite calls_app, Hcalls.
  split_and!; done.
Qed.

Lemma publishes_running : publishes Sample.running Cases.cmdBinding Cases.evtBinding.
Proof.
  eexists _, _, _.
  split_and!; [reflexivity | vm_compute; lia | vm_compute; reflexivity
              | vm_compute; reflexivity].
Defined.

Lemma launches_cases (init startMonitor stop : option error)
    (logs : string * string * option error) (event : string * option error) :
  launches
    (Cases.world (inl Sample.created) None (inl Sample.running) init startMonitor stop
       logs event)
    Sample.created Sample.running.
Proof. split; [intros opts; reflexivity | split; reflexivity]. Defined.

Lemma RunContainer_channels_error_witness :
  let W :=
    Cases.world (inl Sample.created) None (inl Sample.running) (Some Cases.refused)
      None None ("out", "err", None) ("done", None) in
  let i := Cases.inspector ["/bin/app"] in
  let ov := Cases.overrides in
  let st := Sample.start in
  let r := RunContainer W i st in
  let id := dockerapi.ID Sample.created in
  (Overrides i = Some ov
   ∧ CmdPort i = CmdPortDefault
   ∧ EvtPort i = EvtPortDefault
   ∧ validPortSet (heap st) (config.ExposedPorts ov)
   ∧ launches W Sample.created Sample.running
   ∧ publishes Sample.running Cases.cmdBinding Cases.evtBinding
   ∧ InitContainerChannels W (GetIP W) (dockerapi.HostPort Cases.cmdBinding)
       (dockerapi.HostPort Cases.evtBinding) = Some Cases.refused)
  ∧ ∃ opts new i',
      r.1 = Ok (i', Some Cases.refused)
      ∧ trace r.2 = trace st ++ new
      ∧ calls new
        = [ECreateContainer opts; EStartContainer id; EInspectContainer id; EGetIP;
           EInitContainerChannels (GetIP W) (dockerapi.HostPort Cases.cmdBinding)
             (dockerapi.HostPort Cases.evtBinding)]
      ∧ sentCommands new = [].
Proof.
  cbn zeta. split.
  - split_and!;
      [reflexivity | reflexivity | reflexivity | cbn; lia | apply launches_cases
      | exact publishes_running | reflexivity].
  - apply (RunContainer_channels_error _ _ Cases.overrides _ Sample.created
             Sample.running);
      [reflexivity | reflexivity | reflexivity | cbn; lia | apply launches_cases
      | exact publishes_running | reflexivity].
Defined.

Lemma RunContainer_empty_cmd_panics_witness :
  let W :=
    Cases.world (inl Sample.created) None (inl Sample.running) None
      None None ("out", "err", None) ("done", None) in
  let i := Cases.inspector [] in
  let ov := Cases.overrides in
  let st := Sample.start in
  let r := RunContainer W i st in
  let id := dockerapi.ID Sample.created in
  (Overrides i = Some ov
   ∧ CmdPort i = CmdPortDefault
   ∧ EvtPort i = EvtPortDefault
   ∧ validPortSet (heap st) (config.ExposedPorts ov)
   ∧ launches W Sample.created Sample.running
   ∧ publishes Sample.running Cases.cmdBinding Cases.evtBinding
   ∧ InitContainerChannels W (GetIP W) (dockerapi.HostPort Cases.cmdBinding)
       (dockerapi.HostPort Cases.evtBinding) = None
   ∧ FatContainerCmd i = [])
  ∧ ∃ opts new,
      r.1 = Panic indexOutOfRange
      ∧ trace r.2 = trace st ++ new
      ∧ calls new
        = [ECreateContainer opts; EStartContainer id; EInspectContainer id; EGetIP;
           EInitContainerChannels (GetIP W) (dockerapi.HostPort Cases.cmdBinding)
             (dockerapi.HostPort Cases.evtBinding)]
      ∧ sentCommands new = [].
Proof.
  cbn zeta. split.
  - split_and!;
      [reflexivity | reflexivity | reflexivity | cbn; lia | apply launches_cases
      | exact publishes_running | reflexivity | reflexivity].
  - apply (RunContainer_empty_cmd_panics _ _ Cases.overrides _ Sample.created
             Sample.running);
      [reflexivity | reflexivity | reflexivity | cbn; lia | apply launches_cases
      | exact publishes_running | reflexivity | reflexivity].
Defined.

Lemma RunContainer_records_handle_witness :
  let W :=
    Cases.world (inl Sample.created) None (inl Sample.running) None
      (Some Cases.refused) None ("out", "err", None) ("done", None) in
  let i := Cases.inspector ["/bin/app"; "--flag"] in
  let ov := Cases.overrides in
  let st := Sample.start in
  let r := RunContainer W i st in
  let id := dockerapi.ID Sample.created in
  (Overrides i = Some ov
   ∧ CmdPort i = CmdPortDefault
   ∧ EvtPort i = EvtPortDefault
   ∧ validPortSet (heap st) (config.ExposedPorts ov)
   ∧ launches W Sample.created Sample.running
   ∧ publishes Sample.running Cases.cmdBinding Cases.evtBinding
   ∧ InitContainerChannels W (GetIP W) (dockerapi.HostPort Cases.cmdBinding)
       (dockerapi.HostPort Cases.evtBinding) = None
   ∧ FatContainerCmd i = "/bin/app" :: ["--flag"])
  ∧ ∃ opts cmd new i',
      r.1 = Ok (i', (SendContainerCmd W (command.StartMonitorMsg cmd)).2)
      ∧ trace r.2 = trace st ++ new
      ∧ calls new
        = [ECreateContainer opts; EStartContainer id; EInspectContainer id; EGetIP;
           EInitContainerChannels (GetIP W) (dockerapi.HostPort Cases.cmdBinding)
             (dockerapi.HostPort Cases.evtBinding);
           ESendContainerCmd (command.StartMonitorMsg cmd)]
      ∧ ContainerID i' = id
      ∧ ContainerName i' = ContainerNamePat (Getpid W) (Now W)
      ∧ ContainerName i' = dockerapi.Name opts
      ∧ ContainerInfo i' = Some Sample.running
      ∧ DockerHostIP i' = GetIP W
      ∧ FatContainerCmd i' = FatContainerCmd i
      ∧ Overrides i' = Overrides i.
Proof.
  cbn zeta. split.
  - split_and!;
      [reflexivity | reflexivity | reflexivity | cbn; lia | apply launches_cases
      | exact publishes_running | reflexivity | reflexivity].
  - apply (RunContainer_records_handle _ _ Cases.overrides _ Sample.created
             Sample.running Cases.cmdBinding Cases.evtBinding "/bin/app" ["--flag"]);
      [reflexivity | reflexivity | reflexivity | cbn; lia | apply launches_cases
      | exact publishes_running | reflexivity | reflexivity].
Defined.

(** ** The store during a run *)

(** X8: [RunContainer] allocates exactly one port map, the one of the
    reserved ports, and writes to no map of the store other than the one of
    the overrides: every other map is afterwards what it was. *)
Theorem RunContainer_store_frame (W : World) (i : Inspector)
    (ov : config.ContainerOverrides) (st : State) :
  Overrides i = Some ov →
  validPortSet (heap st) (config.ExposedPorts ov) →
  let st' := (RunContainer W i st).2 in
  length (heap st') = S (length (heap st))
  ∧ heap st' !! length (heap st) = Some (reservedPorts i)
  ∧ ∀ a, a < length (heap st) → config.ExposedPorts ov ≠ Some a →
         heap st' !! a = heap st !! a.
Proof.
  intros Hov Hvalid. cbn zeta.
  set (i0 := set_ContainerName (ContainerNamePat (Getpid W) (Now W)) i).
  set (st0 := {| heap := heap st; trace := trace st; iters := S (iters st) |}).
  assert (Hheap : heap (RunContainer W i st).2
                  = heap (RunContainer_exposedPorts W i0 ov st0).2).
  { unfold RunContainer. cbn zeta.
    unfold mbind at 1, M_bind at 1, range at 1. fold st0. fold i0.
    change (Overrides i0) with (Overrides i). rewrite Hov.
    unfold mbind at 1, M_bind at 1, deref at 1, mret at 1, M_ret at 1.
    destruct (RunContainer_exposedPorts_run W i0 ov st0 Hvalid)
      as (r & st1 & logs & Hrun & _).
    rewrite (bind_run _ _ _ _ _ Hrun). rewrite Hrun. cbn beta iota.
    do 5 (erewrite bind_run; [|apply RunContainer_optional_run]).
    rewrite !record_record.
    match goal with
    | |- context [RunContainer_launch W ?i' ?o ?c ?s] =>
        destruct (steady_RunContainer_launch W i' o c s) as [-> _]
    end.
    done. }
  rewrite Hheap.
  apply (RunContainer_exposedPorts_store W i0 ov st0 Hvalid).
Qed.

Lemma RunContainer_store_frame_witness :
  let i := Cases.inspector ["/bin/app"] in
  let ov := Cases.overrides in
  let st := {| heap := [Sample.userPorts; {[ "9000/tcp" := () ]}]; trace := []; iters := 0 |} in
  let st' := (RunContainer Sample.quiet i st).2 in
  (Overrides i = Some ov ∧ validPortSet (heap st) (config.ExposedPorts ov))
  ∧ length (heap st') = S (length (heap st))
  ∧ heap st' !! length (heap st) = Some (reservedPorts i)
  ∧ ∀ a, a < length (heap st) → config.ExposedPorts ov ≠ Some a →
         heap st' !! a = heap st !! a.
Proof.
  cbn zeta. split.
  - split; [reflexivity | cbn; lia].
  - apply (RunContainer_store_frame Sample.quiet _ Cases.overrides);
      [reflexivity | cbn; lia].
Defined.

(** ** Finishing and tearing down *)

Lemma infos_app (a b : list Event) : infos (a ++ b) = infos a ++ infos b.
Proof. apply omap_app. Qed.

Lemma printed_app (a b : list Event) : printed (a ++ b) = printed a ++ printed b.
Proof. apply omap_app. Qed.

(** X9: [FinishMonitoring] never fails and never touches the store.  It
    logs as warnings the error of the StopMonitor send, the error of the
    event wait unless that is the receive timeout, and the error of the
    ShutdownSensor send, in this order and nothing else; the receive timeout
    itself is logged at info level, not as a warning. *)
Theorem FinishMonitoring_warnings (W : World) (i : Inspector) (st : State) :
  let r := FinishMonitoring W i st in
  let timedOut := recvTimedOut (GetContainerEvt W).2 in
  r.1 = Ok ()
  ∧ heap r.2 = heap st
  ∧ ∃ new,
      trace r.2 = trace st ++ new
      ∧ warnings new
        = errorText (SendContainerCmd W command.StopMonitor).2
          ++ (if timedOut
              then []
              else errorText (GetContainerEvt W).2
                   ++ errorText (SendContainerCmd W command.ShutdownSensor).2)
      ∧ infos new
        = "waiting for the container to finish its work..."
            :: (if timedOut
                then ["timeout waiting for the docker-slim container to finish its work..."]
                else []).
Proof.
  cbn zeta. unfold FinishMonitoring.
  destruct (SendContainerCmd W command.StopMonitor) as [r1 [e1|]];
    destruct (GetContainerEvt W) as [r2 [e2|]];
    destruct (SendContainerCmd W command.ShutdownSensor) as [r3 [e3|]];
    cbn [recvTimedOut snd fst]; try case_bool_decide; run;
    (split; [done|]); (split; [done|]); rewrite <- ?app_assoc; eexists;
    (split; [done|]); done.
Qed.

(** X10: [showContainerLogs] asks the runtime once for the logs of the
    inspector's container, standard output and standard error both.  When
    the runtime answers, it prints the standard output under its heading,
    then the standard error under its heading, then the closing line; when
    the runtime fails, it prints nothing and logs one info line, the text
    [error getting container logs => ] followed by the container's ID, [ - ]
    and the error.  It raises no warning and never fails. *)
Theorem showContainerLogs_prints (W : World) (i : Inspector) (st : State) :
  let r := showContainerLogs W i st in
  let opts :=
    {| dockerapi.LogsContainer := ContainerID i;
       dockerapi.Stdout := true; dockerapi.Stderr := true |} in
  r.1 = Ok ()
  ∧ heap r.2 = heap st
  ∧ ∃ new,
      trace r.2 = trace st ++ new
      ∧ calls new = [ELogs opts]
      ∧ warnings new = []
      ∧ match (Logs W opts).2 with
        | Some err =>
            printed new = []
            ∧ infos new
              = ["error getting container logs => " +:+ ContainerID i +:+ " - "
                   +:+ Error err]
        | None =>
            printed new
            = ["docker-slim: container stdout:"; (Logs W opts).1.1;
               "docker-slim: container stderr:"; (Logs W opts).1.2;
               "docker-slim: end of container logs ============="]
            ∧ infos new = []
        end.
Proof.
  cbn zeta. unfold showContainerLogs.
  destruct (Logs W _) as [[out err] [e|]]; run;
    (split; [done|]); (split; [done|]); rewrite <- ?app_assoc; eexists;
    (split; [done|]); done.
Qed.

Lemma FinishMonitoring_run (W : World) (i : Inspector) (st : State) :
  ∃ st' new,
    FinishMonitoring W i st = (Ok (), st')
    ∧ trace st' = trace st ++ new
    ∧ calls new = finishCalls W.
Proof.
  unfold FinishMonitoring, finishCalls.
  destruct (SendContainerCmd W command.StopMonitor) as [r1 [e1|]];
    destruct (GetContainerEvt W) as [r2 [e2|]];
    destruct (SendContainerCmd W command.ShutdownSensor) as [r3 [e3|]];
    cbn [recvTimedOut snd fst]; try case_bool_decide; run;
    rewrite <- ?app_assoc; eexists _, _; (split; [done|]); cbn; done.
Qed.

Lemma ShutdownContainer_run (W : World) (i : Inspector) (st : State) :
  ∃ st' new,
    ShutdownContainer W i st = (Ok None, st')
    ∧ trace st' = trace st ++ new
    ∧ calls new = teardownCalls W (ContainerID i) (ShowContainerLogs i).
Proof.
  unfold ShutdownContainer, shutdownContainerChannels, showContainerLogs, teardownCalls.
  destruct (StopContainer W (ContainerID i) 9) as [[id|msg]|];
    destruct (ShowContainerLogs i);
    destruct (Logs W _) as [[out err] [e|]];
    run; rewrite <- ?app_assoc; eexists _, _; (split; [done|]); cbn; done.
Qed.

Lemma teardownCalls_removes (W : World) (id : string) (showLogs : bool) :
  List.filter isRemoveContainer (teardownCalls W id showLogs)
  = [ERemoveContainer {| dockerapi.RemoveID := id;
                         dockerapi.RemoveVolumes := true;
                         dockerapi.Force := true |}].
Proof.
  unfold teardownCalls.
  by destruct showLogs, (isContainerNotRunning (StopContainer W id 9)).
Qed.

(** X11: tearing down twice, whatever the runtime answers the first and the
    second time, returns nil both times and repeats every step: the channel
    shutdown, the stop and the forced removal are each attempted again, so
    the removal is requested twice. *)
Theorem ShutdownContainer_twice (W1 W2 : World) (i : Inspector) (st : State) :
  let twice := ShutdownContainer W1 i;; ShutdownContainer W2 i in
  (twice st).1 = Ok None
  ∧ ∃ new,
      trace (twice st).2 = trace st ++ new
      ∧ calls new
        = teardownCalls W1 (ContainerID i) (ShowContainerLogs i)
          ++ teardownCalls W2 (ContainerID i) (ShowContainerLogs i)
      ∧ List.filter isRemoveContainer (calls new)
        = let remove :=
            ERemoveContainer {| dockerapi.RemoveID := ContainerID i;
                                dockerapi.RemoveVolumes := true;
                                dockerapi.Force := true |} in
          [remove; remove].
Proof.
  cbn zeta.
  destruct (ShutdownContainer_run W1 i st) as (st1 & new1 & Hrun1 & Htrace1 & Hcalls1).
  destruct (ShutdownContainer_run W2 i st1) as (st2 & new2 & Hrun2 & Htrace2 & Hcalls2).
  rewrite (bind_run _ _ _ _ _ Hrun1), Hrun2. cbn [fst snd].
  split; [done|]. exists (new1 ++ new2).
  rewrite Htrace2, Htrace1, <- app_assoc. split; [done|].
  rewrite calls_app, Hcalls1, Hcalls2. split; [done|].
  by rewrite List.filter_app, !teardownCalls_removes.
Qed.

(** X12: a session that runs the container, finishes the monitoring and
    tears down makes, when the launch goes through and the channels open,
    the calls of [RunContainer], then those of [FinishMonitoring], then those
    of [ShutdownContainer], and ends without error; the container that is
    stopped and removed is the one that was created, by the ID the runtime
    gave it. *)
Theorem session_stops_created_container (W : World) (i : Inspector)
    (ov : config.ContainerOverrides) (st : State)
    (created inspected : dockerapi.Container)
    (cmdBinding evtBinding : dockerapi.PortBinding)
    (appName : string) (appArgs : list string) :
  Overrides i = Some ov →
  CmdPort i = CmdPortDefault →
  EvtPort i = EvtPortDefault →
  validPortSet (heap st) (config.ExposedPorts ov) →
  launches W created inspected →
  publishes inspected cmdBinding evtBinding →
  InitContainerChannels W (GetIP W) (dockerapi.HostPort cmdBinding)
    (dockerapi.HostPort evtBinding) = None →
  FatContainerCmd i = appName :: appArgs →
  let session :=
    ran ← RunContainer W i;
    FinishMonitoring W ran.1;;
    ShutdownContainer W ran.1 in
  let id := dockerapi.ID created in
  (session st).1 = Ok None
  ∧ ∃ opts cmd new,
      trace (session st).2 = trace st ++ new
      ∧ calls new
        = [ECreateContainer opts; EStartContainer id; EInspectContainer id; EGetIP;
           EInitContainerChannels (GetIP W) (dockerapi.HostPort cmdBinding)
             (dockerapi.HostPort evtBinding);
           ESendContainerCmd (command.StartMonitorMsg cmd)]
          ++ finishCalls W
          ++ teardownCalls W id (ShowContainerLogs i).
Proof.
  intros Hov Hcmd Hevt Hvalid Hlaunch Hpub Hinit Hfat. cbn zeta.
  destruct (RunContainer_channels W i ov st created inspected cmdBinding evtBinding)
    as (opts & st1 & new & Hrun & Htrace & Hcalls & _); try done.
  rewrite Hinit in Hrun.
  destruct (RunContainer_startMonitor_run W (launched W created inspected i) st1
              appName appArgs Hfat)
    as (ex & inc & st2 & Hstart & _ & _ & Htr2 & _).
  rewrite (bind_run _ _ _ _ _ Hstart) in Hrun.
  unfold mbind at 1, M_bind at 1, emit at 1, mret at 1, M_ret at 1 in Hrun.
  rewrite (bind_run _ _ _ _ _ Hrun). cbn [fst].
  match type of Hrun with _ = (_, ?s) => set (st3 := s) in * end.
  destruct (FinishMonitoring_run W (launched W created inspected i) st3)
    as (st4 & new4 & Hfinish & Htrace4 & Hcalls4).
  rewrite (bind_run _ _ _ _ _ Hfinish).
  destruct (ShutdownContainer_run W (launched W created inspected i) st4)
    as (st5 & new5 & Hdown & Htrace5 & Hcalls5).
  rewrite Hdown. cbn [fst snd]. split; [done|].
  exists opts. eexists _, _. rewrite Htrace5, Htrace4. subst st3. cbn [trace].
  rewrite Htr2, Htrace, <- !app_assoc. split; [reflexivity|].
  rewrite !calls_app, Hcalls, Hcalls4, Hcalls5. done.
Qed.

Lemma session_stops_created_container_witness :
  let W :=
    Cases.world (inl Sample.created) None (inl Sample.running) None
      None (Some (ContainerNotRunning "c0ffee")) ("out", "err", None)
      ("", Some (ErrorString IpcErrRecvTimeoutStr)) in
  let i := Cases.inspector ["/bin/app"; "--flag"] in
  let ov := Cases.overrides in
  let st := Sample.start in
  let session :=
    ran ← RunContainer W i;
    FinishMonitoring W ran.1;;
    ShutdownContainer W ran.1 in
  let id := dockerapi.ID Sample.created in
  (Overrides i = Some ov
   ∧ CmdPort i = CmdPortDefault
   ∧ EvtPort i = EvtPortDefault
   ∧ validPortSet (heap st) (config.ExposedPorts ov)
   ∧ launches W Sample.created Sample.running
   ∧ publishes Sample.running Cases.cmdBinding Cases.evtBinding
   ∧ InitContainerChannels W (GetIP W) (dockerapi.HostPort Cases.cmdBinding)
       (dockerapi.HostPort Cases.evtBinding) = None
   ∧ FatContainerCmd i = "/bin/app" :: ["--flag"])
  ∧ (session st).1 = Ok None
  ∧ ∃ opts cmd new,
      trace (session st).2 = trace st ++ new
      ∧ calls new
        = [ECreateContainer opts; EStartContainer id; EInspectContainer id; EGetIP;
           EInitContainerChannels (GetIP W) (dockerapi.HostPort Cases.cmdBinding)
             (dockerapi.HostPort Cases.evtBinding);
           ESendContainerCmd (command.StartMonitorMsg cmd)]
          ++ finishCalls W
          ++ teardownCalls W id (ShowContainerLogs i).
Proof.
  cbn zeta. split.
  - split_and!;
      [reflexivity | reflexivity | reflexivity | cbn; lia | apply launches_cases
      | exact publishes_running | reflexivity | reflexivity].
  - apply (session_stops_created_container _ _ Cases.overrides _ Sample.created
             Sample.running Cases.cmdBinding Cases.evtBinding "/bin/app" ["--flag"]);
      [reflexivity | reflexivity | reflexivity | cbn; lia | apply launches_cases
      | exact publishes_running | reflexivity | reflexivity].
Defined.

(** ** Path sets and the constructor *)

(** X17: for every path set, nil and empty included, [pathMapKeys] returns
    every key of the set exactly once and nothing else, as many keys as the
    set has entries, nil for a set without entries; it touches neither the
    store nor the trace. *)
Theorem pathMapKeys_keys (W : World) (m : gmap string bool) (st : State) :
  let r := pathMapKeys W m st in
  ∃ keys,
    r.1 = Ok keys
    ∧ keys ≡ₚ pathKeys m
    ∧ NoDup keys
    ∧ length keys = size m
    ∧ (∀ k, k ∈ keys ↔ is_Some (m !! k))
    ∧ (if decide (m = ∅) then keys = [] else keys ≠ [])
    ∧ trace r.2 = trace st
    ∧ heap r.2 = heap st.
Proof.
  cbn zeta.
  destruct (pathMapKeys_run W m st) as (keys & st' & Hrun & Hperm & Htrace & Hheap).
  rewrite Hrun. exists keys. cbn [fst snd].
  assert (Hlen : length keys = size m).
  { rewrite Hperm. unfold pathKeys. by rewrite length_fmap, length_map_to_list. }
  split_and!; try done.
  - rewrite Hperm. apply NoDup_fst_map_to_list.
  - intros k. rewrite Hperm. unfold pathKeys. rewrite list_elem_of_fmap. split.
    + intros [[k' v] [-> Hin]]. apply elem_of_map_to_list in Hin. by eexists.
    + intros [v Hv]. exists (k, v). split; [done|]. by apply elem_of_map_to_list.
  - destruct (decide (m = ∅)) as [->|Hne].
    + rewrite map_size_empty in Hlen. by destruct keys.
    + intros ->. cbn in Hlen. symmetry in Hlen.
      by apply map_size_empty_iff in Hlen.
Qed.

(** [NewInspector] in full: what it returns and what it logs. *)
Lemma NewInspector_run
    (img : image.Inspector) (localVolumePath : string)
    (overrides : option config.ContainerOverrides)
    (links etcHostsMaps dnsServers dnsSearchDomains : list string)
    (showContainerLogs : bool) (volumeMounts : gmap string config.VolumeMount)
    (excludePaths includePaths : gmap string bool) (doDebug : bool) (st : State) :
  ∃ i logs,
    NewInspector img localVolumePath overrides links etcHostsMaps dnsServers
      dnsSearchDomains showContainerLogs volumeMounts excludePaths includePaths
      doDebug st = (Ok (i, None), record logs st)
    ∧ calls logs = []
    ∧ warnings logs = []
    ∧ length logs
      = match overrides with
        | Some ov =>
            (if nonempty (config.Entrypoint ov) || config.ClearEntrypoint ov
             then 1 else 0)
            + (if nonempty (config.Cmd ov) || config.ClearCmd ov then 1 else 0)
        | None => 0
        end
    ∧ forallb isDebugLog logs = true
    ∧ FatContainerCmd i = spec_FatContainerCmd (image.ImageInfoConfig img) overrides
    ∧ i = {| ContainerInfo := None; ContainerID := ""; ContainerName := "";
             FatContainerCmd := FatContainerCmd i;
             LocalVolumePath := localVolumePath;
             CmdPort := CmdPortDefault; EvtPort := EvtPortDefault;
             DockerHostIP := "";
             ImageInspector := img;
             Overrides := overrides;
             Links := links; EtcHostsMaps := etcHostsMaps;
             DnsServers := dnsServers; DnsSearchDomains := dnsSearchDomains;
             ShowContainerLogs := showContainerLogs;
             VolumeMounts := volumeMounts;
             ExcludePaths := excludePaths;
             IncludePaths := includePaths;
             DoDebug := doDebug |}.
Proof.
  unfold NewInspector, spec_FatContainerCmd, spec_resolve.
  destruct img as [ref [imgE imgC] loc aa sc].
  cbn [image.ImageInfoConfig image.Entrypoint image.Cmd].
  destruct overrides as [[ovE clearE ovC clearC ? ? ? ? ?]|]; cbn.
  - destruct ovE, clearE, ovC, clearC, imgE, imgC; run;
      unfold record; rewrite <- ?app_assoc;
      first [ eexists _, []; cbn; rewrite !app_nil_r; split_and!; try done; by destruct st
            | eexists _, [_]; cbn; rewrite ?app_nil_r; split_and!; done
            | eexists _, [_; _]; cbn; rewrite ?app_nil_r; split_and!; done ].
  - destruct imgE, imgC; run; unfold record;
      eexists _, []; cbn; rewrite !app_nil_r; split_and!; try done; by destruct st.
Qed.

(** X18: given the inspector of an inspected image (its image
    configuration is there), [NewInspector] returns a nil error and calls
    nothing; it leaves the store alone and logs no warning.  All it logs is
    at debug level: one line when the overrides replace or clear the
    entrypoint and one when they replace or clear the cmd.  The inspector it
    returns has 65501/tcp and 65502/tcp as its two reserved ports, no
    container yet, and the overrides, volume mounts and path sets it was
    given. *)
Theorem NewInspector_contract
    (img : image.Inspector) (localVolumePath : string)
    (overrides : option config.ContainerOverrides)
    (links etcHostsMaps dnsServers dnsSearchDomains : list string)
    (showContainerLogs : bool) (volumeMounts : gmap string config.VolumeMount)
    (excludePaths includePaths : gmap string bool) (doDebug : bool) (st : State) :
  let r :=
    NewInspector img localVolumePath overrides links etcHostsMaps dnsServers
      dnsSearchDomains showContainerLogs volumeMounts excludePaths includePaths
      doDebug st in
  ∃ i logs,
    r.1 = Ok (i, None)
    ∧ heap r.2 = heap st
    ∧ trace r.2 = trace st ++ logs
    ∧ calls logs = []
    ∧ warnings logs = []
    ∧ length logs
      = match overrides with
        | Some ov =>
            (if nonempty (config.Entrypoint ov) || config.ClearEntrypoint ov
             then 1 else 0)
            + (if nonempty (config.Cmd ov) || config.ClearCmd ov then 1 else 0)
        | None => 0
        end
    ∧ forallb isDebugLog logs = true
    ∧ CmdPort i = CmdPortDefault
    ∧ EvtPort i = EvtPortDefault
    ∧ size (reservedPorts i) = 2
    ∧ ContainerID i = ""
    ∧ ContainerInfo i = None
    ∧ Overrides i = overrides
    ∧ ImageInspector i = img
    ∧ VolumeMounts i = volumeMounts
    ∧ ExcludePaths i = excludePaths
    ∧ IncludePaths i = includePaths
    ∧ ShowContainerLogs i = showContainerLogs.
Proof.
  cbn zeta.
  destruct (NewInspector_run img localVolumePath overrides links etcHostsMaps
              dnsServers dnsSearchDomains showContainerLogs volumeMounts excludePaths
              includePaths doDebug st)
    as (i & logs & Hrun & Hcalls & Hwarn & Hlen & Hdebug & _ & Hi).
  rewrite Hrun. exists i, logs. rewrite Hi. cbn. split_and!; done.
Qed.

(** X19: an inspector made by [NewInspector] from overrides and then run
    sends, when the launch goes through and the channels open, one
    StartMonitor whose AppName and AppArgs are the first and the remaining
    tokens of the resolved entrypoint followed by the resolved cmd, and
    whose Excludes and Includes hold the keys of the path sets the
    constructor was given. *)
Theorem session_sends_resolved_command (W : World)
    (img : image.Inspector) (localVolumePath : string)
    (ov : config.ContainerOverrides)
    (links etcHostsMaps dnsServers dnsSearchDomains : list string)
    (showContainerLogs : bool) (volumeMounts : gmap string config.VolumeMount)
    (excludePaths includePaths : gmap string bool) (doDebug : bool) (st : State)
    (created inspected : dockerapi.Container)
    (appName : string) (appArgs : list string) :
  validPortSet (heap st) (config.ExposedPorts ov) →
  launches W created inspected →
  channelsOpen W inspected →
  spec_FatContainerCmd (image.ImageInfoConfig img) (Some ov) = appName :: appArgs →
  let session :=
    made ← NewInspector img localVolumePath (Some ov) links etcHostsMaps dnsServers
             dnsSearchDomains showContainerLogs volumeMounts excludePaths
             includePaths doDebug;
    RunContainer W made.1 in
  ∃ cmd new,
    trace (session st).2 = trace st ++ new
    ∧ sentCommands new = [command.StartMonitorMsg cmd]
    ∧ command.AppName cmd :: command.AppArgs cmd
      = spec_resolve (image.Entrypoint (image.ImageInfoConfig img))
          (config.Entrypoint ov) (config.ClearEntrypoint ov)
        ++ spec_resolve (image.Cmd (image.ImageInfoConfig img))
             (config.Cmd ov) (config.ClearCmd ov)
    ∧ command.Excludes cmd ≡ₚ pathKeys excludePaths
    ∧ command.Includes cmd ≡ₚ pathKeys includePaths.
Proof.
  intros Hvalid Hlaunch Hopen Hfat. cbn zeta.
  destruct (NewInspector_run img localVolumePath (Some ov) links etcHostsMaps
              dnsServers dnsSearchDomains showContainerLogs volumeMounts excludePaths
              includePaths doDebug st)
    as (i & logs & Hrun & Hcalls & _ & _ & _ & Hcmd & Hi).
  rewrite (bind_run _ _ _ _ _ Hrun). cbn [fst].
  destruct (RunContainer_sends W i ov (record logs st) created inspected appName appArgs)
    as (ex & inc & i' & new & _ & Htrace & Hsent & Hex & Hinc);
    try done; try (by rewrite Hi); try congruence.
  eexists _, (logs ++ new). rewrite Htrace. cbn [record trace].
  rewrite <- app_assoc. split; [done|].
  rewrite sentCommands_app, <- (sentCommands_calls logs), Hcalls.
  split; [exact Hsent|]. cbn.
  rewrite Hi in Hex, Hinc. cbn in Hex, Hinc. split_and!; done.
Qed.

Lemma session_sends_resolved_command_witness :
  let ov := Sample.overrides (Some 0) in
  let session :=
    made ← NewInspector Sample.img "/tmp/state" (Some ov) [] [] [] [] false ∅
             Sample.excludes ∅ false;
    RunContainer Sample.quiet made.1 in
  (validPortSet (heap Sample.start) (config.ExposedPorts ov)
   ∧ launches Sample.quiet Sample.created Sample.running
   ∧ channelsOpen Sample.quiet Sample.running
   ∧ spec_FatContainerCmd (image.ImageInfoConfig Sample.img) (Some ov)
     = "/bin/custom" :: [])
  ∧ ∃ cmd new,
      trace (session Sample.start).2 = trace Sample.start ++ new
      ∧ sentCommands new = [command.StartMonitorMsg cmd]
      ∧ command.AppName cmd :: command.AppArgs cmd
        = spec_resolve (image.Entrypoint (image.ImageInfoConfig Sample.img))
            (config.Entrypoint ov) (config.ClearEntrypoint ov)
          ++ spec_resolve (image.Cmd (image.ImageInfoConfig Sample.img))
               (config.Cmd ov) (config.ClearCmd ov)
      ∧ command.Excludes cmd ≡ₚ pathKeys Sample.excludes
      ∧ command.Includes cmd ≡ₚ pathKeys ∅.
Proof.
  cbn zeta.
  assert (Hlaunch : launches Sample.quiet Sample.created Sample.running)
    by (split; [intros opts; reflexivity | split; reflexivity]).
  assert (Hopen : channelsOpen Sample.quiet Sample.running).
  { eexists _, _, _, _, _.
    split; [reflexivity|]. split; [vm_compute; lia|].
    split; [vm_compute; reflexivity|]. split; [vm_compute; reflexivity|].
    intros ip cmdPort evtPort. reflexivity. }
  split.
  - split_and!; [cbn; lia | exact Hlaunch | exact Hopen | reflexivity].
  - apply (session_sends_resolved_command Sample.quiet Sample.img "/tmp/state"
             (Sample.overrides (Some 0)) [] [] [] [] false ∅ Sample.excludes ∅ false
             Sample.start Sample.created Sample.running "/bin/custom" []);
      [cbn; lia | exact Hlaunch | exact Hopen | reflexivity].
Defined.

(** ** Post-processing and the info command *)

Lemma saved_app (a b : list Step) : saved (a ++ b) = saved a ++ saved b.
Proof. apply omap_app. Qed.

Lemma lines_app (a b : list Step) : lines (a ++ b) = lines a ++ lines b.
Proof. apply omap_app. Qed.

Lemma packageCalls_app (a b : list Step) :
  packageCalls (a ++ b) = packageCalls a ++ packageCalls b.
Proof. apply List.filter_app. Qed.

(** Unfolds the plumbing of the steps. *)
Ltac steps :=
  repeat (unfold mbind, mret, Steps_bind, Steps_ret, step, FailOn in *; cbn in * ).

(** X13: [ProcessCollectedData] generates the AppArmor profile first, from
    the artifact location and the AppArmor profile name of the image
    inspector.  When that fails it returns the failure and the seccomp
    generator is not called; otherwise it calls the seccomp generator with
    the same artifact location and the seccomp profile name and returns its
    result. *)
Theorem ProcessCollectedData_short_circuits (C : Collaborators) (i : Inspector)
    (tr : list Step) :
  let r := ProcessCollectedData C i tr in
  let location := image.ArtifactLocation (ImageInspector i) in
  let apparmor :=
    SAppArmorGenProfile location (image.AppArmorProfileName (ImageInspector i)) in
  let seccomp :=
    SSeccompGenProfile location (image.SeccompProfileName (ImageInspector i)) in
  ∃ new,
    r.2 = tr ++ new
    ∧ match apparmor_GenProfile C location
              (image.AppArmorProfileName (ImageInspector i)) with
      | Some err => r.1 = Ok (Some err) ∧ packageCalls new = [apparmor]
      | None =>
          r.1 = Ok (seccomp_GenProfile C location
                      (image.SeccompProfileName (ImageInspector i)))
          ∧ packageCalls new = [apparmor; seccomp]
      end.
Proof.
  cbn zeta. unfold ProcessCollectedData.
  destruct (apparmor_GenProfile C _ _) as [err|]; steps;
    rewrite <- ?app_assoc; eexists; (split; [reflexivity|]); done.
Qed.

(** X14: when the image is not found, [OnInfo] returns normally after
    printing "state=started", the not-found line for the image reference and
    "state=exited": the image is not inspected, no state directory is
    prepared, nothing is processed, and the command report is never saved.
    The version is printed exactly when debugging. *)
Theorem OnInfo_image_not_found {DockerClient : Type} (C : Collaborators)
    (cmdReportLocation : string) (doDebug : bool) (statePath : string)
    (clientConfig : DockerClient) (imageRef : string) (tr : list Step) :
  image_NewInspector C imageRef = None →
  NoImage C = true →
  let r := OnInfo C cmdReportLocation doDebug statePath clientConfig imageRef tr in
  r.1 = Ok ()
  ∧ ∃ new,
      r.2 = tr ++ new
      ∧ lines new
        = [["docker-slim[info]: state=started"];
           ["docker-slim[info]: target image not found -"; imageRef];
           ["docker-slim[info]: state=exited"]]
      ∧ packageCalls new
        = [SNewInfoCommand cmdReportLocation; SDockerClientNew]
          ++ (if doDebug then [SVersionPrint] else [])
          ++ [SImageNewInspector imageRef; SNoImage]
      ∧ saved new = [].
Proof.
  intros Hnew Hno. cbn zeta. unfold OnInfo. rewrite Hnew, Hno.
  destruct doDebug; steps; rewrite <- ?app_assoc;
    (split; [done|]); eexists; (split; [reflexivity|]); done.
Qed.

Lemma OnInfo_image_not_found_witness :
  let C := sampleCollaborators None true None None in
  let r := OnInfo C "/tmp/report" true "/var/state" () "app:latest" [] in
  (image_NewInspector C "app:latest" = None ∧ NoImage C = true)
  ∧ r.1 = Ok ()
  ∧ ∃ new,
      r.2 = [] ++ new
      ∧ lines new
        = [["docker-slim[info]: state=started"];
           ["docker-slim[info]: target image not found -"; "app:latest"];
           ["docker-slim[info]: state=exited"]]
      ∧ packageCalls new
        = [SNewInfoCommand "/tmp/report"; SDockerClientNew]
          ++ (if true then [SVersionPrint] else [])
          ++ [SImageNewInspector "app:latest"; SNoImage]
      ∧ saved new = [].
Proof.
  cbn zeta. split.
  - split; reflexivity.
  - apply (OnInfo_image_not_found (sampleCollaborators None true None None));
      reflexivity.
Defined.

(** X16: when the image is found and every step succeeds, [OnInfo] returns
    normally; its calls are, in this order: the report is made, the client,
    the version print when debugging, the image inspector, the image test,
    the inspection, the state directories for the state path and the image
    ID, the processing with the artifact location those gave, and the save.
    The report is saved once, as the last step, in the done state and with
    the image reference; the state lines are started, completed, done; and
    the human-readable size printed is the one of the size converted to an
    unsigned 64-bit number. *)
Theorem OnInfo_completes {DockerClient : Type} (C : Collaborators)
    (cmdReportLocation : string) (doDebug : bool) (statePath : string)
    (clientConfig : DockerClient) (imageRef : string) (tr : list Step) :
  image_NewInspector C imageRef = None →
  NoImage C = false →
  image_Inspect C = None →
  image_ProcessCollectedData C (PrepareStateDirs C statePath (ImageID C)).2 = None →
  let r := OnInfo C cmdReportLocation doDebug statePath clientConfig imageRef tr in
  let report := {| ReportState := CmdStateDone C; OriginalImage := imageRef |} in
  r.1 = Ok ()
  ∧ ∃ new,
      r.2 = tr ++ new
      ∧ packageCalls new
        = [SNewInfoCommand cmdReportLocation; SDockerClientNew]
          ++ (if doDebug then [SVersionPrint] else [])
          ++ [SImageNewInspector imageRef; SNoImage; SImageInspect;
              SPrepareStateDirs statePath (ImageID C);
              SImageProcessCollectedData (PrepareStateDirs C statePath (ImageID C)).2;
              SSave report]
      ∧ saved new = [report]
      ∧ last new = Some (SSave report)
      ∧ lines new
        = [["docker-slim[info]: state=started"];
           ["docker-slim[info]: state=completed"];
           ["docker-slim[info]: state=done"]]
      ∧ SPrintf "docker-slim[info]: info=image id=%v size.bytes=%v size.human=%v\n"
          [VString (ImageID C); VInt (VirtualSize C);
           VString (humanize_Bytes C (VirtualSize C mod 2 ^ 64))] ∈ new.
Proof.
  intros Hnew Hno Hinspect Hprocess. cbn zeta. unfold OnInfo.
  rewrite Hnew, Hno, Hinspect, Hprocess.
  destruct doDebug; steps; rewrite <- ?app_assoc;
    (split; [done|]); eexists; (split; [reflexivity|]);
    split_and!; try done; unfold uint64; set_solver.
Qed.

Lemma OnInfo_completes_witness :
  let C := sampleCollaborators None false None None in
  let r := OnInfo C "/tmp/report" true "/var/state" () "app:latest" [] in
  let report := {| ReportState := CmdStateDone C; OriginalImage := "app:latest" |} in
  (image_NewInspector C "app:latest" = None
   ∧ NoImage C = false
   ∧ image_Inspect C = None
   ∧ image_ProcessCollectedData C (PrepareStateDirs C "/var/state" (ImageID C)).2 = None)
  ∧ r.1 = Ok ()
  ∧ ∃ new,
      r.2 = [] ++ new
      ∧ packageCalls new
        = [SNewInfoCommand "/tmp/report"; SDockerClientNew]
          ++ (if true then [SVersionPrint] else [])
          ++ [SImageNewInspector "app:latest"; SNoImage; SImageInspect;
              SPrepareStateDirs "/var/state" (ImageID C);
              SImageProcessCollectedData (PrepareStateDirs C "/var/state" (ImageID C)).2;
              SSave report]
      ∧ saved new = [report]
      ∧ last new = Some (SSave report)
      ∧ lines new
        = [["docker-slim[info]: state=started"];
           ["docker-slim[info]: state=completed"];
           ["docker-slim[info]: state=done"]]
      ∧ SPrintf "docker-slim[info]: info=image id=%v size.bytes=%v size.human=%v\n"
          [VString (ImageID C); VInt (VirtualSize C);
           VString (humanize_Bytes C (VirtualSize C mod 2 ^ 64))] ∈ new.
Proof.
  cbn zeta. split.
  - split_and!; reflexivity.
  - apply (OnInfo_completes (sampleCollaborators None false None None)); reflexivity.
Defined.
